(** * CEKWA backend: account-strength scoring, payment gate and the
      multi-user WhatsApp session manager

    A shallow embedding of the Go backend (package [models], package
    [services], package [whatsapp], package [handlers]) together with the
    properties of its specification.

    Conventions of the embedding
    - Go's [int] is a 64-bit integer; values are carried as [Z].  The scoring
      code only compares its inputs with constants and adds eight scores
      between 1 and 3, so no wrap-around can occur.
    - [float64] is the kernel's binary64 ([PrimFloat]); the source's float
      arithmetic is executed as written.
    - [time.Time] is a number of nanoseconds counted from Go's zero time;
      [time.Duration] is a 64-bit number of nanoseconds and [Time.Sub]
      saturates.
    - Go maps are [gmap]s; pointers to session objects are references into an
      explicit heap, so that aliasing between the registry and the
      goroutines holding a session is visible.
    - A goroutine started with [go] is a task of the world's task pool that
      some later step runs.
    - A step of the process is one call of a manager method, of [connect] or
      of [Analyze], or one step of a goroutine; the code between taking a
      lock and releasing it is never split.  [Analyze] takes its locks
      piecewise and is one step all the same.
    - What the whatsmeow library, the clock and the operating system answer
      is given to each call as a record of answers.
    - The main database is a set of in-memory tables that is always
      reachable.  The table of status rows is seen the way the code queries
      it, as the live row of each user_id.  A table that is a list is listed
      by primary key.
    - The handlers of HTTP requests are functions of what they read of the
      request; their answers are the HTTP status and the fields of the body
      that tell the answers apart.
    - [strings.ToLower] and [strings.EqualFold] are spelled out on ASCII;
      what they do to other strings, the HMAC of a body, the parser of JSON
      and the validation of a token are parameters.
    - A panic of the Go code is the result None. *)

From stdpp Require Import gmap strings list pretty.
From Stdlib Require Import ZArith Floats Uint63 Lia.

Local Open Scope string_scope.
Local Open Scope Z_scope.

(* Decimal literals such as 0.3 denote the nearest binary64 value, as the
   same constants do in the Go source. *)
#[local] Set Warnings "-inexact-float".

(* ===================================================================== *)
(** * Go primitives used by the code *)
(* ===================================================================== *)

Module golang.

(** [float64(n)] for an [int] [n]. *)
Definition float64_of_int (n : Z) : float :=
  if 0 <=? n then PrimFloat.of_uint63 (Uint63.of_Z n)
  else PrimFloat.opp (PrimFloat.of_uint63 (Uint63.of_Z (- n))).

(** [int(f)] for a [float64] [f]: truncation toward zero (finite values). *)
Definition int_of_float64 (f : float) : Z :=
  match Prim2SF f with
  | S754_finite s m e =>
      let v := if 0 <=? e then Z.pos m * 2 ^ e else Z.pos m / 2 ^ (- e) in
      if s then - v else v
  | _ => 0
  end.

(** Rounding of the rational [num / den] ([den > 0]) to the nearest
    integer, ties to even: the rounding [strconv] applies when it formats
    a binary float with a fixed number of decimals. *)
Definition round_half_even (num den : Z) : Z :=
  let q := num / den in
  let r := num mod den in
  if 2 * r <? den then q
  else if den <? 2 * r then q + 1
  else if Z.even q then q else q + 1.

(** [fmt.Sprintf("%d", n)]. *)
Definition sprintf_d (n : Z) : string := pretty n.

(** [fmt.Sprintf("%.1f", f)]. *)
Definition sprintf_1f (f : float) : string :=
  match Prim2SF f with
  | S754_finite s m e =>
      let tenths :=
        if 0 <=? e then 10 * (Z.pos m * 2 ^ e)
        else round_half_even (10 * Z.pos m) (2 ^ (- e)) in
      (if s then "-" else "") ++
      pretty (tenths / 10) ++ "." ++ pretty (tenths mod 10)
  | S754_zero s => if s then "-0.0" else "0.0"
  | S754_infinity s => if s then "-Inf" else "+Inf"
  | S754_nan => "NaN"
  end.

(** ** Time *)

Definition Time := Z.
Definition Duration := Z.

Definition Nanosecond : Duration := 1.
Definition Second : Duration := 1000000000 * Nanosecond.
Definition Minute : Duration := 60 * Second.

Definition minDuration : Duration := - 2 ^ 63.
Definition maxDuration : Duration := 2 ^ 63 - 1.

(** [t.Sub(u)]: the difference, saturated to the range of [Duration]. *)
Definition Time_Sub (t u : Time) : Duration :=
  let d := t - u in
  if d <? minDuration then minDuration
  else if maxDuration <? d then maxDuration
  else d.

(** [time.Since(u)] evaluated when the clock reads [now]. *)
Definition Since (now u : Time) : Duration := Time_Sub now u.

(** The zero [time.Time]. *)
Definition zeroTime : Time := 0.

End golang.

(* ===================================================================== *)
(** * Package models: the scoring engine (analysis.go) *)
(* ===================================================================== *)

Module models.
Import golang.

(** [ParameterEvaluation]: the evaluation result for one parameter. *)
Record ParameterEvaluation := mkParameterEvaluation {
  Parameter_ : string;   (* Go field [Parameter], a reserved word here *)
  Value : Z;
  Status : string;   (* "Baik", "Cukup", "Buruk" *)
  Score : Z          (* 3 for Baik, 2 for Cukup, 1 for Buruk *)
}.

Definition evaluateTotalChats (value : Z) : ParameterEvaluation :=
  if value >=? 100 then mkParameterEvaluation "Total Chats" value "Baik" 3
  else if value >=? 40 then mkParameterEvaluation "Total Chats" value "Cukup" 2
  else mkParameterEvaluation "Total Chats" value "Buruk" 1.

Definition evaluateTotalContacts (value : Z) : ParameterEvaluation :=
  if value >=? 200 then mkParameterEvaluation "Total Kontak" value "Baik" 3
  else if value >=? 100 then mkParameterEvaluation "Total Kontak" value "Cukup" 2
  else mkParameterEvaluation "Total Kontak" value "Buruk" 1.

Definition evaluateAccountAge (value : Z) : ParameterEvaluation :=
  if value >=? 365 then mkParameterEvaluation "Umur Akun" value "Baik" 3
  else if value >=? 90 then mkParameterEvaluation "Umur Akun" value "Cukup" 2
  else mkParameterEvaluation "Umur Akun" value "Buruk" 1.

Definition evaluateTotalGroups (value : Z) : ParameterEvaluation :=
  if value >=? 80 then mkParameterEvaluation "Total Grup" value "Baik" 3
  else if value >=? 30 then mkParameterEvaluation "Total Grup" value "Cukup" 2
  else mkParameterEvaluation "Total Grup" value "Buruk" 1.

Definition evaluateChatWithContacts (value : Z) : ParameterEvaluation :=
  if value >=? 100 then mkParameterEvaluation "Chat dengan Kontak" value "Baik" 3
  else if value >=? 30 then mkParameterEvaluation "Chat dengan Kontak" value "Cukup" 2
  else mkParameterEvaluation "Chat dengan Kontak" value "Buruk" 1.

Definition evaluateSensitiveContent (value : Z) : ParameterEvaluation :=
  if value <=? 5 then mkParameterEvaluation "Sensitivitas Chat" value "Baik" 3
  else if value <=? 10 then mkParameterEvaluation "Sensitivitas Chat" value "Cukup" 2
  else mkParameterEvaluation "Sensitivitas Chat" value "Buruk" 1.

Definition evaluateUnsavedChats (value : Z) : ParameterEvaluation :=
  if value <=? 100 then mkParameterEvaluation "Uninterested Chat" value "Baik" 3
  else if value <=? 500 then mkParameterEvaluation "Uninterested Chat" value "Cukup" 2
  else mkParameterEvaluation "Uninterested Chat" value "Buruk" 1.

Definition evaluateUnknownChats (value : Z) : ParameterEvaluation :=
  if value <=? 15 then mkParameterEvaluation "Chat tidak dikenal" value "Baik" 3
  else if value <=? 30 then mkParameterEvaluation "Chat tidak dikenal" value "Cukup" 2
  else mkParameterEvaluation "Chat tidak dikenal" value "Buruk" 1.

(** The slice [evaluations] of [CalculateStrength]. *)
Definition evaluations
    (totalChats totalContacts accountAgeDays totalGroups totalChatWithContact
     sensitiveContentCount totalUnsavedChats unknownNumberChats : Z)
    : list ParameterEvaluation :=
  [ evaluateTotalChats totalChats;
    evaluateTotalContacts totalContacts;
    evaluateAccountAge accountAgeDays;
    evaluateTotalGroups totalGroups;
    evaluateChatWithContacts totalChatWithContact;
    evaluateSensitiveContent sensitiveContentCount;
    evaluateUnsavedChats totalUnsavedChats;
    evaluateUnknownChats unknownNumberChats ].

(** [for _, eval := range evaluations { totalScore += eval.Score }]. *)
Definition totalScore (evals : list ParameterEvaluation) : Z :=
  foldl (fun acc eval => acc + Score eval) 0 evals.

(** [averageScore := float64(totalScore) / 8.0]. *)
Definition averageScore (evals : list ParameterEvaluation) : float :=
  (float64_of_int (totalScore evals) / 8)%float.

(** The overall strength chosen from the average. *)
Definition strengthOf (averageScore : float) : string :=
  if (2.5 <=? averageScore)%float then "Baik"
  else if (1.5 <=? averageScore)%float then "Cukup"
  else "Buruk".

(** The number of evaluations whose status is [st]
    ([baikCount], [cukupCount], [burukCount] of [generateSummary]). *)
Definition countStatus (st : string) (evals : list ParameterEvaluation) : Z :=
  Z.of_nat (length (filter (fun eval => Status eval = st) evals)).

(** The marker that starts each detail line, as the bytes of the source
    file spell it. *)
Definition bullet : string := "â€¢".

Definition newline : string := String (Ascii.ascii_of_nat 10) EmptyString.

Definition generateSummary (evals : list ParameterEvaluation)
    (strength : string) (averageScore : float) : string :=
  let summary := "Ringkasan Evaluasi Akun WhatsApp:" ++ newline ++ newline in
  let summary := summary ++ "Kekuatan Akun: " ++ strength ++ newline in
  let summary := summary ++ "Skor Rata-rata: " ++ sprintf_1f averageScore
                         ++ "/3.0" ++ newline ++ newline in
  let summary := summary ++ "Distribusi Parameter:" ++ newline in
  let summary := summary ++ "- Baik: " ++ sprintf_d (countStatus "Baik" evals)
                         ++ " parameter" ++ newline in
  let summary := summary ++ "- Cukup: " ++ sprintf_d (countStatus "Cukup" evals)
                         ++ " parameter" ++ newline in
  let summary := summary ++ "- Buruk: " ++ sprintf_d (countStatus "Buruk" evals)
                         ++ " parameter" ++ newline ++ newline in
  let summary := summary ++ "Detail Parameter:" ++ newline in
  foldl (fun summary eval =>
           summary ++ bullet ++ " " ++ Parameter_ eval ++ ": "
                   ++ sprintf_d (Value eval) ++ " (" ++ Status eval ++ ")"
                   ++ newline)
        summary evals.

Definition CalculateStrength
    (totalChats totalContacts accountAgeDays totalGroups totalChatWithContact
     sensitiveContentCount totalUnsavedChats unknownNumberChats : Z)
    : string * string :=
  let evals := evaluations totalChats totalContacts accountAgeDays totalGroups
                 totalChatWithContact sensitiveContentCount totalUnsavedChats
                 unknownNumberChats in
  let average := averageScore evals in
  let strength := strengthOf average in
  (strength, generateSummary evals strength average).

(** [AnalysisResult] (the columns the code fills; the gorm bookkeeping
    columns and the preloaded relations are left out). *)
Record AnalysisResult := mkAnalysisResult {
  AR_ID : N;
  AR_UserID : N;
  ScanHistoryID : option N;
  TotalChats : Z;
  TotalContacts : Z;
  AccountAgeDays : Z;
  TotalGroups : Z;
  TotalChatWithContact : Z;
  SensitiveContentCount : Z;
  TotalUnsavedChats : Z;
  UnknownNumberChats : Z;
  Strength : string;
  Summary : string;
  ScanDate : Time
}.

(** The zero value [models.AnalysisResult{}]. *)
Definition zeroAnalysisResult : AnalysisResult :=
  mkAnalysisResult 0 0 None 0 0 0 0 0 0 0 0 "" "" zeroTime.

(** [ScanHistory] rows (scan_history). *)
Record ScanHistory := mkScanHistory {
  SH_ID : N;
  SH_UserID : N;
  SH_PhoneNumber : string;
  SH_ScanDate : Time;
  SH_Status : string;
  ResultData : string;
  ErrorMsg : string
}.

(** [WhatsAppSession] rows (whatsapp_sessions): the persisted status row. *)
Record WhatsAppSession := mkWhatsAppSession {
  WS_UserID : N;
  WS_Status : string;
  DeviceID : string;
  WS_LastActivity : Time
}.

(** The column constraint of [WhatsAppSession.Status]:
    [check:status IN ('connected','disconnected','scanning')]. *)
Definition statusAllowed (status : string) : bool :=
  bool_decide (status = "connected") || bool_decide (status = "disconnected")
  || bool_decide (status = "scanning").

(** [Transaction] rows (transactions). *)
Record Transaction := mkTransaction {
  T_ID : Z;
  T_UserID : Z;
  ExternalID : string;
  InvoiceID : string;
  Currency : string;
  T_Status : string;
  PaymentMethod : string;
  PaymentChannel : string;
  Description : string;
  PhoneNumber : string
}.

#[global] Arguments CalculateStrength : simpl never.

End models.

(* ===================================================================== *)
(** * Package services: the paid-transaction queries (payment service) *)
(* ===================================================================== *)

Module services.
Import models.

(** The main database is an in-memory table here, always reachable: a
    query is a total function of the rows, and the branches of the source
    that only handle a driver error have no counterpart.  SQL's [=] on the
    text columns is equality of strings. *)

(** [CheckIfUserPaidForPhone]:
    [WHERE user_id = ? AND phone_number = ? AND status = 'paid'], [count > 0]. *)
Definition CheckIfUserPaidForPhone (db : list Transaction)
    (userID : Z) (phoneNumber : string) : bool :=
  let count :=
    Z.of_nat (length (filter (fun t => T_UserID t = userID
                                      ∧ PhoneNumber t = phoneNumber
                                      ∧ T_Status t = "paid") db)) in
  count >? 0.

(** [CheckIfUserHasAnyPaidTransaction]:
    [WHERE user_id = ? AND status = 'paid'], [count > 0]. *)
Definition CheckIfUserHasAnyPaidTransaction (db : list Transaction)
    (userID : Z) : bool :=
  let count :=
    Z.of_nat (length (filter (fun t => T_UserID t = userID
                                      ∧ T_Status t = "paid") db)) in
  count >? 0.

End services.

(* ===================================================================== *)
(** * Package whatsapp: the multi-user session manager
      (multi_user_manager.go and its HTTP handler) *)
(* ===================================================================== *)

Module whatsapp.
Import golang models.

(** ** Data of the whatsmeow library, as far as the code reads it *)

(** [types.JID]: the fields the code reads, and the text [jid.String()]
    that the library renders for it. *)
Record JID := mkJID {
  User : string;
  Server : string;
  JID_String : string
}.

#[global] Instance JID_eq_dec : EqDecision JID.
Proof. solve_decision. Defined.

#[global] Instance JID_countable : Countable JID.
Proof.
  refine (inj_countable' (fun j => (User j, Server j, JID_String j))
                         (fun t => mkJID t.1.1 t.1.2 t.2) _).
  by intros [].
Defined.

(** [types.ContactInfo]. *)
Record ContactInfo := mkContactInfo {
  FullName : string;
  BusinessName : string
}.

(** [types.GroupInfo]; the manager never reads inside it. *)
Record GroupInfo := mkGroupInfo { GroupName : string }.

(** [whatsmeow.QRChannelItem]. *)
Record QRChannelItem := mkQRChannelItem {
  Event : string;
  Code : string
}.

(** A [*whatsmeow.Client] is a handle; what the library reports about a
    client ([Store.ID], [IsConnected()], the contact store) is read from the
    environment of the call that asks. *)
Abbreviation ClientId := nat (only parsing).

(** The methods of a client that the manager calls for their effect. *)
Inductive ClientCall :=
| Call_Connect
| Call_GetQRChannel
| Call_Logout
| Call_Disconnect.

(** A [*sqlstore.Container]: the per-user credential store. *)
Inductive Container :=
| SqliteContainer (dbPath : string)
| PgxContainer (dsn : string).

(** ** The session object *)

(** [UserWhatsAppSession]. The three mutexes are not fields here: every
    function below is one critical section. *)
Record UserWhatsAppSession := mkSession {
  UserID : N;
  Client : option ClientId;
  SessionDB : option Container;
  QRCode : string;
  Ready : bool;
  Status : string;
  LastActivity : Time;
  LastConnectAttempt : Time;
  AnalysisCache : gmap string AnalysisResult;
  Groups : gmap JID GroupInfo
}.

Definition with_Client (v : option ClientId) (s : UserWhatsAppSession) :=
  mkSession (UserID s) v (SessionDB s) (QRCode s) (Ready s) (Status s)
            (LastActivity s) (LastConnectAttempt s) (AnalysisCache s) (Groups s).
Definition with_SessionDB (v : option Container) (s : UserWhatsAppSession) :=
  mkSession (UserID s) (Client s) v (QRCode s) (Ready s) (Status s)
            (LastActivity s) (LastConnectAttempt s) (AnalysisCache s) (Groups s).
Definition with_QRCode (v : string) (s : UserWhatsAppSession) :=
  mkSession (UserID s) (Client s) (SessionDB s) v (Ready s) (Status s)
            (LastActivity s) (LastConnectAttempt s) (AnalysisCache s) (Groups s).
Definition with_Ready (v : bool) (s : UserWhatsAppSession) :=
  mkSession (UserID s) (Client s) (SessionDB s) (QRCode s) v (Status s)
            (LastActivity s) (LastConnectAttempt s) (AnalysisCache s) (Groups s).
Definition with_Status (v : string) (s : UserWhatsAppSession) :=
  mkSession (UserID s) (Client s) (SessionDB s) (QRCode s) (Ready s) v
            (LastActivity s) (LastConnectAttempt s) (AnalysisCache s) (Groups s).
Definition with_LastActivity (v : Time) (s : UserWhatsAppSession) :=
  mkSession (UserID s) (Client s) (SessionDB s) (QRCode s) (Ready s) (Status s)
            v (LastConnectAttempt s) (AnalysisCache s) (Groups s).
Definition with_LastConnectAttempt (v : Time) (s : UserWhatsAppSession) :=
  mkSession (UserID s) (Client s) (SessionDB s) (QRCode s) (Ready s) (Status s)
            (LastActivity s) v (AnalysisCache s) (Groups s).
Definition with_AnalysisCache (v : gmap string AnalysisResult)
    (s : UserWhatsAppSession) :=
  mkSession (UserID s) (Client s) (SessionDB s) (QRCode s) (Ready s) (Status s)
            (LastActivity s) (LastConnectAttempt s) v (Groups s).

(** A goroutine that has been started and has not returned. *)
Inductive Task :=
| Go_saveOrUpdate (userID : N) (status : string) (ts : Time)
    (* go func(userID, status, ts) { saveOrUpdateSessionInDatabase(..) } *)
| Go_waitForQR (s : nat)
    (* go s.waitForQR(qrChan), s the address of the session *)
| Go_Connect (userID : N).
    (* go func() { m.Connect(userID) } of GetQRCode *)

(** ** The process environment *)

(** [os.Getenv] of the two variables the manager reads. *)
Record OsEnv := mkOsEnv {
  WA_STORE_DRIVER : string;
  WA_STORE_DSN : string
}.

(** [fmt.Sprintf("whatsapp_session_user_%d.db", userID)]. *)
Definition storeFile (userID : N) : string :=
  "whatsapp_session_user_" ++ pretty userID ++ ".db".

(** The files of a per-user sqlite store opened with [journal_mode=WAL]:
    the database and its write-ahead log and shared-memory files. *)
Definition storeFiles (userID : N) : gset string :=
  {[ storeFile userID; storeFile userID ++ "-wal"; storeFile userID ++ "-shm" ]}.

(** [initializeDatabase]. [sqlstore_New_ok] tells whether [sqlstore.New]
    returned without error. The result is the error, or the session with its
    [SessionDB] set together with the files the store has on disk. *)
Definition initializeDatabase (os : OsEnv) (sqlstore_New_ok : bool)
    (s : UserWhatsAppSession) : string + UserWhatsAppSession * gset string :=
  let driver := WA_STORE_DRIVER os in
  let driver := if decide (driver = "") then "sqlite" else driver in
  if decide (driver = "postgres" ∨ driver = "pgx") then
    let dsn := WA_STORE_DSN os in
    if decide (dsn = "") then
      inl "WA_STORE_DSN is required when WA_STORE_DRIVER=postgres"
    else if sqlstore_New_ok then inr (with_SessionDB (Some (PgxContainer dsn)) s, ∅)
    else inl "sqlstore.New"
  else
    (* sqlite per-user fallback (existing behavior) *)
    let dbPath := storeFile (UserID s) in
    if sqlstore_New_ok then
      inr (with_SessionDB (Some (SqliteContainer dbPath)) s, storeFiles (UserID s))
    else inl "sqlstore.New".

(** ** The world: manager, heap of session objects, database, disk *)

(** The address of a [UserWhatsAppSession]: its index in the heap. Objects
    are appended when they are constructed and never move. *)
Abbreviation Ref := nat (only parsing).

Record World := mkWorld {
  heap : list UserWhatsAppSession;             (* every session object constructed *)
  userSessions : gmap N Ref;                   (* m.userSessions *)
  whatsapp_sessions : gmap N WhatsAppSession;  (* the status rows, by user_id *)
  transactions : list Transaction;
  scan_history : list ScanHistory;
  analysis_results : list AnalysisResult;
  files : gset string;                         (* files on disk *)
  goroutines : list Task;                      (* started, not yet returned *)
  clientCalls : list (ClientId * ClientCall);  (* calls made on clients, oldest first *)
  nextClient : ClientId                        (* clients created by NewClient *)
}.

Definition with_heap v (w : World) :=
  mkWorld v (userSessions w) (whatsapp_sessions w) (transactions w)
          (scan_history w) (analysis_results w) (files w) (goroutines w)
          (clientCalls w) (nextClient w).
Definition with_userSessions v (w : World) :=
  mkWorld (heap w) v (whatsapp_sessions w) (transactions w)
          (scan_history w) (analysis_results w) (files w) (goroutines w)
          (clientCalls w) (nextClient w).
Definition with_whatsapp_sessions v (w : World) :=
  mkWorld (heap w) (userSessions w) v (transactions w)
          (scan_history w) (analysis_results w) (files w) (goroutines w)
          (clientCalls w) (nextClient w).
Definition with_scan_history v (w : World) :=
  mkWorld (heap w) (userSessions w) (whatsapp_sessions w) (transactions w)
          v (analysis_results w) (files w) (goroutines w)
          (clientCalls w) (nextClient w).
Definition with_analysis_results v (w : World) :=
  mkWorld (heap w) (userSessions w) (whatsapp_sessions w) (transactions w)
          (scan_history w) v (files w) (goroutines w)
          (clientCalls w) (nextClient w).
Definition with_files v (w : World) :=
  mkWorld (heap w) (userSessions w) (whatsapp_sessions w) (transactions w)
          (scan_history w) (analysis_results w) v (goroutines w)
          (clientCalls w) (nextClient w).
Definition with_goroutines v (w : World) :=
  mkWorld (heap w) (userSessions w) (whatsapp_sessions w) (transactions w)
          (scan_history w) (analysis_results w) (files w) v
          (clientCalls w) (nextClient w).
Definition with_clientCalls v (w : World) :=
  mkWorld (heap w) (userSessions w) (whatsapp_sessions w) (transactions w)
          (scan_history w) (analysis_results w) (files w) (goroutines w)
          v (nextClient w).
Definition with_nextClient v (w : World) :=
  mkWorld (heap w) (userSessions w) (whatsapp_sessions w) (transactions w)
          (scan_history w) (analysis_results w) (files w) (goroutines w)
          (clientCalls w) v.

(** [NewMultiUserWhatsAppManager] in a process that has done nothing yet,
    over a given table of transactions. *)
Definition NewMultiUserWhatsAppManager (txs : list Transaction) : World :=
  mkWorld [] ∅ ∅ txs [] [] ∅ [] [] 0%nat.

(** [saveOrUpdateSessionInDatabase]: upsert of the status row by user_id.
    A status outside the column's check constraint is refused by the
    database and the table stays as it was. *)
Definition saveOrUpdateSessionInDatabase (userID : N) (status : string)
    (lastActivity : Time) (tbl : gmap N WhatsAppSession)
    : gmap N WhatsAppSession :=
  let waSession :=
    mkWhatsAppSession userID status ("user_" ++ pretty userID) lastActivity in
  if statusAllowed status then
    match tbl !! userID with
    | Some existing =>
        <[userID := mkWhatsAppSession (WS_UserID existing) (WS_Status waSession)
                      (DeviceID waSession) (WS_LastActivity waSession)]> tbl
    | None => <[userID := waSession]> tbl
    end
  else tbl.

(** The session object [createNewSession] constructs:
    [&UserWhatsAppSession{UserID, Status: "disconnected", AnalysisCache,
    Groups, LastActivity: time.Now()}]. *)
Definition newSession (userID : N) (now : Time) : UserWhatsAppSession :=
  mkSession userID None None "" false "disconnected" now zeroTime ∅ ∅.

(** [createNewSession], the critical section under [m.mu.Lock()]. The
    result is the address of the session, or the error. An object that was
    constructed stays in the heap even when it is not registered. *)
Definition createNewSession (os : OsEnv) (sqlstore_New_ok : bool) (now : Time)
    (userID : N) (w : World) : World * (string + Ref) :=
  match userSessions w !! userID with
  | Some existing => (w, inr existing)
  | None =>
      let session := newSession userID now in
      let r := length (heap w) in
      match initializeDatabase os sqlstore_New_ok session with
      | inl err =>
          (with_heap (heap w ++ [session])%list w,
           inl ("failed to initialize database for user "
                  ++ pretty userID ++ ": " ++ err))
      | inr (session, created) =>
          let w := with_heap (heap w ++ [session])%list w in
          let w := with_files (files w ∪ created) w in
          let w := with_userSessions (<[userID := r]> (userSessions w)) w in
          let w := with_whatsapp_sessions
                     (saveOrUpdateSessionInDatabase (UserID session)
                        (Status session) (LastActivity session)
                        (whatsapp_sessions w)) w in
          (w, inr r)
      end
  end.

(** [GetOrCreateSession]: the optimistic read under [m.mu.RLock()], then
    [createNewSession]. *)
Definition GetOrCreateSession (os : OsEnv) (sqlstore_New_ok : bool) (now : Time)
    (userID : N) (w : World) : World * (string + Ref) :=
  match userSessions w !! userID with
  | Some session => (w, inr session)
  | None => createNewSession os sqlstore_New_ok now userID w
  end.

(** ** connect *)

(** What the environment answers while one [connect] runs. *)
Record ConnectEnv := mkConnectEnv {
  ce_now : Time;                             (* time.Now() *)
  ce_GetFirstDevice : option (option JID);   (* None: the error; Some id: a
                                                device store with that ID *)
  ce_restore_Connect_ok : bool;              (* client.Connect() of the restore *)
  ce_qr_Connect_ok : bool                    (* client.Connect() of the QR flow *)
}.

(** What one [connect] did besides changing the session. *)
Record ConnectOutcome := mkConnectOutcome {
  co_session : UserWhatsAppSession;
  co_err : option string;
  co_go : list Task;            (* goroutines started, in order *)
  co_calls : list ClientCall;   (* calls on the client of NewClient, in order *)
  co_NewClient : bool           (* whether NewClient was called *)
}.

(** [connect], the critical section under [s.mu.Lock()]. [self] is the
    address of [s] and [client] the client that [NewClient] returns. *)
Definition connect (self : Ref) (client : ClientId) (e : ConnectEnv)
    (s : UserWhatsAppSession) : ConnectOutcome :=
  (* Guard: avoid connect storms *)
  if decide (Status s = "connected") then mkConnectOutcome s None [] [] false
  else if decide (Status s = "scanning" ∨ Status s = "connecting") then
    mkConnectOutcome s None [] [] false
  else if Since (ce_now e) (LastConnectAttempt s) <? 5 * Second then
    mkConnectOutcome s None [] [] false
  else
    let s := with_LastConnectAttempt (ce_now e) s in
    let s := with_Status "connecting" s in
    let s := with_LastActivity (ce_now e) s in
    let go1 := Go_saveOrUpdate (UserID s) (Status s) (LastActivity s) in
    match ce_GetFirstDevice e with
    | None =>
        mkConnectOutcome s (Some "failed to get device store") [go1] [] false
    | Some deviceStoreID =>
        let restored :=
          match deviceStoreID with
          | Some _ => ce_restore_Connect_ok e
          | None => false
          end in
        let callsRestore :=
          match deviceStoreID with Some _ => [Call_Connect] | None => [] end in
        if restored then
          (* Session restored successfully *)
          let s := with_Client (Some client) s in
          let s := with_Status "connected" s in
          let s := with_Ready true s in
          let s := with_QRCode "" s in
          let s := with_LastActivity (ce_now e) s in
          let go2 := Go_saveOrUpdate (UserID s) (Status s) (LastActivity s) in
          mkConnectOutcome s None [go1; go2] callsRestore true
        else
          (* No valid session (clearInvalidSession does nothing):
             generate QR code *)
          let calls := (callsRestore ++ [Call_GetQRChannel; Call_Connect])%list in
          if ce_qr_Connect_ok e then
            let s := with_Client (Some client) s in
            let s := with_Status "scanning" s in
            let s := with_LastActivity (ce_now e) s in
            let go2 := Go_saveOrUpdate (UserID s) (Status s) (LastActivity s) in
            mkConnectOutcome s None [go1; go2; Go_waitForQR self] calls true
          else
            mkConnectOutcome s (Some "failed to connect client") [go1] calls true
    end.


(** [connect] on the session object at address [r] of the world. *)
Definition connectAt (r : Ref) (e : ConnectEnv) (w : World)
    : World * option string :=
  match heap w !! r with
  | None => (w, Some "nil session")
  | Some s =>
      let o := connect r (nextClient w) e s in
      let w := with_heap (<[r := co_session o]> (heap w)) w in
      let w := with_goroutines (goroutines w ++ co_go o)%list w in
      let w := with_clientCalls
                 (clientCalls w ++ map (pair (nextClient w)) (co_calls o))%list w in
      let w := if co_NewClient o
               then with_nextClient (S (nextClient w)) w else w in
      (w, co_err o)
  end.

(** [MultiUserWhatsAppManager.Connect]. *)
Definition Connect (os : OsEnv) (sqlstore_New_ok : bool) (e : ConnectEnv)
    (userID : N) (w : World) : World * option string :=
  match GetOrCreateSession os sqlstore_New_ok (ce_now e) userID w with
  | (w, inl err) => (w, Some err)
  | (w, inr session) => connectAt session e w
  end.

(** ** waitForQR *)

(** The wait of the pairing watcher: [2 * time.Minute]. *)
Definition qrWaitTimeout : Duration := 2 * Minute.

(** What the environment answers during one turn of the watcher's loop:
    the next item of the QR channel with the time it took to arrive, if one
    arrives at all, and the image [qrcode.Encode] made of its code, already
    in base64 ([None]: the encoder's error). *)
Record WaitEnv := mkWaitEnv {
  we_now : Time;
  we_arrival : option (Duration * QRChannelItem);
  we_qrBase64 : option string
}.

(** The case the [select] takes: the channel's, when an item arrives before
    the timer fires, and the timer's otherwise. *)
Inductive SelectCase :=
| Case_item (item : QRChannelItem)
| Case_timeout.

Definition select (e : WaitEnv) : SelectCase :=
  match we_arrival e with
  | Some (waited, item) =>
      if waited <? qrWaitTimeout then Case_item item else Case_timeout
  | None => Case_timeout
  end.

Inductive LoopControl := Continue | Return.

(** One turn of the loop of [waitForQR]: the session after it, the status
    row the watcher persists itself (if any), and whether the watcher goes
    round again or returns. *)
Definition waitForQR_turn (e : WaitEnv) (s : UserWhatsAppSession)
    : UserWhatsAppSession * option (N * string * Time) * LoopControl :=
  match select e with
  | Case_item item =>
      if decide (Event item = "code") then
        match we_qrBase64 e with
        | None => (s, None, Continue)
        | Some qrBase64 =>
            (with_QRCode ("data:image/png;base64," ++ qrBase64) s, None, Continue)
        end
      else if decide (Event item = "success") then
        let s := with_Status "connected" s in
        let s := with_Ready true s in
        let s := with_QRCode "" s in
        let s := with_LastActivity (we_now e) s in
        (s, Some (UserID s, Status s, LastActivity s), Return)
      else (s, None, Continue)
  | Case_timeout =>
      let s := with_Status "disconnected" s in
      let s := with_QRCode "" s in
      (s, Some (UserID s, Status s, we_now e), Return)
  end.

(** ** Analyze *)

(** What the environment answers while one [Analyze] runs. *)
Record AnalyzeEnv := mkAnalyzeEnv {
  ae_now : Time;
  ae_StoreID : option JID;                           (* client.Store.ID *)
  ae_GetAllContacts : option (gmap JID ContactInfo); (* None: the error *)
  ae_GetJoinedGroups : option Z;                     (* len(groups); None: the error *)
  ae_GetAllContacts_age : option (gmap JID ContactInfo)
                                   (* the fetch made by estimateAccountAge *)
}.

(** [isValidCache]. *)
Definition isValidCache (e : AnalyzeEnv) (s : UserWhatsAppSession)
    (result : AnalysisResult) : bool :=
  if decide (TotalContacts result = 0 ∧ TotalChats result = 0) then false
  else if decide (Client s ≠ None ∧ ae_StoreID e ≠ None) then true
  else false.

(** [ClearAnalysisCache]. *)
Definition ClearAnalysisCache (s : UserWhatsAppSession) : UserWhatsAppSession :=
  with_AnalysisCache ∅ s.

(** A contact counts as saved when it has a name other than "Unknown". *)
Definition isSaved (contact : ContactInfo) : Prop :=
  FullName contact ≠ "" ∧ FullName contact ≠ "Unknown".

#[global] Instance isSaved_dec contact : Decision (isSaved contact).
Proof. unfold isSaved. apply _. Defined.

(** [len(m)] of a Go map. *)
Definition len {K A} `{Countable K} (m : gmap K A) : Z :=
  Z.of_nat (base.size m).

(** The number of keys of a contact map on the group server. *)
Definition countGroups (contacts : gmap JID ContactInfo) : Z :=
  len (filter (fun kv => Server kv.1 = "g.us") contacts).

Definition estimateTotalChats (contacts : gmap JID ContactInfo) : Z :=
  let savedContactsCount := len contacts in
  savedContactsCount
  + int_of_float64 (float64_of_int savedContactsCount * 0.3)%float.

Definition calculateTotalGroups (e : AnalyzeEnv) (s : UserWhatsAppSession)
    (contacts : gmap JID ContactInfo) : Z :=
  let totalGroups := 0 in
  let contactGroups := countGroups contacts in
  let totalGroups :=
    match Client s with
    | Some _ =>
        match ae_GetJoinedGroups e with
        | Some n => n
        | None => totalGroups
        end
    | None => totalGroups
    end in
  let storedGroups := len (Groups s) in
  let totalGroups :=
    if (storedGroups >? 0) && (storedGroups >? totalGroups) then storedGroups
    else totalGroups in
  if totalGroups =? 0 then contactGroups else totalGroups.

Definition estimateChatsWithContacts (contacts : gmap JID ContactInfo) : Z :=
  int_of_float64 (float64_of_int (len contacts) * 0.8)%float.

Definition estimateSensitiveContent (contacts : gmap JID ContactInfo) : Z :=
  int_of_float64 (float64_of_int (len contacts) * 0.1)%float.

(** [for _, char := range clientID { hash += int(char) }]: the text of a
    JID is ASCII, so its runes are its bytes. *)
Fixpoint sumRunes (str : string) : Z :=
  match str with
  | EmptyString => 0
  | String c rest => Z.of_nat (Ascii.nat_of_ascii c) + sumRunes rest
  end.

Definition estimateAccountAge (e : AnalyzeEnv) : Z :=
  match ae_StoreID e with
  | None => 365
  | Some storeID =>
      let contacts := default ∅ (ae_GetAllContacts_age e) in
      let '(estimatedAge, confidenceScore) :=
        if decide (ae_GetAllContacts_age e ≠ None ∧ len contacts > 0) then
          let contactCount := len contacts in
          let savedContacts := len (filter (fun kv => isSaved kv.2) contacts) in
          let groupContacts := countGroups contacts in
          (* Factor 1: total contacts *)
          let baseAge :=
            if contactCount >=? 1000 then 1095
            else if contactCount >=? 500 then 730
            else if contactCount >=? 200 then 365
            else if contactCount >=? 100 then 180
            else if contactCount >=? 50 then 90
            else 30 in
          (* Factor 2: saved vs unsaved contacts ratio *)
          let savedRatio :=
            (float64_of_int savedContacts / float64_of_int contactCount)%float in
          let baseAge :=
            if (0.8 <? savedRatio)%float then baseAge + 60
            else if (0.6 <? savedRatio)%float then baseAge + 30
            else baseAge in
          (* Factor 3: group participation *)
          let baseAge :=
            if groupContacts >=? 50 then baseAge + 90
            else if groupContacts >=? 20 then baseAge + 45
            else if groupContacts >=? 5 then baseAge + 15
            else baseAge in
          (* Factor 4: account maturity indicators *)
          let baseAge :=
            if (contactCount >? 0) && (savedContacts >? 0) then
              let estimatedDailyGrowth :=
                (float64_of_int contactCount / 365)%float in
              if (2 <? estimatedDailyGrowth)%float then baseAge + 120
              else if (1 <? estimatedDailyGrowth)%float then baseAge + 60
              else if (0.5 <? estimatedDailyGrowth)%float then baseAge + 30
              else baseAge
            else baseAge in
          (baseAge, 85)
        else
          let hash := sumRunes (JID_String storeID) in
          (90 + Z.rem hash 640, 30) in
      let estimatedAge :=
        if confidenceScore >=? 80 then estimatedAge
        else if confidenceScore >=? 50 then
          let variation := Z.quot estimatedAge 10 in
          estimatedAge + variation * 2 - variation
        else
          let variation := Z.quot estimatedAge 5 in
          estimatedAge + variation * 2 - variation in
      if estimatedAge <? 30 then 30
      else if estimatedAge >? 1825 then 1825
      else estimatedAge
  end.

(** How [Analyze] ended before it turned to the main database. *)
Inductive Analysis :=
| Analysis_error (err : string)
| Analysis_cached (result : AnalysisResult)
| Analysis_computed (result : AnalysisResult).

(** [Analyze] up to and including the write of the cache. *)
Definition Analyze (e : AnalyzeEnv) (s : UserWhatsAppSession)
    : UserWhatsAppSession * Analysis :=
  match Client s with
  | None => (s, Analysis_error "WhatsApp not connected")
  | Some client =>
      if negb (Ready s) then
        (s, Analysis_error "WhatsApp not logged in. Please scan QR code first")
      else
        let cachedData := AnalysisCache s !! "current_session" in
        let served :=
          match cachedData with
          | Some result => if isValidCache e s result then Some result else None
          | None => None
          end in
        match served with
        | Some result => (s, Analysis_cached result)
        | None =>
            let s := match cachedData with
                     | Some _ => ClearAnalysisCache s
                     | None => s
                     end in
            match ae_GetAllContacts e with
            | None => (s, Analysis_error "failed to get contacts")
            | Some allContacts =>
                if len allContacts =? 0 then
                  (s, Analysis_error
                        "contacts not loaded yet. Please wait a moment and try again")
                else
                  let savedContacts := filter (fun kv => isSaved kv.2) allContacts in
                  let unsavedContacts :=
                    filter (fun kv => ¬ isSaved kv.2) allContacts in
                  let contacts := savedContacts in
                  let totalContacts := len contacts in
                  let totalChats := estimateTotalChats contacts in
                  let totalGroups := calculateTotalGroups e s contacts in
                  let totalChatWithContact := estimateChatsWithContacts contacts in
                  let totalUnsavedChats := len unsavedContacts in
                  let unknownNumberChats := len unsavedContacts in
                  let sensitiveContentCount := estimateSensitiveContent contacts in
                  let accountAgeDays := estimateAccountAge e in
                  let strength :=
                    CalculateStrength totalChats totalContacts accountAgeDays
                      totalGroups totalChatWithContact sensitiveContentCount
                      totalUnsavedChats unknownNumberChats in
                  let rating := strength.1 in
                  let summary := strength.2 in
                  let result :=
                    mkAnalysisResult 0 (UserID s) None totalChats totalContacts
                      accountAgeDays totalGroups totalChatWithContact
                      sensitiveContentCount totalUnsavedChats unknownNumberChats
                      rating summary (ae_now e) in
                  (with_AnalysisCache
                     (<["current_session" := result]> (AnalysisCache s)) s,
                   Analysis_computed result)
            end
        end
  end.

(** [strings.Split(clientID, ":")[0]]. *)
Fixpoint beforeColon (str : string) : string :=
  match str with
  | EmptyString => EmptyString
  | String c rest =>
      if decide (c = Ascii.ascii_of_nat 58) then EmptyString
      else String c (beforeColon rest)
  end.

(** The phone number [createScanHistory] records. *)
Definition scanPhoneNumber (storeID : option JID) : string :=
  match storeID with
  | Some id => "+" ++ beforeColon (JID_String id)
  | None => "Unknown"
  end.

(** [Analyze] on the session object at address [r]: the part above, then
    [createScanHistory] and [SaveAnalysisResult]; the database numbers new
    rows from 1. *)
Definition AnalyzeAt (r : Ref) (e : AnalyzeEnv) (w : World)
    : World * (string + AnalysisResult) :=
  match heap w !! r with
  | None => (w, inl "nil session")
  | Some s =>
      let '(s, a) := Analyze e s in
      let w := with_heap (<[r := s]> (heap w)) w in
      match a with
      | Analysis_error err => (w, inl err)
      | Analysis_cached result => (w, inr result)
      | Analysis_computed result =>
          let scanHistoryID := N.of_nat (S (length (scan_history w))) in
          let scanHistory :=
            mkScanHistory scanHistoryID (UserID s)
              (scanPhoneNumber (ae_StoreID e)) (ae_now e) "success" "{}" "" in
          let w := with_scan_history (scan_history w ++ [scanHistory])%list w in
          let result :=
            mkAnalysisResult (N.of_nat (S (length (analysis_results w))))
              (AR_UserID result) (Some scanHistoryID) (TotalChats result)
              (TotalContacts result) (AccountAgeDays result) (TotalGroups result)
              (TotalChatWithContact result) (SensitiveContentCount result)
              (TotalUnsavedChats result) (UnknownNumberChats result)
              (Strength result) (Summary result) (ScanDate result) in
          let w := with_analysis_results
                     (analysis_results w ++ [result])%list w in
          (w, inr result)
      end
  end.

(** ** The manager's queries *)

(** [GetQRCode]. When there is no code yet and the status is none of
    connected, scanning and connecting, it starts a goroutine that calls
    [Connect]. *)
Definition GetQRCode (os : OsEnv) (sqlstore_New_ok : bool) (now : Time)
    (userID : N) (w : World) : World * (string + string) :=
  match GetOrCreateSession os sqlstore_New_ok now userID w with
  | (w, inl err) => (w, inl err)
  | (w, inr session) =>
      match heap w !! session with
      | None => (w, inl "nil session")
      | Some s =>
          let qrAvailable := bool_decide (QRCode s ≠ "") in
          let status := Status s in
          let w :=
            if negb qrAvailable && bool_decide (status ≠ "connected")
               && bool_decide (status ≠ "scanning")
               && bool_decide (status ≠ "connecting")
            then with_goroutines (goroutines w ++ [Go_Connect userID])%list w
            else w in
          (w, inr (QRCode s))
      end
  end.

(** [GetStatus]. *)
Definition GetStatus (os : OsEnv) (sqlstore_New_ok : bool) (now : Time)
    (userID : N) (w : World) : World * (string + string) :=
  match GetOrCreateSession os sqlstore_New_ok now userID w with
  | (w, inl err) => (w, inl err)
  | (w, inr session) =>
      match heap w !! session with
      | None => (w, inl "nil session")
      | Some s => (w, inr (Status s))
      end
  end.

(** [IsReady]. *)
Definition IsReady (os : OsEnv) (sqlstore_New_ok : bool) (now : Time)
    (userID : N) (w : World) : World * bool :=
  match GetOrCreateSession os sqlstore_New_ok now userID w with
  | (w, inl err) => (w, false)
  | (w, inr session) =>
      match heap w !! session with
      | None => (w, false)
      | Some s => (w, Ready s)
      end
  end.

(** [GetClient]. *)
Definition GetClient (os : OsEnv) (sqlstore_New_ok : bool) (now : Time)
    (userID : N) (w : World) : World * option ClientId :=
  match GetOrCreateSession os sqlstore_New_ok now userID w with
  | (w, inl err) => (w, None)
  | (w, inr session) =>
      match heap w !! session with
      | None => (w, None)
      | Some s => (w, Client s)
      end
  end.

(** The lookup of the cache slot that [GetCachedAnalysis] makes on a
    session: a hit needs an entry that is not all zero. *)
Definition cachedAnalysis (s : UserWhatsAppSession) : option AnalysisResult :=
  match AnalysisCache s !! "current_session" with
  | Some result =>
      if (TotalContacts result >? 0) || (TotalChats result >? 0)
      then Some result else None
  | None => None
  end.

(** [GetCachedAnalysis]: it reads the registry and never creates. *)
Definition GetCachedAnalysis (userID : N) (w : World) : option AnalysisResult :=
  match userSessions w !! userID with
  | None => None
  | Some session =>
      match heap w !! session with
      | None => None
      | Some s => cachedAnalysis s
      end
  end.

(** [IsAnalysisReady]. *)
Definition IsAnalysisReady (userID : N) (w : World) : bool :=
  bool_decide (GetCachedAnalysis userID w ≠ None).

(** ** Logout *)

(** What [Logout] writes into the session object. *)
Definition logoutSession (s : UserWhatsAppSession) : UserWhatsAppSession :=
  let s := with_Status "disconnected" s in
  let s := with_Ready false s in
  let s := with_QRCode "" s in
  ClearAnalysisCache s.

(** [Logout], the critical section under [m.mu.Lock()]. It always returns
    nil. *)
Definition Logout (os : OsEnv) (userID : N) (w : World) : World :=
  match userSessions w !! userID with
  | None =>
      (* Update database even if no session in memory *)
      with_whatsapp_sessions
        (alter (fun row => mkWhatsAppSession (WS_UserID row) "disconnected"
                             (DeviceID row) (WS_LastActivity row))
               userID (whatsapp_sessions w)) w
  | Some session =>
      match heap w !! session with
      | None => w
      | Some s =>
          (* Fully logout & disconnect client *)
          let w :=
            match Client s with
            | Some client =>
                with_clientCalls
                  (clientCalls w ++ [(client, Call_Logout);
                                     (client, Call_Disconnect)])%list w
            | None => w
            end in
          (* If using sqlite store, remove local persisted files *)
          let w :=
            if decide (WA_STORE_DRIVER os = "" ∨ WA_STORE_DRIVER os = "sqlite")
            then with_files (files w ∖ storeFiles (UserID s)) w
            else w in
          (* Clear in-memory session data *)
          let w := with_heap (<[session := logoutSession s]> (heap w)) w in
          (* Remove from memory cache *)
          let w := with_userSessions (delete userID (userSessions w)) w in
          (* Remove persisted session record *)
          with_whatsapp_sessions (delete userID (whatsapp_sessions w)) w
      end
  end.

(** ** HandleAnalyze *)

(** The answers of the handler, by HTTP status and, for 402, by the
    [error_type] of the body. *)
Inductive Response :=
| ServiceUnavailable (error : string)                    (* 503 *)
| InternalServerError (error : string)                   (* 500 *)
| PaymentRequired (error_type : string) (phone : string) (* 402 *)
| OK_cached (result : AnalysisResult)                    (* 200, cached: true *)
| OK_analysis (result : AnalysisResult).                 (* 200, cached: false *)

Record HandlerEnv := mkHandlerEnv {
  he_sqlstore_New_ok : bool;
  he_IsConnected : bool;       (* client.IsConnected() *)
  he_analyze : AnalyzeEnv      (* with client.Store.ID as [ae_StoreID] *)
}.

(** [HandleAnalyze] after the checks on the payment: cache, readiness,
    analysis. *)
Definition serveAnalysis (os : OsEnv) (e : HandlerEnv) (userID : N) (w : World)
    : World * Response :=
  let now := ae_now (he_analyze e) in
  match GetCachedAnalysis userID w with
  | Some cachedResult => (w, OK_cached cachedResult)
  | None =>
      let '(w, ready) := IsReady os (he_sqlstore_New_ok e) now userID w in
      if negb ready then
        (w, ServiceUnavailable "WhatsApp not logged in. Please scan QR code first")
      else if negb (he_IsConnected e) then
        (w, ServiceUnavailable
              "WhatsApp client not connected. Please reconnect and try again")
      else
        match GetOrCreateSession os (he_sqlstore_New_ok e) now userID w with
        | (w, inl err) => (w, InternalServerError err)
        | (w, inr session) =>
            match AnalyzeAt session (he_analyze e) w with
            | (w, inl err) => (w, InternalServerError err)
            | (w, inr analysisResult) => (w, OK_analysis analysisResult)
            end
        end
  end.

(** [HandleAnalyze] for a GET request whose token names [userID]. *)
Definition HandleAnalyze (os : OsEnv) (e : HandlerEnv) (userID : N) (w : World)
    : World * Response :=
  let now := ae_now (he_analyze e) in
  let '(w, client) := GetClient os (he_sqlstore_New_ok e) now userID w in
  match client, ae_StoreID (he_analyze e) with
  | Some _, Some storeID =>
      let whatsappPhoneNumber := User storeID in
      if decide (whatsappPhoneNumber = "") then
        (w, InternalServerError "Could not extract phone number from WhatsApp")
      else
        let hasPaidForPhone :=
          services.CheckIfUserPaidForPhone (transactions w) (Z.of_N userID)
            whatsappPhoneNumber in
        if negb hasPaidForPhone then
          let hasAnyPaidTransaction :=
            services.CheckIfUserHasAnyPaidTransaction (transactions w)
              (Z.of_N userID) in
          if hasAnyPaidTransaction
          then (w, PaymentRequired "wrong_phone_number" whatsappPhoneNumber)
          else (w, PaymentRequired "no_payment" whatsappPhoneNumber)
        else serveAnalysis os e userID w
  | _, _ => (w, ServiceUnavailable "WhatsApp client not available")
  end.

(** ** Running the goroutines *)

(** What the environment answers to a goroutine when it takes a step. *)
Record TaskEnv := mkTaskEnv {
  te_sqlstore_New_ok : bool;
  te_connect : ConnectEnv;
  te_wait : WaitEnv
}.

Definition removeAt {A} (i : nat) (l : list A) : list A :=
  (take i l ++ drop (S i) l)%list.

(** One step of the [i]-th goroutine: a persisting goroutine and a
    [Connect] goroutine run to their end; a pairing watcher makes one turn
    of its loop. *)
Definition runGoroutine (os : OsEnv) (i : nat) (e : TaskEnv) (w : World) : World :=
  match goroutines w !! i with
  | None => w
  | Some (Go_saveOrUpdate userID status ts) =>
      let w := with_goroutines (removeAt i (goroutines w)) w in
      with_whatsapp_sessions
        (saveOrUpdateSessionInDatabase userID status ts (whatsapp_sessions w)) w
  | Some (Go_Connect userID) =>
      let w := with_goroutines (removeAt i (goroutines w)) w in
      (Connect os (te_sqlstore_New_ok e) (te_connect e) userID w).1
  | Some (Go_waitForQR r) =>
      match heap w !! r with
      | None => w
      | Some s =>
          let '(s, persist, control) := waitForQR_turn (te_wait e) s in
          let w := with_heap (<[r := s]> (heap w)) w in
          let w :=
            match persist with
            | Some (userID, status, ts) =>
                with_whatsapp_sessions
                  (saveOrUpdateSessionInDatabase userID status ts
                     (whatsapp_sessions w)) w
            | None => w
            end in
          match control with
          | Continue => w
          | Return => with_goroutines (removeAt i (goroutines w)) w
          end
      end
  end.

(** ** Histories of the process *)

(** The calls that reach the manager, the calls of [connect] and [Analyze]
    by a caller that holds the address of a session (taken from the registry
    at some earlier moment, so possibly of a session that has been logged out
    since), and the steps of the goroutines. *)
Inductive Op :=
| Op_GetOrCreateSession (userID : N) (sqlstore_New_ok : bool) (now : Time)
| Op_Connect (userID : N) (sqlstore_New_ok : bool) (e : ConnectEnv)
| Op_GetQRCode (userID : N) (sqlstore_New_ok : bool) (now : Time)
| Op_GetStatus (userID : N) (sqlstore_New_ok : bool) (now : Time)
| Op_IsReady (userID : N) (sqlstore_New_ok : bool) (now : Time)
| Op_GetClient (userID : N) (sqlstore_New_ok : bool) (now : Time)
| Op_Logout (userID : N)
| Op_HandleAnalyze (userID : N) (e : HandlerEnv)
| Op_ForceAnalysis (userID : N) (sqlstore_New_ok : bool) (e : AnalyzeEnv)
| Op_connect (session : nat) (e : ConnectEnv)
| Op_Analyze (session : nat) (e : AnalyzeEnv)
| Op_goroutine (i : nat) (e : TaskEnv).

(** [HandleForceAnalysis] for a POST request whose token names [userID]:
    readiness, client, then [Analyze], without the payment gate. *)
Definition HandleForceAnalysis (os : OsEnv) (sqlstore_New_ok : bool)
    (e : AnalyzeEnv) (userID : N) (w : World) : World * Response :=
  let '(w, ready) := IsReady os sqlstore_New_ok (ae_now e) userID w in
  if negb ready then (w, ServiceUnavailable "WhatsApp not ready. Please connect first.")
  else
    let '(w, client) := GetClient os sqlstore_New_ok (ae_now e) userID w in
    match client with
    | None => (w, ServiceUnavailable "WhatsApp client not available")
    | Some _ =>
        match GetOrCreateSession os sqlstore_New_ok (ae_now e) userID w with
        | (w, inl err) => (w, InternalServerError err)
        | (w, inr session) =>
            match AnalyzeAt session e w with
            | (w, inl err) => (w, InternalServerError err)
            | (w, inr result) => (w, OK_analysis result)
            end
        end
    end.

Definition exec (os : OsEnv) (op : Op) (w : World) : World :=
  match op with
  | Op_GetOrCreateSession u ok now => (GetOrCreateSession os ok now u w).1
  | Op_Connect u ok e => (Connect os ok e u w).1
  | Op_GetQRCode u ok now => (GetQRCode os ok now u w).1
  | Op_GetStatus u ok now => (GetStatus os ok now u w).1
  | Op_IsReady u ok now => (IsReady os ok now u w).1
  | Op_GetClient u ok now => (GetClient os ok now u w).1
  | Op_Logout u => Logout os u w
  | Op_HandleAnalyze u e => (HandleAnalyze os e u w).1
  | Op_ForceAnalysis u ok e => (HandleForceAnalysis os ok e u w).1
  | Op_connect session e => (connectAt session e w).1
  | Op_Analyze session e => (AnalyzeAt session e w).1
  | Op_goroutine i e => runGoroutine os i e w
  end.

(** The world after a history, oldest step first. *)
Definition run (os : OsEnv) (ops : list Op) (w : World) : World :=
  foldl (fun w op => exec os op w) w ops.

(** A world the process can be in: reached from a fresh manager. *)
Definition reachable (os : OsEnv) (w : World) : Prop :=
  ∃ txs ops, w = run os ops (NewMultiUserWhatsAppManager txs).

(** ** The single-user client (client.go) *)

(** [WhatsApp]: the single-user counterpart of a session, with the fields
    the status monitor and the cache read and write. *)
Record WhatsApp := mkWhatsApp {
  wa_client : option ClientId;
  wa_qrCode : string;
  wa_ready : bool;
  wa_analysisData : gmap string AnalysisResult
}.


(** The cache lookup of the single-user [Analyze]: the entry of the slot,
    if [isValidCache] accepts it. *)
Definition wa_cachedAnalysis (storeID : option JID) (w : WhatsApp)
    : option AnalysisResult :=
  match wa_analysisData w !! "current_session" with
  | Some result =>
      if decide (TotalContacts result = 0 ∧ TotalChats result = 0) then None
      else if decide (wa_client w ≠ None ∧ storeID ≠ None) then Some result
      else None
  | None => None
  end.

(** ** Concurrent callers of GetOrCreateSession *)

(** Where a goroutine stands inside [GetOrCreateSession]. The registry lock
    makes each of its two critical sections one atomic step: the read under
    [m.mu.RLock()], and [createNewSession] under [m.mu.Lock()]. *)
Inductive CallerPc :=
| At_RLock                         (* about to read the registry *)
| At_Lock                          (* the read found nothing *)
| Returned (result : string + nat).

Definition callerStep (os : OsEnv) (sqlstore_New_ok : bool) (now : Time)
    (userID : N) (pc : CallerPc) (w : World) : World * CallerPc :=
  match pc with
  | At_RLock =>
      match userSessions w !! userID with
      | Some session => (w, Returned (inr session))
      | None => (w, At_Lock)
      end
  | At_Lock =>
      let '(w, result) := createNewSession os sqlstore_New_ok now userID w in
      (w, Returned result)
  | Returned result => (w, Returned result)
  end.

(** One turn of the scheduler: which caller moves, and what the environment
    answers to it. *)
Record Turn := mkTurn {
  turn_caller : nat;
  turn_sqlstore_New_ok : bool;
  turn_now : Time
}.

Definition interleave_step (os : OsEnv) (userID : N) (t : Turn)
    (st : World * list CallerPc) : World * list CallerPc :=
  match st.2 !! turn_caller t with
  | None => st
  | Some pc =>
      let r := callerStep os (turn_sqlstore_New_ok t) (turn_now t) userID pc st.1 in
      (r.1, <[turn_caller t := r.2]> st.2)
  end.

(** Any interleaving of callers that all ask for the same user. *)
Definition interleave (os : OsEnv) (userID : N) (schedule : list Turn)
    (st : World * list CallerPc) : World * list CallerPc :=
  foldl (fun st t => interleave_step os userID t st) st schedule.

(** The number of turns a caller gets in a schedule. *)
Definition turnsOf (i : nat) (schedule : list Turn) : nat :=
  length (filter (fun t => turn_caller t = i) schedule).

End whatsapp.

(* ===================================================================== *)
(** * Package strings of Go, on byte strings *)
(* ===================================================================== *)

Module gostrings.

(** [strings.HasPrefix(s, prefix)]. *)
Fixpoint HasPrefix (s prefix : string) {struct prefix} : bool :=
  match prefix with
  | EmptyString => true
  | String c prefix' =>
      match s with
      | EmptyString => false
      | String d s' => if decide (c = d) then HasPrefix s' prefix' else false
      end
  end.

(** [s[n:]] for [n <= len(s)]. *)
Fixpoint sliceFrom (n : nat) (s : string) {struct n} : string :=
  match n, s with
  | O, _ => s
  | S n', String _ s' => sliceFrom n' s'
  | S _, EmptyString => EmptyString
  end.

(** [strings.TrimPrefix(s, prefix)]. *)
Definition TrimPrefix (s prefix : string) : string :=
  if HasPrefix s prefix then sliceFrom (String.length prefix) s else s.

(** [s[lo:]] and [s[:hi]] of Go; None: the slice bounds are out of range
    and the call panics. *)
Definition sliceFromZ (lo : Z) (s : string) : option string :=
  if (0 <=? lo) && (lo <=? Z.of_nat (String.length s))
  then Some (sliceFrom (Z.to_nat lo) s) else None.

Definition sliceToZ (hi : Z) (s : string) : option string :=
  if (0 <=? hi) && (hi <=? Z.of_nat (String.length s))
  then Some (String.substring 0 (Z.to_nat hi) s) else None.

(** ** Letter case *)

Definition byteOf (c : Ascii.ascii) : Z := Z.of_nat (Ascii.nat_of_ascii c).

(** Every byte of the string is below [utf8.RuneSelf]. *)
Fixpoint isASCII (s : string) : bool :=
  match s with
  | EmptyString => true
  | String c s' => (byteOf c <? 128) && isASCII s'
  end.

(** ['A' <= c && c <= 'Z'] and [c += 'a' - 'A']. *)
Definition lowerByte (c : Ascii.ascii) : Ascii.ascii :=
  if (65 <=? byteOf c) && (byteOf c <=? 90)
  then Ascii.ascii_of_nat (Ascii.nat_of_ascii c + 32)
  else c.

Fixpoint mapBytes (f : Ascii.ascii -> Ascii.ascii) (s : string) : string :=
  match s with
  | EmptyString => EmptyString
  | String c s' => String (f c) (mapBytes f s')
  end.

(** Two bytes of ASCII strings that [EqualFold] takes for equal. *)
Definition foldEqByte (c d : Ascii.ascii) : bool :=
  bool_decide (lowerByte c = lowerByte d).

Fixpoint foldEqBytes (s t : string) : bool :=
  match s, t with
  | EmptyString, EmptyString => true
  | String c s', String d t' => foldEqByte c d && foldEqBytes s' t'
  | _, _ => false
  end.

Section unicode.

(** What the [unicode] tables make of a string that has a byte outside
    ASCII: [strings.Map(unicode.ToLower, s)] and the rune-wise comparison of
    [strings.EqualFold]. On ASCII strings both functions are spelled out. *)
Variable unicode_ToLower : string -> string.
Variable unicode_EqualFold : string -> string -> bool.

(** [strings.ToLower(s)]. *)
Definition ToLower (s : string) : string :=
  if isASCII s then mapBytes lowerByte s else unicode_ToLower s.

(** [strings.EqualFold(s, t)]. *)
Definition EqualFold (s t : string) : bool :=
  if isASCII s && isASCII t then foldEqBytes s t else unicode_EqualFold s t.

End unicode.

End gostrings.

(* ===================================================================== *)
(** * Package whatsapp: the HTTP handlers of the multi-user manager *)
(* ===================================================================== *)

Module handler.
Import golang models whatsapp gostrings.

(** What a handler reads of an [*http.Request]. *)
Record Request := mkRequest {
  Method : string;
  Authorization : string      (* r.Header.Get("Authorization") *)
}.

(** What the environment answers while one request is served.
    [re_ValidateToken] is [AuthService.ValidateToken]: the error of the JWT
    library, or the user id of the claims. *)
Record RequestEnv := mkRequestEnv {
  re_ValidateToken : string -> string + N;
  re_handler : HandlerEnv;
  re_connect : ConnectEnv
}.

(** [extractUserIDFromToken]. *)
Definition extractUserIDFromToken (e : RequestEnv) (r : Request) : string + N :=
  let authHeader := Authorization r in
  if decide (authHeader = "") then inl "authorization header required"
  else
    let tokenString := TrimPrefix authHeader "Bearer " in
    if decide (tokenString = authHeader) then
      inl "invalid authorization header format"
    else
      match re_ValidateToken e tokenString with
      | inl err => inl ("invalid token: " ++ err)
      | inr userID => inr userID
      end.

(** [GetSessionInfo]: it reads the registry and never creates. *)
Record SessionInfo := mkSessionInfo {
  si_status : string;
  si_ready : bool;
  si_has_qr : bool;
  si_has_client : bool;
  si_last_activity : Time
}.

Definition GetSessionInfo (userID : N) (w : World) : option SessionInfo :=
  match userSessions w !! userID with
  | None => None                        (* "exists": false *)
  | Some session =>
      match heap w !! session with
      | None => None
      | Some s =>
          Some (mkSessionInfo (Status s) (Ready s) (bool_decide (QRCode s ≠ ""))
                  (bool_decide (Client s ≠ None)) (LastActivity s))
      end
  end.

(** The bodies the handlers write, by the fields that tell them apart. *)
Inductive Body :=
| Body_MethodNotAllowed
| Body_Unauthorized (error : string)
| Body_Error (error : string)
| Body_Text (text : string)                     (* http.Error *)
| Body_QRPending (ready : bool)                 (* "qr": "", "message", "ready" *)
| Body_QR (qr : string)
| Body_Status (ready : bool) (whatsapp_status : string) (analysis_ready : bool)
              (phone_mismatch : option (string * string))
                                                (* error_type and phone *)
| Body_NoActiveSession                          (* "No active session found" *)
| Body_Success (message : string)
| Body_Debug (client_exists client_ready : bool) (whatsapp_status : string)
             (client_connected : option bool) (client_id : option string)
             (session : option SessionInfo).

Record HttpResponse := mkHttpResponse {
  StatusCode : Z;
  body : Body
}.

Definition methodNotAllowed : HttpResponse := mkHttpResponse 405 Body_MethodNotAllowed.
Definition unauthorized (err : string) : HttpResponse :=
  mkHttpResponse 401 (Body_Unauthorized err).

(** [HandleQR]. *)
Definition HandleQR (os : OsEnv) (e : RequestEnv) (r : Request) (w : World)
    : World * HttpResponse :=
  let ok := he_sqlstore_New_ok (re_handler e) in
  let now := ae_now (he_analyze (re_handler e)) in
  if decide (Method r ≠ "GET") then (w, methodNotAllowed)
  else
    match extractUserIDFromToken e r with
    | inl err => (w, unauthorized err)
    | inr userID =>
        match GetQRCode os ok now userID w with
        | (w, inl err) => (w, mkHttpResponse 500 (Body_Error "Failed to get QR code"))
        | (w, inr qrCode) =>
            if decide (qrCode = "") then
              let '(w, ready) := IsReady os ok now userID w in
              (w, mkHttpResponse 200 (Body_QRPending ready))
            else (w, mkHttpResponse 200 (Body_QR qrCode))
        end
    end.

(** The [phone_mismatch] entry of [HandleStatus]: the payment check on the
    number the client is bound to. *)
Definition phoneMismatch (e : RequestEnv) (userID : N) (client : option nat)
    (w : World) : option (string * string) :=
  match client, ae_StoreID (he_analyze (re_handler e)) with
  | Some _, Some storeID =>
      let whatsappPhoneNumber := User storeID in
      if decide (whatsappPhoneNumber = "") then None
      else
        let hasPaidForPhone :=
          services.CheckIfUserPaidForPhone (transactions w) (Z.of_N userID)
            whatsappPhoneNumber in
        if negb hasPaidForPhone then
          let hasAnyPaidTransaction :=
            services.CheckIfUserHasAnyPaidTransaction (transactions w)
              (Z.of_N userID) in
          if hasAnyPaidTransaction
          then Some ("wrong_phone_number", whatsappPhoneNumber)
          else Some ("no_payment", whatsappPhoneNumber)
        else None
  | _, _ => None
  end.

(** [HandleStatus]. *)
Definition HandleStatus (os : OsEnv) (e : RequestEnv) (r : Request) (w : World)
    : World * HttpResponse :=
  let ok := he_sqlstore_New_ok (re_handler e) in
  let now := ae_now (he_analyze (re_handler e)) in
  if decide (Method r ≠ "GET") then (w, methodNotAllowed)
  else
    match extractUserIDFromToken e r with
    | inl err => (w, unauthorized err)
    | inr userID =>
        let '(w, status) := IsReady os ok now userID w in
        let '(w, waStatus) :=
          match GetStatus os ok now userID w with
          | (w, inl err) => (w, "disconnected")
          | (w, inr waStatus) => (w, waStatus)
          end in
        let analysisReady := IsAnalysisReady userID w in
        if status then
          let '(w, client) := GetClient os ok now userID w in
          (w, mkHttpResponse 200
                (Body_Status status waStatus analysisReady
                   (phoneMismatch e userID client w)))
        else
          (w, mkHttpResponse 200 (Body_Status status waStatus analysisReady None))
    end.

(** [HandleLogout]. *)
Definition HandleLogout (os : OsEnv) (e : RequestEnv) (r : Request) (w : World)
    : World * HttpResponse :=
  let ok := he_sqlstore_New_ok (re_handler e) in
  let now := ae_now (he_analyze (re_handler e)) in
  if decide (Method r ≠ "POST") then (w, methodNotAllowed)
  else
    match extractUserIDFromToken e r with
    | inl err => (w, unauthorized err)
    | inr userID =>
        (* Check if user has an active session before logout *)
        let '(w, client) := GetClient os ok now userID w in
        match client with
        | None => (w, mkHttpResponse 200 Body_NoActiveSession)
        | Some _ =>
            (Logout os userID w,
             mkHttpResponse 200 (Body_Success "WhatsApp logged out successfully"))
        end
    end.

(** [HandleRefreshQR]: the refresh itself is not implemented. *)
Definition HandleRefreshQR (e : RequestEnv) (r : Request) (w : World)
    : World * HttpResponse :=
  if decide (Method r ≠ "POST") then (w, methodNotAllowed)
  else
    match extractUserIDFromToken e r with
    | inl err => (w, unauthorized err)
    | inr userID => (w, mkHttpResponse 200 (Body_Success "QR code refresh initiated"))
    end.

(** [HandleManualReconnect]. *)
Definition HandleManualReconnect (os : OsEnv) (e : RequestEnv) (r : Request)
    (w : World) : World * HttpResponse :=
  let ok := he_sqlstore_New_ok (re_handler e) in
  if decide (Method r ≠ "POST") then (w, methodNotAllowed)
  else
    match extractUserIDFromToken e r with
    | inl err => (w, unauthorized err)
    | inr userID =>
        match Connect os ok (re_connect e) userID w with
        | (w, Some err) =>
            (w, mkHttpResponse 500 (Body_Text "Failed to reconnect WhatsApp"))
        | (w, None) =>
            (w, mkHttpResponse 200 (Body_Success "WhatsApp reconnection initiated"))
        end
    end.

(** [HandleDebug]. *)
Definition HandleDebug (os : OsEnv) (e : RequestEnv) (r : Request) (w : World)
    : World * HttpResponse :=
  let ok := he_sqlstore_New_ok (re_handler e) in
  let now := ae_now (he_analyze (re_handler e)) in
  if decide (Method r ≠ "GET") then (w, methodNotAllowed)
  else
    match extractUserIDFromToken e r with
    | inl err => (w, unauthorized err)
    | inr userID =>
        let '(w, client) := GetClient os ok now userID w in
        let '(w, status) := IsReady os ok now userID w in
        let '(w, waStatus) :=
          match GetStatus os ok now userID w with
          | (w, inl err) => (w, "")
          | (w, inr waStatus) => (w, waStatus)
          end in
        let client_connected :=
          match client with
          | Some _ => Some (he_IsConnected (re_handler e))
          | None => None
          end in
        let client_id :=
          match client with
          | Some _ => JID_String <$> ae_StoreID (he_analyze (re_handler e))
          | None => None
          end in
        (w, mkHttpResponse 200
              (Body_Debug (bool_decide (client ≠ None)) status waStatus
                 client_connected client_id (GetSessionInfo userID w)))
    end.

End handler.

(* ===================================================================== *)
(** * Package services: the payment service *)
(* ===================================================================== *)

Module payments.
Import golang models gostrings.

(** A row of the table of transactions: the columns the access gate reads,
    and the amount and the three time stamps. The table is listed by primary
    key; no code deletes from it. *)
Record TransactionRow := mkTransactionRow {
  row : Transaction;
  Amount : float;
  CreatedAt : Time;
  UpdatedAt : Time;
  PaidAt : option Time
}.

(** The table as the access gate sees it. *)
Definition gateView (tbl : list TransactionRow) : list Transaction := row <$> tbl.

(** [models.CreatePaymentRequest]. *)
Record CreatePaymentRequest := mkCreatePaymentRequest {
  req_Email : string;
  req_Category : string;
  req_PaymentMethod : string;
  req_Amount : float;
  req_PhoneNumber : string
}.

(** What [XenditService.CreateInvoice] and [GetInvoice] return of an
    invoice. *)
Record XenditInvoiceResponse := mkXenditInvoiceResponse {
  inv_ID : string;
  inv_InvoiceURL : string;
  inv_Status : string;
  inv_ExpiryDate : string
}.

(** [models.CreatePaymentResponse]. *)
Record CreatePaymentResponse := mkCreatePaymentResponse {
  resp_ID : Z;
  resp_ExternalID : string;
  resp_InvoiceID : string;
  resp_InvoiceURL : string;
  resp_Amount : float;
  resp_Status : string;
  resp_PaymentMethod : string;
  resp_CreatedAt : Time;
  resp_ExpiryDate : string
}.

(** [t.Unix()]: the seconds since 1970, for a [t] counted from Go's zero
    time. *)
Definition unixToInternal : Z := 62135596800.
Definition Unix (t : Time) : Z := t / Second - unixToInternal.

(** The primary key the database gives to a new row. *)
Definition nextID (tbl : list TransactionRow) : Z :=
  1 + foldr Z.max 0 (T_ID ∘ row <$> tbl).

(** [saveTransaction]: [db.Create]; the column external_id carries a unique
    index. *)
Definition saveTransaction (driverError : string) (transaction : TransactionRow)
    (tbl : list TransactionRow) : list TransactionRow * (string + Z) :=
  if bool_decide (ExternalID (row transaction) ∈ (ExternalID ∘ row <$> tbl)) then
    (tbl, inl ("failed to insert transaction: " ++ driverError))
  else
    let id := nextID tbl in
    let r := row transaction in
    let saved :=
      mkTransactionRow
        (mkTransaction id (T_UserID r) (ExternalID r) (InvoiceID r) (Currency r)
           (T_Status r) (PaymentMethod r) (PaymentChannel r) (Description r)
           (PhoneNumber r))
        (Amount transaction) (CreatedAt transaction) (UpdatedAt transaction)
        (PaidAt transaction) in
    ((tbl ++ [saved])%list, inr id).

(** What the environment answers while [CreatePayment] runs. *)
Record CreatePaymentEnv := mkCreatePaymentEnv {
  cp_now : Time;                 (* time.Now() of the external id *)
  cp_CreatedAt : Time;           (* the three later readings of the clock *)
  cp_UpdatedAt : Time;
  cp_responseCreatedAt : Time;
  cp_driverError : string;       (* the driver's text for a violated index *)
  cp_CreateInvoice : string + XenditInvoiceResponse
}.

(** [CreatePayment]. *)
Definition CreatePayment (e : CreatePaymentEnv) (req : CreatePaymentRequest)
    (userID : Z) (tbl : list TransactionRow)
    : list TransactionRow * (string + CreatePaymentResponse) :=
  let externalID :=
    "cekwa_" ++ sprintf_d userID ++ "_" ++ sprintf_d (Unix (cp_now e)) in
  match cp_CreateInvoice e with
  | inl err => (tbl, inl ("xendit_error: " ++ err))
  | inr invoiceResp =>
      let transaction :=
        mkTransactionRow
          (mkTransaction 0 userID externalID (inv_ID invoiceResp) "IDR" "pending"
             (req_PaymentMethod req) "" (req_Category req) (req_PhoneNumber req))
          (req_Amount req) (cp_CreatedAt e) (cp_UpdatedAt e) None in
      match saveTransaction (cp_driverError e) transaction tbl with
      | (tbl, inl err) => (tbl, inl ("failed to save transaction: " ++ err))
      | (tbl, inr transactionID) =>
          (tbl, inr (mkCreatePaymentResponse transactionID externalID
                       (inv_ID invoiceResp) (inv_InvoiceURL invoiceResp)
                       (req_Amount req) "pending" (req_PaymentMethod req)
                       (cp_responseCreatedAt e) (inv_ExpiryDate invoiceResp)))
      end
  end.

(** [GetTransactionByExternalID]. *)
Definition GetTransactionByExternalID (externalID : string)
    (tbl : list TransactionRow) : string + TransactionRow :=
  match filter (fun t => ExternalID (row t) = externalID) tbl with
  | transaction :: _ => inr transaction
  | [] => inl "transaction not found"
  end.

Section unicode.

Variable unicode_ToLower : string -> string.
Variable unicode_EqualFold : string -> string -> bool.

Abbreviation ToLower := (ToLower unicode_ToLower).
Abbreviation EqualFold := (EqualFold unicode_EqualFold).

(** The [switch] of [UpdateTransactionStatus]. *)
Definition normalizeStatus (status : string) : string :=
  let normalized := ToLower status in
  if decide (normalized = "paid" ∨ normalized = "settled"
             ∨ normalized = "success" ∨ normalized = "successful") then "paid"
  else if decide (normalized = "expired") then "expired"
  else if decide (normalized = "failed" ∨ normalized = "voided"
                  ∨ normalized = "canceled" ∨ normalized = "cancelled")
  then "failed"
  else if decide (normalized = "pending" ∨ normalized = "unpaid"
                  ∨ normalized = "open") then "pending"
  else normalized.

(** The two readings of the clock of [UpdateTransactionStatus]. *)
Record UpdateClock := mkUpdateClock { uc_updated_at : Time; uc_paid_at : Time }.

(** [UpdateTransactionStatus]: the [Updates] of every row with the external
    id. It returns nil whether or not a row matched. *)
Definition UpdateTransactionStatus (now : UpdateClock)
    (externalID status paymentChannel : string) (tbl : list TransactionRow)
    : list TransactionRow :=
  let normalized := normalizeStatus status in
  (fun t =>
     if decide (ExternalID (row t) = externalID) then
       let r := row t in
       mkTransactionRow
         (mkTransaction (T_ID r) (T_UserID r) (ExternalID r) (InvoiceID r)
            (Currency r) normalized (PaymentMethod r) paymentChannel
            (Description r) (PhoneNumber r))
         (Amount t) (CreatedAt t) (uc_updated_at now)
         (if decide (normalized = "paid") then Some (uc_paid_at now)
          else PaidAt t)
     else t) <$> tbl.

(** What the environment answers while a reconciliation runs. *)
Record ReconcileEnv := mkReconcileEnv {
  rc_now : UpdateClock;
  rc_GetInvoice : string -> string + XenditInvoiceResponse
}.

(** [ReconcileTransactionStatusByExternalID]. *)
Definition ReconcileTransactionStatusByExternalID (e : ReconcileEnv)
    (externalID : string) (tbl : list TransactionRow)
    : list TransactionRow * (string + TransactionRow) :=
  match GetTransactionByExternalID externalID tbl with
  | inl err => (tbl, inl err)
  | inr current =>
      (* If not pending, nothing to do *)
      if decide (ToLower (T_Status (row current)) ≠ "pending") then
        (tbl, inr current)
      else
        match rc_GetInvoice e (InvoiceID (row current)) with
        | inl err => (tbl, inr current)
        | inr invoice =>
            let tbl :=
              UpdateTransactionStatus (rc_now e) externalID (inv_Status invoice)
                (PaymentChannel (row current)) tbl in
            (tbl, GetTransactionByExternalID externalID tbl)
        end
  end.

(** ** The webhook handlers *)

(** [models.WebhookPayload]: the fields the handlers read. *)
Record WebhookPayload := mkWebhookPayload {
  wp_ExternalID : string;
  wp_Status : string;
  wp_PaymentChannel : string
}.

(** What a webhook handler reads of the request, and what [json] makes of
    its body. *)
Record WebhookRequest := mkWebhookRequest {
  wr_Method : string;
  wr_body : option string;                 (* io.ReadAll; None: the error *)
  X_Xendit_Signature : string;
  X_Callback_Signature : string;
  X_Xendit_Callback_Signature : string;
  X_Callback_Token : string
}.

Record WebhookOsEnv := mkWebhookOsEnv {
  XENDIT_WEBHOOK_TOKEN : string;
  XENDIT_WEBHOOK_DISABLE_VERIFY : string
}.

(** [hex.EncodeToString] of the HMAC-SHA256 of the payload under the key. *)
Variable hmac_sha256_hex : string -> string -> string.

(** [json.Unmarshal] of a body into a [WebhookPayload]; None: the error. *)
Variable json_Unmarshal : string -> option WebhookPayload.

(** [verifyWebhookSignature]. *)
Definition verifyWebhookSignature (os : WebhookOsEnv)
    (payload signature legacyToken : string) : bool :=
  let webhookToken := XENDIT_WEBHOOK_TOKEN os in
  if decide (webhookToken = "") then true
  else if decide (legacyToken ≠ "" ∧ legacyToken = webhookToken) then true
  else if decide (signature = "") then false
  else
    let expected := hmac_sha256_hex webhookToken payload in
    if EqualFold signature expected then true else false.

(** The answers of the webhook handlers: HTTP status and text. *)
Definition WebhookResponse : Type := Z * string.

(** [WebhookHandler.HandleXenditWebhook]. *)
Definition HandleXenditWebhook (os : WebhookOsEnv) (now : UpdateClock)
    (r : WebhookRequest) (tbl : list TransactionRow)
    : list TransactionRow * WebhookResponse :=
  if decide (wr_Method r ≠ "POST") then (tbl, (405, "Method not allowed"))
  else
    match wr_body r with
    | None => (tbl, (400, "Failed to read request body"))
    | Some body =>
        let signature := X_Xendit_Signature r in
        let signature :=
          if decide (signature = "") then X_Callback_Signature r else signature in
        let signature :=
          if decide (signature = "") then X_Xendit_Callback_Signature r
          else signature in
        let legacyToken := X_Callback_Token r in
        if negb (verifyWebhookSignature os body signature legacyToken)
           && negb (EqualFold (XENDIT_WEBHOOK_DISABLE_VERIFY os) "true")
        then (tbl, (401, "Invalid webhook signature"))
        else
          match json_Unmarshal body with
          | None => (tbl, (400, "Invalid webhook payload"))
          | Some payload =>
              (UpdateTransactionStatus now (wp_ExternalID payload)
                 (wp_Status payload) (wp_PaymentChannel payload) tbl,
               (200, "Webhook processed successfully"))
          end
    end.

(** ** The payment handler *)

(** [PaymentHandler.getUserIDFromToken]; 0: no user. *)
Definition getUserIDFromToken (ValidateToken : string -> string + N)
    (authHeader : string) : Z :=
  if decide (authHeader = "") then 0
  else
    let authHeader :=
      if (7 <? Z.of_nat (String.length authHeader))
         && bool_decide (String.substring 0 7 authHeader = "Bearer ")
      then sliceFrom 7 authHeader else authHeader in
    match ValidateToken authHeader with
    | inl err => 0
    | inr claims_UserID => Z.of_N claims_UserID
    end.

(** What [GetPaymentStatus] reads of the request. *)
Record StatusRequest := mkStatusRequest {
  sr_Method : string;
  sr_Path : string;
  sr_Authorization : string
}.

(** The answers of [GetPaymentStatus]. *)
Inductive StatusResponse :=
| StatusError (code : Z) (message : string)
| StatusOK (transaction : TransactionRow).

(** [PaymentHandler.GetPaymentStatus]; None: the handler panics. *)
Definition GetPaymentStatus (ValidateToken : string -> string + N)
    (e : ReconcileEnv) (r : StatusRequest) (tbl : list TransactionRow)
    : option (list TransactionRow * StatusResponse) :=
  if decide (sr_Method r ≠ "GET") then
    Some (tbl, StatusError 405 "Method not allowed")
  else
    externalID ← sliceFromZ (Z.of_nat (String.length "/api/payments/")) (sr_Path r);
    externalID ←
      (if 0 <? Z.of_nat (String.length externalID) then
         suffix ← sliceFromZ (Z.of_nat (String.length externalID) - 7) externalID;
         if decide (suffix = "/status")
         then sliceToZ (Z.of_nat (String.length externalID) - 7) externalID
         else Some externalID
       else Some externalID);
    if decide (externalID = "") then
      Some (tbl, StatusError 400 "External ID is required")
    else
      let userID := getUserIDFromToken ValidateToken (sr_Authorization r) in
      if decide (userID = 0) then Some (tbl, StatusError 401 "Unauthorized")
      else
        match ReconcileTransactionStatusByExternalID e externalID tbl with
        | (tbl, inl err) => Some (tbl, StatusError 404 "Transaction not found")
        | (tbl, inr transaction) =>
            if decide (T_UserID (row transaction) ≠ userID) then
              Some (tbl, StatusError 401 "Unauthorized")
            else Some (tbl, StatusOK transaction)
        end.

End unicode.

End payments.

(* ===================================================================== *)
(** * Package services: the one-time codes *)
(* ===================================================================== *)

Module otp.
Import golang.

(** Arithmetic of [uint64]. *)
Definition wrap64 (x : Z) : Z := x mod 2 ^ 64.

(** [for i := 0; i < length; i++ { mod *= 10 }], for the turns that are
    left. *)
Fixpoint timesTen (turns : nat) (mod_ : Z) : Z :=
  match turns with
  | O => mod_
  | S turns' => timesTen turns' (wrap64 (mod_ * 10))
  end.

Fixpoint repeatByte (n : nat) (c : Ascii.ascii) : string :=
  match n with
  | O => EmptyString
  | S n' => String c (repeatByte n' c)
  end.

(** [fmt.Sprintf(fmt.Sprintf("%%0%dd", length), val)] for a [val] that is
    not negative. The format is [%0<length>d]: a width that is zero is no
    width, and the minus sign of a negative one is the flag that pads with
    blanks on the right. *)
Definition sprintf_0wd (length val : Z) : string :=
  let digits := sprintf_d val in
  if 0 <=? length then
    repeatByte (Z.to_nat length - String.length digits) (Ascii.ascii_of_nat 48)
      ++ digits
  else
    digits
      ++ repeatByte (Z.to_nat (- length) - String.length digits)
           (Ascii.ascii_of_nat 32).

(** [generateNumericCode]. [seed] is [binary.LittleEndian.Uint64(buf)] of the
    eight random bytes; None: the division by zero panics. *)
Definition generateNumericCode (seed : Z) (length : Z) : option string :=
  let mod_ := timesTen (Z.to_nat length) 1 in
  if decide (mod_ = 0) then None
  else
    let val := seed mod mod_ in
    Some (sprintf_0wd length val).

End otp.

(* ===================================================================== *)
(** * Package services: the analysis service and its history *)
(* ===================================================================== *)

Module analysisService.
Import golang models whatsapp.

(** The count of the results [WHERE scan_history_id = ?]. *)
Definition remaining (scanID : N) (results : list AnalysisResult) : Z :=
  Z.of_nat (length (filter (fun a => ScanHistoryID a = Some scanID) results)).

(** The clean-up of one scan: the row of the history goes when no result
    refers to it any more, and only if it is the user's. *)
Definition dropScanIfUnused (userID : N) (scanID : N) (w : World) : World :=
  if decide (remaining scanID (analysis_results w) = 0) then
    with_scan_history
      (filter (fun sh => ¬ (SH_ID sh = scanID ∧ SH_UserID sh = userID))
         (scan_history w)) w
  else w.

(** The answers of the deletions: the error, or [RowsAffected]. *)
Definition Deleted : Type := string + Z.

(** [DeleteAnalysisByID]. *)
Definition DeleteAnalysisByID (userID analysisID : N) (w : World)
    : World * Deleted :=
  match filter (fun a => AR_ID a = analysisID ∧ AR_UserID a = userID)
          (analysis_results w) with
  | [] => (w, inl "record not found")
  | analysisResult :: _ =>
      let kept :=
        filter (fun a => ¬ (AR_ID a = analysisID ∧ AR_UserID a = userID))
          (analysis_results w) in
      let rowsAffected :=
        Z.of_nat (length (analysis_results w)) - Z.of_nat (length kept) in
      let w := with_analysis_results kept w in
      let w :=
        match ScanHistoryID analysisResult with
        | Some scanID => dropScanIfUnused userID scanID w
        | None => w
        end in
      (w, inr rowsAffected)
  end.

(** [DeleteAnalysesByIDs]. The keys of [refCounts] are visited in some
    order; the visits commute. *)
Definition DeleteAnalysesByIDs (userID : N) (ids : list N) (w : World)
    : World * Deleted :=
  if decide (length ids = 0%nat) then (w, inr 0)
  else
    let toDelete :=
      filter (fun a => AR_UserID a = userID ∧ AR_ID a ∈ ids)
        (analysis_results w) in
    let refCounts : gset N :=
      list_to_set (omap ScanHistoryID toDelete) in
    let kept :=
      filter (fun a => ¬ (AR_UserID a = userID ∧ AR_ID a ∈ ids))
        (analysis_results w) in
    let rowsAffected :=
      Z.of_nat (length (analysis_results w)) - Z.of_nat (length kept) in
    let w := with_analysis_results kept w in
    let w := foldr (dropScanIfUnused userID) w (elements refCounts) in
    (w, inr rowsAffected).

(** [DeleteAllAnalyses]. *)
Definition DeleteAllAnalyses (userID : N) (w : World) : World * Deleted :=
  let scanIDs :=
    omap ScanHistoryID
      (filter (fun a => AR_UserID a = userID) (analysis_results w)) in
  let kept := filter (fun a => ¬ (AR_UserID a = userID)) (analysis_results w) in
  let rowsAffected :=
    Z.of_nat (length (analysis_results w)) - Z.of_nat (length kept) in
  let w := with_analysis_results kept w in
  let w := foldl (fun w scanID => dropScanIfUnused userID scanID w) w scanIDs in
  (w, inr rowsAffected).

End analysisService.

(* ===================================================================== *)
(** * Package whatsapp: the monitors of the single-user client *)
(* ===================================================================== *)

Module client.
Import golang models whatsapp.

(** What a turn of the [select] of [monitorQR] receives: an item of the QR
    channel, with what [qrcode.Encode] makes of its code (the PNG in base64,
    or None for the error), or the stop signal. *)
Inductive Received :=
| Recv_item (evt : QRChannelItem) (qrBase64 : option string)
| Recv_stop.

(** The goroutine of [monitorQR]: the client it writes to, its counter, and
    the refreshes it has started, each with the time it sleeps first. *)
Record Monitor := mkMonitor {
  mon_w : WhatsApp;
  timeoutCount : Z;
  refreshes : list Duration
}.

(** How a turn of a loop ends. *)
Inductive Control := Running | Stopped | Panicked.

Definition maxTimeouts : Z := 5.

Definition set_qrCode (qrCode : string) (w : WhatsApp) : WhatsApp :=
  mkWhatsApp (wa_client w) qrCode (wa_ready w) (wa_analysisData w).

(** One turn of the loop of [monitorQR]. The slice [evt.Code[:20]] of the
    log line panics on a code of fewer than twenty bytes. *)
Definition monitorQR_turn (r : Received) (m : Monitor) : Monitor * Control :=
  match r with
  | Recv_item evt qrBase64 =>
      if decide (Event evt = "code") then
        (* Reset timeout count on successful QR generation *)
        let m := mkMonitor (mon_w m) 0 (refreshes m) in
        match qrBase64 with
        | None => (m, Running)
        | Some qrBase64 =>
            let m :=
              mkMonitor (set_qrCode ("data:image/png;base64," ++ qrBase64) (mon_w m))
                (timeoutCount m) (refreshes m) in
            if Z.of_nat (String.length (Code evt)) <? 20 then (m, Panicked)
            else (m, Running)
        end
      else if decide (Event evt = "timeout") then
        let timeoutCount := timeoutCount m + 1 in
        let m := mkMonitor (set_qrCode "" (mon_w m)) timeoutCount (refreshes m) in
        if timeoutCount >=? maxTimeouts then (m, Stopped)
        else
          (* Exponential backoff: wait longer between each retry *)
          let backoffDelay := (timeoutCount * timeoutCount) * Second in
          let backoffDelay :=
            if backoffDelay >? 30 * Second then 30 * Second else backoffDelay in
          (mkMonitor (mon_w m) timeoutCount (refreshes m ++ [backoffDelay])%list,
           Running)
      else (m, Running)
  | Recv_stop => (m, Stopped)
  end.

(** [monitorQR] over what its [select] receives, in order, for as long as
    it runs. *)
Fixpoint monitorQR_loop (received : list Received) (m : Monitor)
    : Monitor * Control :=
  match received with
  | [] => (m, Running)
  | r :: received' =>
      match monitorQR_turn r m with
      | (m, Running) => monitorQR_loop received' m
      | stopped => stopped
      end
  end.

Definition monitorQR (received : list Received) (w : WhatsApp)
    : Monitor * Control :=
  monitorQR_loop received (mkMonitor w 0 []).

(** What a look of [waitForContactsAndSetReady] at the contact store
    gives: the error, or the number of contacts. *)
Definition Contacts : Type := option Z.

Definition set_ready (ready : bool) (w : WhatsApp) : WhatsApp :=
  mkWhatsApp (wa_client w) (wa_qrCode w) ready (wa_analysisData w).

(** The loop [for attempt < maxAttempts] of [waitForContactsAndSetReady],
    with the attempts that are left and the answers of the store still to
    come; no other goroutine writes to the client meanwhile. *)
Fixpoint waitForContacts_loop (left : nat) (answers : nat -> Contacts)
    (attempt : nat) (w : WhatsApp) : WhatsApp :=
  match left with
  | O =>
      (* Contact loading timeout, setting ready anyway *)
      set_ready true w
  | S left' =>
      match wa_client w with
      | None => w
      | Some _ =>
          match answers attempt with
          | Some contacts =>
              if contacts >? 0 then set_ready true w
              else waitForContacts_loop left' answers (S attempt) w
          | None => waitForContacts_loop left' answers (S attempt) w
          end
      end
  end.

(** [waitForContactsAndSetReady]; [answers] is what the contact store
    answers to the first, second, ... look. *)
Definition waitForContactsAndSetReady (answers : nat -> Contacts) (w : WhatsApp)
    : WhatsApp :=
  let maxAttempts := 5%nat in
  waitForContacts_loop maxAttempts answers 0 w.

End client.


(* ===================================================================== *)
(** * The vocabulary of the properties *)
(* ===================================================================== *)

Import golang models whatsapp.

(** ** Scoring *)

(** The specification's reading of the scoring: three buckets, their
    points, and the two kinds of threshold. *)
Inductive Bucket := Good | Fair | Poor.

Definition points (b : Bucket) : Z :=
  match b with Good => 3 | Fair => 2 | Poor => 1 end.

(** The labels are in Indonesian in the program. *)
Definition bucketLabel (b : Bucket) : string :=
  match b with Good => "Baik" | Fair => "Cukup" | Poor => "Buruk" end.

Definition higherIsBetter (good fair value : Z) : Bucket :=
  if good <=? value then Good else if fair <=? value then Fair else Poor.

Definition lowerIsBetter (good fair value : Z) : Bucket :=
  if value <=? good then Good else if value <=? fair then Fair else Poor.

(** The buckets of the eight metrics, in the order of [evaluations]. *)
Definition bucketsOf
    (totalChats totalContacts accountAgeDays totalGroups totalChatWithContact
     sensitiveContentCount totalUnsavedChats unknownNumberChats : Z)
    : list Bucket :=
  [ higherIsBetter 100 40 totalChats;
    higherIsBetter 200 100 totalContacts;
    higherIsBetter 365 90 accountAgeDays;
    higherIsBetter 80 30 totalGroups;
    higherIsBetter 100 30 totalChatWithContact;
    lowerIsBetter 5 10 sensitiveContentCount;
    lowerIsBetter 100 500 totalUnsavedChats;
    lowerIsBetter 15 30 unknownNumberChats ].

Definition sumZ (l : list Z) : Z := foldr Z.add 0 l.

(** Each evaluator is its threshold rule: the label of the bucket, the
    points of the bucket, and the value it was given. *)
Definition bucketed (eval : ParameterEvaluation) (b : Bucket) (value : Z) : Prop :=
  models.Status eval = bucketLabel b ∧ Score eval = points b ∧ Value eval = value.

(** ** The access gate *)

(** A paid transaction of a user for a phone number. *)
Definition paidFor (db : list Transaction) (userID : Z) (phone : string) : Prop :=
  ∃ t, t ∈ db ∧ T_UserID t = userID ∧ PhoneNumber t = phone ∧ T_Status t = "paid".

(** A paid transaction of a user for some other phone number. *)
Definition paidForAnother (db : list Transaction) (userID : Z) (phone : string)
    : Prop :=
  ∃ t, t ∈ db ∧ T_UserID t = userID ∧ PhoneNumber t ≠ phone ∧ T_Status t = "paid".

(** A request that gets 402 was stopped by the gate; every other answer
    means that the gate let it through. *)
Definition passedGate (resp : Response) : Prop :=
  match resp with PaymentRequired _ _ => False | _ => True end.

(** ** The transition diagram of the status *)






(** ** Session objects and their cache *)

(** Every session object of the world has the property [P]. *)
Definition heapAll (P : UserWhatsAppSession -> Prop) (w : World) : Prop :=
  Forall P (heap w).

(** The number of fetched contacts whose full name is empty or "Unknown". *)
Definition unsavedCount (allContacts : gmap JID ContactInfo) : Z :=
  len (filter (fun kv => FullName kv.2 = "" ∨ FullName kv.2 = "Unknown")
              allContacts).

(** Both unsaved metrics of a result are the unsaved count of one and the
    same fetch of the contacts. *)
Definition countsUnsaved (result : AnalysisResult) : Prop :=
  ∃ allContacts, TotalUnsavedChats result = unsavedCount allContacts
                 ∧ UnknownNumberChats result = unsavedCount allContacts.

(** A session that is not ready has an empty cache, and every cached result
    has its two unsaved metrics equal to one unsaved count. *)
Definition sessionInv (s : UserWhatsAppSession) : Prop :=
  (Ready s = false -> AnalysisCache s = ∅)
  ∧ map_Forall (fun _ result => countsUnsaved result) (AnalysisCache s).

(** The only ways a step changes the session object at an address: not at
    all, or by one [connect], one turn of its watcher, one [Analyze], or the
    writes of [Logout]. *)
Inductive touch (s : UserWhatsAppSession) : UserWhatsAppSession -> Prop :=
| touch_none : touch s s
| touch_connect self client e : touch s (co_session (connect self client e s))
| touch_waitForQR e : touch s (waitForQR_turn e s).1.1
| touch_Analyze e : touch s (Analyze e s).1
| touch_logout : touch s (logoutSession s).

(** Every object of [w] is still there in [w'], unchanged. *)
Definition extends (w w' : World) : Prop :=
  ∀ r s, heap w !! r = Some s -> heap w' !! r = Some s.

(** Every object of [w] is still there in [w'], touched at most once. *)
Definition touches (w w' : World) : Prop :=
  ∀ r s, heap w !! r = Some s -> ∃ s', heap w' !! r = Some s' ∧ touch s s'.

(** ** The registry *)

(** The world [w'] is [w] with one more session object, [s1], registered
    for [u], its store files on disk and its status row persisted. *)
Definition registered (u : N) (now : Time) (s1 : UserWhatsAppSession)
    (created : gset string) (w w' : World) : Prop :=
  heap w' = (heap w ++ [s1])%list
  ∧ userSessions w' = <[u := length (heap w)]> (userSessions w)
  ∧ (∃ row, whatsapp_sessions w' !! u = Some row
            ∧ WS_Status row = "disconnected" ∧ WS_LastActivity row = now)
  ∧ files w' = files w ∪ created.

(** The calls [Logout] makes on the client of a session. *)
Definition logoutCalls (s : UserWhatsAppSession) : list (nat * ClientCall) :=
  match Client s with
  | Some client => [(client, Call_Logout); (client, Call_Disconnect)]
  | None => []
  end.

(** From [w] to [w']: every session object is still there and belongs to
    the same user, and every entry of the registry is an old one or points
    at an object of the user it is filed under. *)
Definition evolves (w w' : World) : Prop :=
  (∀ r s, heap w !! r = Some s ->
          ∃ s', heap w' !! r = Some s' ∧ UserID s' = UserID s)
  ∧ (∀ u r, userSessions w' !! u = Some r ->
            userSessions w !! u = Some r
            ∨ ∃ s, heap w' !! r = Some s ∧ UserID s = u).

(** ** Concurrent callers *)

(** The credential store of the session a turn would construct opens. *)
Definition storeOpens (os : OsEnv) (u : N) (t : Turn) : Prop :=
  ∃ s1 created,
    initializeDatabase os (turn_sqlstore_New_ok t) (newSession u (turn_now t))
    = inr (s1, created).

(** Callers of [GetOrCreateSession u] started in a world [w0] without a
    session for [u]: either nothing has been constructed and nobody has
    returned, or exactly one object has been constructed, initialised and
    registered, and whoever has returned holds its address. *)
Definition onceInv (u : N) (w0 : World) (st : World * list CallerPc) : Prop :=
  let r := length (heap w0) in
  (userSessions st.1 !! u = None ∧ heap st.1 = heap w0
   ∧ Forall (fun pc => pc = At_RLock ∨ pc = At_Lock) st.2)
  ∨ (userSessions st.1 !! u = Some r
     ∧ (∃ s1, heap st.1 = (heap w0 ++ [s1])%list ∧ UserID s1 = u
              ∧ SessionDB s1 ≠ None)
     ∧ Forall (fun pc => ∀ res, pc = Returned res -> res = inr r) st.2).

(** How far a caller has got. *)
Definition rank (pc : CallerPc) : nat :=
  match pc with At_RLock => 0 | At_Lock => 1 | Returned _ => 2 end.

(** ** The handlers, the payments and the history *)

Import gostrings handler payments otp analysisService client.

(** ** Connecting *)

(** A session whose status stops [connect] at its guards. *)
Definition busy (s : UserWhatsAppSession) : Prop :=
  Status s = "connected" ∨ Status s = "scanning" ∨ Status s = "connecting".

(** The watchers of QR channels among the goroutines. *)
Definition isWatcher (t : Task) : bool :=
  match t with Go_waitForQR _ => true | _ => false end.

Fixpoint watchers (tasks : list Task) : nat :=
  match tasks with
  | [] => 0
  | t :: tasks => ((if isWatcher t then 1 else 0) + watchers tasks)%nat
  end.

(** A run of calls of [Connect] for one user, each with its own answers of
    the environment. *)
Definition manyConnects (os : OsEnv) (u : N) (calls : list (bool * ConnectEnv))
    (w : World) : World :=
  foldl (fun w c => (Connect os c.1 c.2 u w).1) w calls.

(** ** The estimates of the analysis *)

(** The three float estimates of [n] saved contacts agree with the exact
    integer parts of 0.3 n, 0.8 n and 0.1 n. *)
Definition floorsAgree (n : Z) : bool :=
  (int_of_float64 (float64_of_int n * 0.3)%float =? 3 * n / 10)
  && (int_of_float64 (float64_of_int n * 0.8)%float =? 8 * n / 10)
  && (int_of_float64 (float64_of_int n * 0.1)%float =? n / 10).

(** [check] holds of every number from 0 to [k]. *)
Fixpoint allUpTo (check : Z -> bool) (k : nat) : bool :=
  match k with
  | O => check 0
  | S k' => check (Z.of_nat k) && allUpTo check k'
  end.

(** The largest number of saved contacts for which the estimates were
    evaluated. *)
Definition evaluatedContacts : Z := 10000.

(** The tenths that [%.1f] prints of a total of points divided by 8. *)
Definition printedTenths (total : Z) : Z := round_half_even (10 * total) 8.

(** ** Transactions *)

(** A transaction with an external id that belongs to a user and a phone. *)
Definition owns (tbl : list TransactionRow) (externalID : string) (userID : Z)
    (phone : string) : Prop :=
  ∃ t, t ∈ tbl ∧ ExternalID (row t) = externalID ∧ T_UserID (row t) = userID
       ∧ PhoneNumber (row t) = phone.

(** A paid transaction of a user for a phone under another external id. *)
Definition paidElsewhere (tbl : list TransactionRow) (externalID : string)
    (userID : Z) (phone : string) : Prop :=
  ∃ t, t ∈ tbl ∧ ExternalID (row t) ≠ externalID ∧ T_UserID (row t) = userID
       ∧ PhoneNumber (row t) = phone ∧ T_Status (row t) = "paid".

(** The external ids of a table are unique: the index of the column. *)
Definition uniqueExternalIDs (tbl : list TransactionRow) : Prop :=
  NoDup (ExternalID ∘ row <$> tbl).

(** The manager's world over a table of transactions. *)
Definition payTable (tbl : list TransactionRow) (w : World) : World :=
  mkWorld (heap w) (userSessions w) (whatsapp_sessions w) (gateView tbl)
    (scan_history w) (analysis_results w) (files w) (goroutines w)
    (clientCalls w) (nextClient w).

(** The external id that [CreatePayment] makes for a user and a second. *)
Definition externalIDOf (userID unix : Z) : string :=
  "cekwa_" ++ sprintf_d userID ++ "_" ++ sprintf_d unix.

(** The byte that separates the parts of an external id. *)
Definition underscore : Ascii.ascii := Ascii.ascii_of_nat 95.

(** No byte of the string is an underscore. *)
Fixpoint noUnderscore (s : string) : Prop :=
  match s with
  | EmptyString => True
  | String c s' => c ≠ underscore ∧ noUnderscore s'
  end.

(** The signature a webhook carries: the first of the three headers that
    is not empty. *)
Definition signatureOf (r : WebhookRequest) : string :=
  if decide (X_Xendit_Signature r ≠ "") then X_Xendit_Signature r
  else if decide (X_Callback_Signature r ≠ "") then X_Callback_Signature r
  else X_Xendit_Callback_Signature r.

(** ** One-time codes *)

(** Every byte of the string is a decimal digit. *)
Fixpoint allDigits (s : string) : Prop :=
  match s with
  | EmptyString => True
  | String c s' => 48 <= byteOf c <= 57 ∧ allDigits s'
  end.

(** No power of ten below the 64th is a multiple of 2^64. *)
Definition nonzeroBelow64 : bool :=
  forallb (fun n => negb (10 ^ Z.of_nat n mod 2 ^ 64 =? 0)) (seq 0 64).

(** ** The history of analyses *)

(** The three deletions of the history. *)
Inductive Deletion :=
| ByID (analysisID : N)
| ByIDs (ids : list N)
| All.

(** A deletion, run for a user. *)
Definition deleteAnalyses (userID : N) (d : Deletion) (w : World)
    : World * Deleted :=
  match d with
  | ByID analysisID => DeleteAnalysisByID userID analysisID w
  | ByIDs ids => DeleteAnalysesByIDs userID ids w
  | All => DeleteAllAnalyses userID w
  end.

(** The results a deletion is asked to remove. *)
Definition selected (userID : N) (d : Deletion) (a : AnalysisResult) : Prop :=
  AR_UserID a = userID
  ∧ match d with
    | ByID analysisID => AR_ID a = analysisID
    | ByIDs ids => AR_ID a ∈ ids
    | All => True
    end.

(** A result refers to the scan. *)
Definition refersTo (results : list AnalysisResult) (scanID : N) : Prop :=
  ∃ a, a ∈ results ∧ ScanHistoryID a = Some scanID.

(** Every result that names a scan names one that is in the history. *)
Definition wellReferenced (w : World) : Prop :=
  ∀ a scanID, a ∈ analysis_results w -> ScanHistoryID a = Some scanID
    -> ∃ sh, sh ∈ scan_history w ∧ SH_ID sh = scanID.

(** [w'] is [w0] after the clean-up of the scans [keys] for the user. *)
Definition sweeps (u : N) (keys : list N) (w0 w' : World) : Prop :=
  analysis_results w' = analysis_results w0
  ∧ (∀ sh, sh ∈ scan_history w'
       <-> sh ∈ scan_history w0
           ∧ ¬ (∃ scanID, scanID ∈ keys
                  ∧ ¬ refersTo (analysis_results w0) scanID
                  ∧ SH_ID sh = scanID ∧ SH_UserID sh = u))
  ∧ heap w' = heap w0 ∧ userSessions w' = userSessions w0
  ∧ transactions w' = transactions w0.

(** The primary key of the results. *)
Definition uniqueResultIDs (w : World) : Prop :=
  NoDup (AR_ID <$> analysis_results w).

(** ** The monitor of the QR channel *)

(** The sleeps the monitor may choose: the squares of 1 to 4, in seconds. *)
Definition squareBackoff (d : Duration) : Prop :=
  ∃ k, 1 <= k <= 4 ∧ d = k * k * Second.

(** What holds of the monitor of the QR channel after any number of
    turns. *)
Definition monitorInv (w : WhatsApp) (mc : Monitor * Control) : Prop :=
  Forall squareBackoff (refreshes mc.1)
  ∧ 0 <= timeoutCount mc.1 <= 5
  ∧ (mc.2 = Running -> timeoutCount mc.1 <= 4)
  ∧ (timeoutCount mc.1 = 5 -> mc.2 = Stopped ∧ wa_qrCode (mon_w mc.1) = "")
  ∧ (mc.2 = Panicked
     -> ∃ qrBase64, wa_qrCode (mon_w mc.1) = "data:image/png;base64," ++ qrBase64)
  ∧ wa_client (mon_w mc.1) = wa_client w
  ∧ wa_ready (mon_w mc.1) = wa_ready w
  ∧ wa_analysisData (mon_w mc.1) = wa_analysisData w.

(* ===================================================================== *)
(** * Scenarios: concrete sessions, worlds and answers of the environment *)
(* ===================================================================== *)

(** An instance of the gate: user 7 has paid for number A only. Bound to
    A the request passes the gate; bound to B it is refused as
    wrong_phone_number. *)
Definition gate_client : ClientId := 0%nat.
Definition gate_session : UserWhatsAppSession :=
  mkSession 7 (Some gate_client) (Some (SqliteContainer (storeFile 7))) ""
            true "connected" 1000 1000 ∅ ∅.
Definition gate_tx : Transaction :=
  mkTransaction 1 7 "cekwa_7_1" "inv" "IDR" "paid" "qris" "" "premium"
                "6281111111111".
Definition gate_world : World :=
  mkWorld [gate_session] {[ 7%N := 0%nat ]} ∅ [gate_tx] [] [] ∅ [] [] 1%nat.
Definition gate_os : OsEnv := mkOsEnv "" "".
Definition gate_env (phone : string) : HandlerEnv :=
  mkHandlerEnv true true
    (mkAnalyzeEnv 2000 (Some (mkJID phone "s.whatsapp.net"
                                (phone ++ ":1@s.whatsapp.net")))
                  (Some ∅) (Some 0) (Some ∅)).

Definition idle_session : UserWhatsAppSession :=
  mkSession 7 None (Some (SqliteContainer (storeFile 7))) "" false
            "disconnected" 1000 (100 * Second) ∅ ∅.

Definition connect_env_at (now : Time) (device : option (option JID))
    (restore_ok qr_ok : bool) : ConnectEnv :=
  mkConnectEnv now device restore_ok qr_ok.


Definition success_after (waited : Duration) : WaitEnv :=
  mkWaitEnv (910 * Second) (Some (waited, mkQRChannelItem "success" "")) None.

(** A history: user 7 connects with no stored device, the pairing
    succeeds, and three contacts are fetched, one of them without a name. *)
Definition paired_world : World :=
  run gate_os
    [ Op_Connect 7 true (connect_env_at (900 * Second) (Some None) true true);
      Op_goroutine 2 (mkTaskEnv true
                        (connect_env_at (905 * Second) (Some None) true true)
                        (success_after (3 * Second))) ]
    (NewMultiUserWhatsAppManager [gate_tx]).

Definition three_contacts : gmap JID ContactInfo :=
  {[ mkJID "6281230000001" "s.whatsapp.net" "6281230000001@s.whatsapp.net"
       := mkContactInfo "Budi" "";
     mkJID "6281230000002" "s.whatsapp.net" "6281230000002@s.whatsapp.net"
       := mkContactInfo "" "";
     mkJID "120363000000000001" "g.us" "120363000000000001@g.us"
       := mkContactInfo "Keluarga" "" ]}.

Definition analyze_env : AnalyzeEnv :=
  mkAnalyzeEnv (920 * Second)
    (Some (mkJID "6281111111111" "s.whatsapp.net"
             "6281111111111:1@s.whatsapp.net"))
    (Some three_contacts) (Some 1) (Some three_contacts).



Definition bound_id : option JID :=
  Some (mkJID "6281111111111" "s.whatsapp.net" "6281111111111:1@s.whatsapp.net").

(** The world of user 7 after [Connect] with no stored device: scanning. *)
Definition scanning_world : World :=
  run gate_os
    [ Op_Connect 7 true (connect_env_at (900 * Second) (Some None) true true) ]
    (NewMultiUserWhatsAppManager [gate_tx]).

Definition pairing_succeeds : Op :=
  Op_goroutine 2 (mkTaskEnv true
                    (connect_env_at (905 * Second) (Some None) true true)
                    (success_after (3 * Second))).

Definition session_at (w : World) (r : Ref) : UserWhatsAppSession :=
  default idle_session (heap w !! r).

Definition fresh_world : World := NewMultiUserWhatsAppManager [gate_tx].

Definition sqlite_session_7 : UserWhatsAppSession :=
  with_SessionDB (Some (SqliteContainer (storeFile 7))) (newSession 7 1000).

(** The store settings under which [initializeDatabase] returns its own
    error: the postgres driver without a DSN. *)
Definition postgres_without_dsn : OsEnv := mkOsEnv "postgres" "".

(** A value of WA_STORE_DRIVER that is neither a postgres driver nor
    "sqlite": [initializeDatabase] falls back to the per-user sqlite store. *)
Definition fallback_os : OsEnv := mkOsEnv "sqlite3" "".

Definition fallback_world : World :=
  (GetOrCreateSession fallback_os true 1000 7 fresh_world).1.

Definition wait_times_out : TaskEnv :=
  mkTaskEnv true (connect_env_at (1100 * Second) (Some None) true true)
            (mkWaitEnv (1100 * Second) None None).

Definition logged_out_world : World := Logout gate_os 7 scanning_world.

(** Three callers for user 7, their critical sections interleaved. *)
Definition three_callers_schedule : list Turn :=
  [ mkTurn 0 true 1000; mkTurn 1 true 1001; mkTurn 2 true 1002;
    mkTurn 1 true 1003; mkTurn 0 true 1004; mkTurn 2 true 1005 ].

Definition three_callers : World * list CallerPc :=
  interleave gate_os 7 three_callers_schedule
    (fresh_world, replicate 3 At_RLock).

(** Two callers for user 7 where the store cannot be initialised. *)
Definition failed_callers : World * list CallerPc :=
  interleave postgres_without_dsn 7
    [ mkTurn 0 true 1000; mkTurn 1 true 1001;
      mkTurn 0 true 1002; mkTurn 1 true 1003 ]
    (fresh_world, replicate 2 At_RLock).

(** The status row of a user without a session, before a logout. *)
Definition stale_row_world : World :=
  with_whatsapp_sessions
    {[ 9%N := mkWhatsAppSession 9 "connected" "user_9" 500 ]} fresh_world.

(** The number B that user 7 has not paid for. *)
Definition number_B : string := "6282222222222".

(** A client bound to B, with three contacts in its store. *)
Definition unpaid_env : HandlerEnv :=
  mkHandlerEnv true true
    (mkAnalyzeEnv 2000
       (Some (mkJID number_B "s.whatsapp.net" (number_B ++ ":1@s.whatsapp.net")))
       (Some three_contacts) (Some 1) (Some three_contacts)).

(** The token service: the token t7 is user 7's, t9 is user 9's. *)
Definition token_service (token : string) : string + N :=
  if decide (token = "t7") then inr 7%N
  else if decide (token = "t9") then inr 9%N
  else inl "token is malformed".

Definition request_env (e : HandlerEnv) : RequestEnv :=
  mkRequestEnv token_service e (connect_env_at (2000 * Second) (Some None) true true).

Definition get_as_7 : Request := mkRequest "GET" "Bearer t7".
Definition post_as_7 : Request := mkRequest "POST" "Bearer t7".

(** User 7 after a [Connect] that could not read the device store. *)
Definition stuck_world : World :=
  (Connect gate_os true (connect_env_at (900 * Second) None true true) 7
     fresh_world).1.

(** An account whose only contact has no name. *)
Definition nameless_contacts : gmap JID ContactInfo :=
  {[ mkJID "6281230000002" "s.whatsapp.net" "6281230000002@s.whatsapp.net"
       := mkContactInfo "" "" ]}.

Definition nameless_env : AnalyzeEnv :=
  mkAnalyzeEnv 2000 bound_id (Some nameless_contacts) (Some 0)
    (Some nameless_contacts).

Definition computed (a : UserWhatsAppSession * Analysis) : AnalysisResult :=
  match a.2 with
  | Analysis_computed result => result
  | _ => zeroAnalysisResult
  end.

(** The table of transactions of user 7: paid for A, pending for B. *)
Definition paid_row : TransactionRow :=
  mkTransactionRow gate_tx 50000 1000 1000 (Some 1000).
Definition pending_row : TransactionRow :=
  mkTransactionRow
    (mkTransaction 2 7 "cekwa_7_2" "inv2" "IDR" "pending" "qris" "" "premium"
       number_B)
    50000 1500 1500 None.
Definition pay_table : list TransactionRow := [paid_row; pending_row].

Definition invoice (status : string) : XenditInvoiceResponse :=
  mkXenditInvoiceResponse "inv2" "https://checkout.xendit.co/web/inv2" status
    "2026-01-01T00:00:00.000Z".

Definition xendit_says (status : string) : ReconcileEnv :=
  mkReconcileEnv (mkUpdateClock 3000 3001) (fun _ => inr (invoice status)).

(** Two requests for a payment by user 7 within the same second. *)
Definition first_second : Time := (unixToInternal + 1700000000) * Second.
Definition create_at (now : Time) : CreatePaymentEnv :=
  mkCreatePaymentEnv now now now now "duplicate key value violates unique constraint"
    (inr (invoice "PENDING")).
Definition payment_request : CreatePaymentRequest :=
  mkCreatePaymentRequest "budi@example.com" "premium" "qris" 50000 number_B.
Definition first_payment
    : list TransactionRow * (string + CreatePaymentResponse) :=
  CreatePayment (create_at (first_second + 5)) payment_request 7 [paid_row].
Definition first_response : CreatePaymentResponse :=
  match first_payment.2 with
  | inr resp => resp
  | inl _ => mkCreatePaymentResponse 0 "" "" "" 0 "" "" 0 ""
  end.

(** A webhook without any signature that reports the pending transaction
    of user 7 as paid. *)
Definition paid_payload : WebhookPayload := mkWebhookPayload "cekwa_7_2" "PAID" "QRIS".
Definition unsigned_webhook : WebhookRequest :=
  mkWebhookRequest "POST" (Some "{}") "" "" "" "".
Definition no_webhook_token : WebhookOsEnv := mkWebhookOsEnv "" "".

(** User 9 polls the status of the pending transaction of user 7. *)
Definition poll_as_9 : StatusRequest :=
  mkStatusRequest "GET" "/api/payments/cekwa_7_2/status" "Bearer t9".

(** Two analyses of user 7, each with its scan. *)
Definition history_world : World :=
  mkWorld [] ∅ ∅ []
    [ mkScanHistory 1 7 "6281111111111" 100 "success" "{}" "";
      mkScanHistory 2 7 "6281111111111" 200 "success" "{}" "" ]
    [ mkAnalysisResult 1 7 (Some 1%N) 130 100 365 12 80 10 40 40 "Cukup" "" 100;
      mkAnalysisResult 2 7 (Some 2%N) 130 100 365 12 80 10 40 40 "Cukup" "" 200 ]
    ∅ [] [] 0%nat.

(* ===================================================================== *)
(** * Properties *)
(* ===================================================================== *)

(** ** The scoring engine *)

Lemma points_range b : 1 <= points b <= 3.
Proof. destruct b; simpl; lia. Qed.

Ltac bucket_cases :=
  unfold bucketed, higherIsBetter, lowerIsBetter;
  rewrite ?Z.geb_leb;
  repeat match goal with
         | |- context [?a <=? ?b] => destruct (a <=? b)
         end;
  repeat split; reflexivity.

Lemma evaluateTotalChats_bucket v :
  bucketed (evaluateTotalChats v) (higherIsBetter 100 40 v) v.
Proof. unfold evaluateTotalChats. bucket_cases. Qed.

Lemma evaluateTotalContacts_bucket v :
  bucketed (evaluateTotalContacts v) (higherIsBetter 200 100 v) v.
Proof. unfold evaluateTotalContacts. bucket_cases. Qed.

Lemma evaluateAccountAge_bucket v :
  bucketed (evaluateAccountAge v) (higherIsBetter 365 90 v) v.
Proof. unfold evaluateAccountAge. bucket_cases. Qed.

Lemma evaluateTotalGroups_bucket v :
  bucketed (evaluateTotalGroups v) (higherIsBetter 80 30 v) v.
Proof. unfold evaluateTotalGroups. bucket_cases. Qed.

Lemma evaluateChatWithContacts_bucket v :
  bucketed (evaluateChatWithContacts v) (higherIsBetter 100 30 v) v.
Proof. unfold evaluateChatWithContacts. bucket_cases. Qed.

Lemma evaluateSensitiveContent_bucket v :
  bucketed (evaluateSensitiveContent v) (lowerIsBetter 5 10 v) v.
Proof. unfold evaluateSensitiveContent. bucket_cases. Qed.

Lemma evaluateUnsavedChats_bucket v :
  bucketed (evaluateUnsavedChats v) (lowerIsBetter 100 500 v) v.
Proof. unfold evaluateUnsavedChats. bucket_cases. Qed.

Lemma evaluateUnknownChats_bucket v :
  bucketed (evaluateUnknownChats v) (lowerIsBetter 15 30 v) v.
Proof. unfold evaluateUnknownChats. bucket_cases. Qed.

Lemma evaluations_bucketed tc tk age tg cw sc uc un :
  Forall2 (fun eval bv => bucketed eval bv.1 bv.2)
    (evaluations tc tk age tg cw sc uc un)
    (zip (bucketsOf tc tk age tg cw sc uc un) [tc; tk; age; tg; cw; sc; uc; un]).
Proof.
  unfold evaluations, bucketsOf; cbn [zip zip_with].
  repeat (constructor; cbn [fst snd];
          [first [ apply evaluateTotalChats_bucket
                 | apply evaluateTotalContacts_bucket
                 | apply evaluateAccountAge_bucket
                 | apply evaluateTotalGroups_bucket
                 | apply evaluateChatWithContacts_bucket
                 | apply evaluateSensitiveContent_bucket
                 | apply evaluateUnsavedChats_bucket
                 | apply evaluateUnknownChats_bucket ] |]).
  constructor.
Qed.

Lemma totalScore_points tc tk age tg cw sc uc un :
  totalScore (evaluations tc tk age tg cw sc uc un)
  = sumZ (map points (bucketsOf tc tk age tg cw sc uc un)).
Proof.
  unfold totalScore, evaluations, bucketsOf, sumZ; simpl.
  destruct (evaluateTotalChats_bucket tc) as (_ & -> & _).
  destruct (evaluateTotalContacts_bucket tk) as (_ & -> & _).
  destruct (evaluateAccountAge_bucket age) as (_ & -> & _).
  destruct (evaluateTotalGroups_bucket tg) as (_ & -> & _).
  destruct (evaluateChatWithContacts_bucket cw) as (_ & -> & _).
  destruct (evaluateSensitiveContent_bucket sc) as (_ & -> & _).
  destruct (evaluateUnsavedChats_bucket uc) as (_ & -> & _).
  destruct (evaluateUnknownChats_bucket un) as (_ & -> & _).
  lia.
Qed.

Lemma sum_points_range tc tk age tg cw sc uc un :
  8 <= sumZ (map points (bucketsOf tc tk age tg cw sc uc un)) <= 24.
Proof.
  unfold bucketsOf, sumZ; simpl.
  repeat match goal with
         | |- context [points ?b] =>
             let H := fresh in
             pose proof (points_range b) as H; generalize dependent (points b);
             intros
         end.
  lia.
Qed.

(** The float average of a total between 8 and 24 is exact, and its
    comparisons with 1, 1.5, 2.5 and 3 are those of the total with 8, 12, 20
    and 24. *)
Lemma average_of_total t :
  8 <= t <= 24 ->
  let mean := (float64_of_int t / 8)%float in
  (mean * 8)%float = float64_of_int t
  ∧ (1 <=? mean)%float = true
  ∧ (mean <=? 3)%float = true
  ∧ (2.5 <=? mean)%float = (20 <=? t)
  ∧ (1.5 <=? mean)%float = (12 <=? t)
  ∧ (mean =? 2.5)%float = (t =? 20)
  ∧ (mean =? 1.5)%float = (t =? 12).
Proof.
  intros H.
  assert (Hc : t = 8 ∨ t = 9 ∨ t = 10 ∨ t = 11 ∨ t = 12 ∨ t = 13 ∨ t = 14
               ∨ t = 15 ∨ t = 16 ∨ t = 17 ∨ t = 18 ∨ t = 19 ∨ t = 20
               ∨ t = 21 ∨ t = 22 ∨ t = 23 ∨ t = 24) by lia.
  repeat (destruct Hc as [-> | Hc]; [vm_compute; repeat split; reflexivity |]).
  subst t; vm_compute; repeat split; reflexivity.
Qed.

(** C8. For every eight integer inputs, each metric is bucketed by its own
    fixed threshold (higher is better for chats, contacts, age, groups and
    chats with contacts; lower is better for sensitive, unsaved and unknown
    counts) into Baik/Cukup/Buruk (Good/Fair/Poor) worth 3/2/1 points; the
    mean over the eight metrics is exactly a total between 8 and 24 divided
    by 8, hence between 1.0 and 3.0; and the overall label is Baik when the
    mean is at least 2.5, Cukup when it is at least 1.5 and below 2.5, and
    Buruk otherwise, with mean 2.5 labelled Baik and mean 1.5 labelled
    Cukup. *)
Theorem CalculateStrength_buckets_mean_label
    (totalChats totalContacts accountAgeDays totalGroups totalChatWithContact
     sensitiveContentCount totalUnsavedChats unknownNumberChats : Z) :
  let evals := evaluations totalChats totalContacts accountAgeDays totalGroups
                 totalChatWithContact sensitiveContentCount totalUnsavedChats
                 unknownNumberChats in
  let buckets := bucketsOf totalChats totalContacts accountAgeDays totalGroups
                   totalChatWithContact sensitiveContentCount totalUnsavedChats
                   unknownNumberChats in
  let total := sumZ (map points buckets) in
  let mean := averageScore evals in
  let strength :=
    (CalculateStrength totalChats totalContacts accountAgeDays totalGroups
       totalChatWithContact sensitiveContentCount totalUnsavedChats
       unknownNumberChats).1 in
  (* the eight independent buckets and their points *)
  Forall2 (fun eval bv => bucketed eval bv.1 bv.2) evals
    (zip buckets [totalChats; totalContacts; accountAgeDays; totalGroups;
                  totalChatWithContact; sensitiveContentCount;
                  totalUnsavedChats; unknownNumberChats])
  ∧ length evals = 8%nat
  (* the mean is total / 8, exactly, and lies in [1.0, 3.0] *)
  ∧ totalScore evals = total ∧ 8 <= total <= 24
  ∧ (mean * 8)%float = float64_of_int total
  ∧ (1 <=? mean)%float = true ∧ (mean <=? 3)%float = true
  (* the label by the mean *)
  ∧ ((2.5 <=? mean)%float = true -> strength = "Baik")
  ∧ ((2.5 <=? mean)%float = false -> (1.5 <=? mean)%float = true ->
     strength = "Cukup")
  ∧ ((1.5 <=? mean)%float = false -> strength = "Buruk")
  (* and, equivalently, by the total of the points *)
  ∧ (strength = "Baik" <-> 20 <= total)
  ∧ (strength = "Cukup" <-> 12 <= total < 20)
  ∧ (strength = "Buruk" <-> total < 12)
  (* the two boundary values *)
  ∧ ((mean =? 2.5)%float = true -> strength = "Baik")
  ∧ ((mean =? 1.5)%float = true -> strength = "Cukup").
Proof.
  intros evals buckets total mean strength.
  pose proof (totalScore_points totalChats totalContacts accountAgeDays
                totalGroups totalChatWithContact sensitiveContentCount
                totalUnsavedChats unknownNumberChats) as Htot.
  pose proof (sum_points_range totalChats totalContacts accountAgeDays
                totalGroups totalChatWithContact sensitiveContentCount
                totalUnsavedChats unknownNumberChats) as Hrange.
  fold evals in Htot. fold buckets in Htot, Hrange. fold total in Htot, Hrange.
  assert (Hmean : mean = (float64_of_int total / 8)%float).
  { unfold mean, averageScore. by rewrite Htot. }
  destruct (average_of_total total Hrange)
    as (Hex & Hlo & Hhi & H25 & H15 & He25 & He15).
  rewrite <- Hmean in Hex, Hlo, Hhi, H25, H15, He25, He15.
  assert (Hs : strength = strengthOf mean) by reflexivity.
  unfold strengthOf in Hs. rewrite H25, H15 in Hs.
  split; [apply evaluations_bucketed |].
  split; [reflexivity |].
  split; [exact Htot |]. split; [exact Hrange |].
  split; [exact Hex |]. split; [exact Hlo |]. split; [exact Hhi |].
  rewrite H25, H15, He25, He15.
  destruct (Z.leb_spec 20 total), (Z.leb_spec 12 total),
    (Z.eqb_spec total 20), (Z.eqb_spec total 12);
    rewrite Hs; repeat split; intros; try done; try lia.
Qed.

(** ** The access gate *)

Lemma count_pos_exists {A} (P : A -> Prop) `{!∀ x, Decision (P x)} (l : list A) :
  (Z.of_nat (length (filter P l)) >? 0) = true <-> ∃ x, x ∈ l ∧ P x.
Proof.
  rewrite Z.gtb_ltb, Z.ltb_lt. split.
  - intros Hlen. destruct (filter P l) as [|x l'] eqn:E; [simpl in Hlen; lia |].
    exists x. assert (x ∈ filter P l) as Hin by (rewrite E; left).
    apply list_elem_of_filter in Hin. tauto.
  - intros (x & Hx & HP).
    assert (x ∈ filter P l) as Hin by (apply list_elem_of_filter; auto).
    destruct (filter P l); [inversion Hin | simpl; lia].
Qed.

Lemma CheckIfUserPaidForPhone_spec db userID phone :
  services.CheckIfUserPaidForPhone db userID phone = true
  <-> paidFor db userID phone.
Proof.
  unfold services.CheckIfUserPaidForPhone, paidFor.
  rewrite count_pos_exists. naive_solver.
Qed.

Lemma CheckIfUserHasAnyPaidTransaction_spec db userID :
  services.CheckIfUserHasAnyPaidTransaction db userID = true
  <-> ∃ t, t ∈ db ∧ T_UserID t = userID ∧ T_Status t = "paid".
Proof.
  unfold services.CheckIfUserHasAnyPaidTransaction.
  rewrite count_pos_exists. naive_solver.
Qed.

(** Creating a session leaves the table of transactions alone. *)
Lemma createNewSession_transactions os ok now u w :
  transactions (createNewSession os ok now u w).1 = transactions w.
Proof.
  unfold createNewSession.
  destruct (userSessions w !! u); [reflexivity |].
  destruct (initializeDatabase _ _ _) as [err | [s created]]; reflexivity.
Qed.

Lemma GetOrCreateSession_transactions os ok now u w :
  transactions (GetOrCreateSession os ok now u w).1 = transactions w.
Proof.
  unfold GetOrCreateSession.
  destruct (userSessions w !! u); [reflexivity |].
  apply createNewSession_transactions.
Qed.

Lemma GetClient_transactions os ok now u w :
  transactions (GetClient os ok now u w).1 = transactions w.
Proof.
  unfold GetClient.
  pose proof (GetOrCreateSession_transactions os ok now u w) as H.
  destruct (GetOrCreateSession os ok now u w) as [w' [err | r]]; simpl in *;
    [exact H |].
  destruct (heap w' !! r); exact H.
Qed.

Lemma serveAnalysis_passedGate os e u w :
  passedGate (serveAnalysis os e u w).2.
Proof.
  unfold serveAnalysis.
  destruct (GetCachedAnalysis u w); [exact I |].
  destruct (IsReady _ _ _ _ _) as [w1 ready].
  destruct ready; simpl; [| exact I].
  destruct (he_IsConnected e); simpl; [| exact I].
  destruct (GetOrCreateSession _ _ _ _ _) as [w2 [err | r]]; [exact I |].
  destruct (AnalyzeAt _ _ _) as [w3 [err | res]]; exact I.
Qed.

(** C6. With a session bound to a phone number (the client has a store ID
    whose user part is not empty), the handler lets the request through the
    payment gate iff the user has a paid transaction for exactly that phone
    number; otherwise it answers 402, with error type wrong_phone_number
    when the user has a paid transaction for another number and no_payment
    when the user has no paid transaction at all; the two kinds differ. *)
Theorem HandleAnalyze_access_gate os e userID w client storeID :
  (GetClient os (he_sqlstore_New_ok e) (ae_now (he_analyze e)) userID w).2
    = Some client ->
  ae_StoreID (he_analyze e) = Some storeID ->
  User storeID ≠ "" ->
  let phone := User storeID in
  let paid := paidFor (transactions w) (Z.of_N userID) phone in
  let paidOther := paidForAnother (transactions w) (Z.of_N userID) phone in
  let resp := (HandleAnalyze os e userID w).2 in
  (passedGate resp <-> paid)
  ∧ (paid ->
     resp = (serveAnalysis os e userID
               (GetClient os (he_sqlstore_New_ok e) (ae_now (he_analyze e))
                  userID w).1).2)
  ∧ (¬ paid -> paidOther -> resp = PaymentRequired "wrong_phone_number" phone)
  ∧ (¬ paid -> ¬ paidOther -> resp = PaymentRequired "no_payment" phone)
  ∧ PaymentRequired "wrong_phone_number" phone ≠ PaymentRequired "no_payment" phone.
Proof.
  intros Hclient Hid Huser phone paid paidOther resp.
  pose proof (GetClient_transactions os (he_sqlstore_New_ok e)
                (ae_now (he_analyze e)) userID w) as Htx.
  subst resp. unfold HandleAnalyze.
  destruct (GetClient os (he_sqlstore_New_ok e) (ae_now (he_analyze e)) userID w)
    as [w1 cl] eqn:EG.
  simpl in Hclient, Htx. subst cl. rewrite Hid.
  destruct (decide (User storeID = "")) as [|_]; [done |].
  rewrite Htx. fold phone.
  pose proof (CheckIfUserPaidForPhone_spec (transactions w) (Z.of_N userID) phone)
    as Hpaid.
  pose proof (CheckIfUserHasAnyPaidTransaction_spec (transactions w) (Z.of_N userID))
    as Hany.
  fold paid in Hpaid.
  destruct (services.CheckIfUserPaidForPhone (transactions w) (Z.of_N userID) phone)
    eqn:E1; simpl.
  - assert (paid) as Hp by (by apply Hpaid).
    pose proof (serveAnalysis_passedGate os e userID w1) as Hpass.
    repeat split; try done.
  - assert (¬ paid) as Hnp by (intros Hp; apply Hpaid in Hp; done).
    destruct (services.CheckIfUserHasAnyPaidTransaction (transactions w)
                (Z.of_N userID)) eqn:E2; simpl.
    + repeat split; try done.
      intros _ Hno. exfalso. apply Hno.
      destruct (proj1 Hany eq_refl) as (t & Hin & Hu & Hs).
      exists t. repeat split; try done.
      intros Hph. apply Hnp. exists t. done.
    + repeat split; try done.
      intros _ (t & Hin & Hu & _ & Hs).
      assert (false = true) as Habs; [| done].
      apply Hany. exists t. done.
Qed.

Lemma gate_client_bound phone :
  (GetClient gate_os (he_sqlstore_New_ok (gate_env phone))
     (ae_now (he_analyze (gate_env phone))) 7 gate_world).2 = Some gate_client.
Proof. reflexivity. Qed.

Lemma gate_paid_A : paidFor (transactions gate_world) (Z.of_N 7) "6281111111111".
Proof. exists gate_tx. repeat split. left. Qed.

Lemma gate_not_paid_B :
  ¬ paidFor (transactions gate_world) (Z.of_N 7) "6282222222222".
Proof.
  intros (t & Hin & _ & Hph & _).
  apply list_elem_of_singleton in Hin. subst t. discriminate Hph.
Qed.

Lemma gate_paid_other_B :
  paidForAnother (transactions gate_world) (Z.of_N 7) "6282222222222".
Proof. exists gate_tx. repeat split; [left | discriminate]. Qed.

Lemma HandleAnalyze_access_gate_witness :
  passedGate (HandleAnalyze gate_os (gate_env "6281111111111") 7 gate_world).2
  ∧ (HandleAnalyze gate_os (gate_env "6282222222222") 7 gate_world).2
    = PaymentRequired "wrong_phone_number" "6282222222222".
Proof.
  split.
  - apply (HandleAnalyze_access_gate gate_os (gate_env "6281111111111") 7
             gate_world gate_client _ (gate_client_bound _) eq_refl);
      [discriminate | exact gate_paid_A].
  - apply (HandleAnalyze_access_gate gate_os (gate_env "6282222222222") 7
             gate_world gate_client _ (gate_client_bound _) eq_refl);
      [discriminate | exact gate_not_paid_B | exact gate_paid_other_B].
Defined.

(** ** connect and the pairing watcher *)

Lemma with_heap_id (w : World) r s :
  heap w !! r = Some s -> with_heap (<[r := s]> (heap w)) w = w.
Proof. intros H. destruct w; unfold with_heap; simpl in *. by rewrite list_insert_id. Qed.

(** C5. [connect] is idempotent and rate-limited: called while the status
    is connected, scanning or connecting, or less than five seconds after
    the previous attempt, it returns nil and changes no field of the session
    (status, ready flag, QR code, client, cache and all others); it starts no
    goroutine, creates no client and calls none, so the world is unchanged
    too. *)
Theorem connect_idempotent_rate_limited self client e s :
  Status s = "connected" ∨ Status s = "scanning" ∨ Status s = "connecting"
  ∨ Since (ce_now e) (LastConnectAttempt s) < 5 * Second ->
  connect self client e s = mkConnectOutcome s None [] [] false
  ∧ ∀ w, heap w !! self = Some s -> connectAt self e w = (w, None).
Proof.
  intros H.
  assert (Hc : ∀ c, connect self c e s = mkConnectOutcome s None [] [] false).
  { intros c. unfold connect.
    destruct (decide (Status s = "connected")); [reflexivity |].
    destruct (decide (Status s = "scanning" ∨ Status s = "connecting"));
      [reflexivity |].
    destruct (Z.ltb_spec (Since (ce_now e) (LastConnectAttempt s)) (5 * Second));
      [reflexivity |].
    exfalso. destruct H as [? | [? | [? | ?]]]; try tauto; lia. }
  split; [apply Hc |].
  intros w Hw. unfold connectAt. rewrite Hw, Hc. simpl.
  rewrite with_heap_id by done.
  destruct w; unfold with_goroutines, with_clientCalls; simpl.
  by rewrite !app_nil_r.
Qed.

Lemma connect_idempotent_rate_limited_witness :
  (* three seconds after the previous attempt *)
  connect 0%nat 0%nat (connect_env_at (103 * Second) (Some None) true true)
          idle_session
  = mkConnectOutcome idle_session None [] [] false
  (* while scanning *)
  ∧ connect 0%nat 0%nat (connect_env_at (900 * Second) (Some None) true true)
            (with_Status "scanning" idle_session)
    = mkConnectOutcome (with_Status "scanning" idle_session) None [] [] false.
Proof.
  split.
  - apply (connect_idempotent_rate_limited 0%nat 0%nat
             (connect_env_at (103 * Second) (Some None) true true) idle_session).
    right; right; right. vm_compute. reflexivity.
  - apply (connect_idempotent_rate_limited 0%nat 0%nat
             (connect_env_at (900 * Second) (Some None) true true)
             (with_Status "scanning" idle_session)).
    right; left. reflexivity.
Defined.





(** ** Invariants of the heap of sessions *)

Section heap_invariant.

(** A property of session objects that every function writing into a
    session preserves, and that a newly constructed session has. *)
Variable P : UserWhatsAppSession -> Prop.

Hypothesis P_new : ∀ userID now db,
  P (mkSession userID None db "" false "disconnected" now zeroTime ∅ ∅).
Hypothesis P_connect : ∀ self client e s,
  P s -> P (co_session (connect self client e s)).
Hypothesis P_waitForQR : ∀ e s, P s -> P (waitForQR_turn e s).1.1.
Hypothesis P_Analyze : ∀ e s, P s -> P (Analyze e s).1.
Hypothesis P_logout : ∀ s, P s -> P (logoutSession s).

Lemma createNewSession_heapAll os ok now u w :
  heapAll P w -> heapAll P (createNewSession os ok now u w).1.
Proof.
  unfold heapAll, createNewSession. intros H.
  destruct (userSessions w !! u); [exact H |].
  unfold initializeDatabase, newSession.
  repeat case_decide; destruct ok; simpl;
    apply Forall_app; (split; [exact H |]);
    repeat constructor; apply P_new.
Qed.

Lemma GetOrCreateSession_heapAll os ok now u w :
  heapAll P w -> heapAll P (GetOrCreateSession os ok now u w).1.
Proof.
  unfold GetOrCreateSession. intros H.
  destruct (userSessions w !! u); [exact H |].
  by apply createNewSession_heapAll.
Qed.

Lemma connectAt_heapAll r e w : heapAll P w -> heapAll P (connectAt r e w).1.
Proof.
  unfold heapAll, connectAt. intros H.
  destruct (heap w !! r) as [s |] eqn:E; [| exact H].
  assert (P s) by (eapply Forall_lookup_1; eauto).
  destruct (co_NewClient _); simpl; apply Forall_insert; auto.
Qed.

Lemma Connect_heapAll os ok e u w : heapAll P w -> heapAll P (Connect os ok e u w).1.
Proof.
  unfold Connect. intros H.
  pose proof (GetOrCreateSession_heapAll os ok (ce_now e) u w H) as H1.
  destruct (GetOrCreateSession os ok (ce_now e) u w) as [w1 [err | r]];
    [exact H1 |].
  by apply connectAt_heapAll.
Qed.

Lemma GetQRCode_heapAll os ok now u w :
  heapAll P w -> heapAll P (GetQRCode os ok now u w).1.
Proof.
  unfold GetQRCode. intros H.
  pose proof (GetOrCreateSession_heapAll os ok now u w H) as H1.
  destruct (GetOrCreateSession os ok now u w) as [w1 [err | r]]; [exact H1 |].
  destruct (heap w1 !! r); [| exact H1].
  simpl. case_match; exact H1.
Qed.

Lemma GetStatus_heapAll os ok now u w :
  heapAll P w -> heapAll P (GetStatus os ok now u w).1.
Proof.
  unfold GetStatus. intros H.
  pose proof (GetOrCreateSession_heapAll os ok now u w H) as H1.
  destruct (GetOrCreateSession os ok now u w) as [w1 [err | r]]; [exact H1 |].
  destruct (heap w1 !! r); exact H1.
Qed.

Lemma IsReady_heapAll os ok now u w :
  heapAll P w -> heapAll P (IsReady os ok now u w).1.
Proof.
  unfold IsReady. intros H.
  pose proof (GetOrCreateSession_heapAll os ok now u w H) as H1.
  destruct (GetOrCreateSession os ok now u w) as [w1 [err | r]]; [exact H1 |].
  destruct (heap w1 !! r); exact H1.
Qed.

Lemma GetClient_heapAll os ok now u w :
  heapAll P w -> heapAll P (GetClient os ok now u w).1.
Proof.
  unfold GetClient. intros H.
  pose proof (GetOrCreateSession_heapAll os ok now u w H) as H1.
  destruct (GetOrCreateSession os ok now u w) as [w1 [err | r]]; [exact H1 |].
  destruct (heap w1 !! r); exact H1.
Qed.

Lemma Logout_heapAll os u w : heapAll P w -> heapAll P (Logout os u w).
Proof.
  unfold heapAll, Logout. intros H.
  destruct (userSessions w !! u) as [r |]; [| exact H].
  destruct (heap w !! r) as [s |] eqn:E; [| exact H].
  assert (P s) by (eapply Forall_lookup_1; eauto).
  simpl. case_decide; destruct (Client s); simpl; apply Forall_insert; auto.
Qed.

Lemma AnalyzeAt_heapAll r e w : heapAll P w -> heapAll P (AnalyzeAt r e w).1.
Proof.
  unfold heapAll, AnalyzeAt. intros H.
  destruct (heap w !! r) as [s |] eqn:E; [| exact H].
  assert (P s) as Hs by (eapply Forall_lookup_1; eauto).
  pose proof (P_Analyze e s Hs) as HA.
  destruct (Analyze e s) as [s' a]. simpl in HA.
  destruct a; simpl; apply Forall_insert; auto.
Qed.

Lemma serveAnalysis_heapAll os e u w :
  heapAll P w -> heapAll P (serveAnalysis os e u w).1.
Proof.
  unfold serveAnalysis. intros H.
  destruct (GetCachedAnalysis u w); [exact H |].
  pose proof (IsReady_heapAll os (he_sqlstore_New_ok e) (ae_now (he_analyze e))
                u w H) as H1.
  destruct (IsReady _ _ _ _ _) as [w1 ready].
  destruct ready; simpl; [| exact H1].
  destruct (he_IsConnected e); simpl; [| exact H1].
  pose proof (GetOrCreateSession_heapAll os (he_sqlstore_New_ok e)
                (ae_now (he_analyze e)) u w1 H1) as H2.
  destruct (GetOrCreateSession _ _ _ _ _) as [w2 [err | r]]; [exact H2 |].
  pose proof (AnalyzeAt_heapAll r (he_analyze e) w2 H2) as H3.
  destruct (AnalyzeAt _ _ _) as [w3 [err | res]]; exact H3.
Qed.

Lemma HandleAnalyze_heapAll os e u w :
  heapAll P w -> heapAll P (HandleAnalyze os e u w).1.
Proof.
  unfold HandleAnalyze. intros H.
  pose proof (GetClient_heapAll os (he_sqlstore_New_ok e) (ae_now (he_analyze e))
                u w H) as H1.
  destruct (GetClient _ _ _ _ _) as [w1 cl].
  destruct cl; [| exact H1].
  destruct (ae_StoreID (he_analyze e)); [| exact H1].
  case_decide; [exact H1 |].
  destruct (services.CheckIfUserPaidForPhone _ _ _); simpl.
  - by apply serveAnalysis_heapAll.
  - case_match; exact H1.
Qed.

Lemma HandleForceAnalysis_heapAll os ok e u w :
  heapAll P w -> heapAll P (HandleForceAnalysis os ok e u w).1.
Proof.
  unfold HandleForceAnalysis. intros H.
  pose proof (IsReady_heapAll os ok (ae_now e) u w H) as H1.
  destruct (IsReady _ _ _ _ _) as [w1 ready].
  destruct ready; simpl; [| exact H1].
  pose proof (GetClient_heapAll os ok (ae_now e) u w1 H1) as H2.
  destruct (GetClient _ _ _ _ _) as [w2 cl].
  destruct cl; [| exact H2].
  pose proof (GetOrCreateSession_heapAll os ok (ae_now e) u w2 H2) as H3.
  destruct (GetOrCreateSession _ _ _ _ _) as [w3 [err | r]]; [exact H3 |].
  pose proof (AnalyzeAt_heapAll r e w3 H3) as H4.
  destruct (AnalyzeAt _ _ _) as [w4 [err | res]]; exact H4.
Qed.

Lemma runGoroutine_heapAll os i e w :
  heapAll P w -> heapAll P (runGoroutine os i e w).
Proof.
  unfold runGoroutine. intros H.
  destruct (goroutines w !! i) as [[u st ts | r | u] |]; [exact H | | | exact H].
  - destruct (heap w !! r) as [s |] eqn:E; [| exact H].
    assert (P s) as Hs by (eapply Forall_lookup_1; eauto).
    pose proof (P_waitForQR (te_wait e) s Hs) as HW.
    destruct (waitForQR_turn (te_wait e) s) as [[s' persist] control].
    simpl in HW.
    assert (heapAll P (with_heap (<[r := s']> (heap w)) w)) as H1
      by (by apply Forall_insert).
    destruct persist as [[[u st] ts] |], control; exact H1.
  - apply Connect_heapAll. exact H.
Qed.

Lemma exec_heapAll os op w : heapAll P w -> heapAll P (exec os op w).
Proof.
  destruct op; simpl;
    eauto using GetOrCreateSession_heapAll, Connect_heapAll, GetQRCode_heapAll,
      GetStatus_heapAll, IsReady_heapAll, GetClient_heapAll, Logout_heapAll,
      HandleAnalyze_heapAll, HandleForceAnalysis_heapAll, connectAt_heapAll,
      AnalyzeAt_heapAll, runGoroutine_heapAll.
Qed.

Lemma run_heapAll os ops w : heapAll P w -> heapAll P (run os ops w).
Proof.
  revert w. induction ops as [| op ops IH]; intros w H; [exact H |].
  simpl. apply IH. by apply exec_heapAll.
Qed.

Lemma reachable_heapAll os w : reachable os w -> heapAll P w.
Proof.
  intros (txs & ops & ->). apply run_heapAll. constructor.
Qed.

End heap_invariant.

(** ** What the cache of a session can hold *)

Lemma unsaved_filter (allContacts : gmap JID ContactInfo) :
  len (filter (fun kv => ¬ isSaved kv.2) allContacts) = unsavedCount allContacts.
Proof.
  unfold unsavedCount. f_equal. f_equal.
  apply map_filter_ext. intros jid contact _. simpl. unfold isSaved.
  destruct (decide (FullName contact = "")), (decide (FullName contact = "Unknown"));
    tauto.
Qed.

(** What a computing [Analyze] returns and caches. *)
Lemma Analyze_computed e s s' result :
  Analyze e s = (s', Analysis_computed result) ->
  Ready s = true
  ∧ (∃ allContacts, ae_GetAllContacts e = Some allContacts
                    ∧ TotalUnsavedChats result = unsavedCount allContacts
                    ∧ UnknownNumberChats result = unsavedCount allContacts)
  ∧ AnalysisCache s' !! "current_session" = Some result
  ∧ Ready s' = true.
Proof.
  unfold Analyze. intros H.
  destruct (Client s); [| discriminate].
  destruct (Ready s) eqn:ER; simpl in H; [| discriminate].
  destruct (AnalysisCache s !! "current_session") as [cached |] eqn:EC.
  - destruct (isValidCache e s cached); [discriminate |].
    destruct (ae_GetAllContacts e) as [allContacts |]; [| discriminate].
    destruct (len allContacts =? 0); [discriminate |].
    injection H as <- <-. simpl. rewrite unsaved_filter.
    repeat split; eauto; apply lookup_insert_eq.
  - destruct (ae_GetAllContacts e) as [allContacts |]; [| discriminate].
    destruct (len allContacts =? 0); [discriminate |].
    injection H as <- <-. simpl. rewrite unsaved_filter.
    repeat split; eauto; apply lookup_insert_eq.
Qed.

(** A session that is not ready is left as it is by [Analyze]. *)
Lemma Analyze_not_ready e s : Ready s = false -> (Analyze e s).1 = s.
Proof.
  unfold Analyze. intros H. destruct (Client s); [| reflexivity].
  rewrite H. reflexivity.
Qed.

(** [Analyze] changes nothing of a session but its cache. *)
Lemma Analyze_cache_cases e s :
  Ready (Analyze e s).1 = Ready s
  ∧ ( AnalysisCache (Analyze e s).1 = AnalysisCache s
      ∨ AnalysisCache (Analyze e s).1 = ∅
      ∨ ∃ result c, (Analyze e s).2 = Analysis_computed result
                    ∧ (c = ∅ ∨ c = AnalysisCache s)
                    ∧ AnalysisCache (Analyze e s).1
                      = <["current_session" := result]> c ).
Proof.
  unfold Analyze.
  destruct (Client s) as [cl |]; [| auto].
  destruct (Ready s) eqn:ER; simpl; [| auto].
  destruct (AnalysisCache s !! "current_session") as [cached |].
  - destruct (isValidCache e s cached); [auto |].
    destruct (ae_GetAllContacts e) as [allContacts |]; [| simpl; auto].
    destruct (len allContacts =? 0); [simpl; auto |].
    simpl. split; [exact ER |]. right; right. do 2 eexists. split; [reflexivity |]. split; [left; reflexivity | reflexivity].
  - destruct (ae_GetAllContacts e) as [allContacts |]; [| auto].
    destruct (len allContacts =? 0); [auto |].
    simpl. split; [exact ER |]. right; right. do 2 eexists. split; [reflexivity |]. split; [right; reflexivity | reflexivity].
Qed.

Lemma connect_cache self client e s :
  AnalysisCache (co_session (connect self client e s)) = AnalysisCache s.
Proof. unfold connect. repeat (case_decide || case_match); reflexivity. Qed.

Lemma waitForQR_turn_cache e s :
  AnalysisCache (waitForQR_turn e s).1.1 = AnalysisCache s.
Proof. unfold waitForQR_turn. repeat (case_decide || case_match); reflexivity. Qed.

Lemma sessionInv_new userID now db :
  sessionInv (mkSession userID None db "" false "disconnected" now zeroTime ∅ ∅).
Proof. split; [reflexivity | apply map_Forall_empty]. Qed.

Lemma sessionInv_connect self client e s :
  sessionInv s -> sessionInv (co_session (connect self client e s)).
Proof.
  intros [H1 H2]. unfold sessionInv. rewrite connect_cache.
  split; [| exact H2].
  intros Hr. apply H1. revert Hr. unfold connect.
  repeat (case_decide || case_match); simpl; congruence.
Qed.

Lemma sessionInv_waitForQR e s :
  sessionInv s -> sessionInv (waitForQR_turn e s).1.1.
Proof.
  intros [H1 H2]. unfold sessionInv. rewrite waitForQR_turn_cache.
  split; [| exact H2].
  intros Hr. apply H1. revert Hr. unfold waitForQR_turn.
  repeat (case_decide || case_match); simpl; congruence.
Qed.

Lemma sessionInv_Analyze e s : sessionInv s -> sessionInv (Analyze e s).1.
Proof.
  intros [H1 H2].
  destruct (Ready s) eqn:ER;
    [| rewrite Analyze_not_ready by exact ER;
       split; [intros _; by apply H1 | exact H2]].
  destruct (Analyze_cache_cases e s) as [Hr Hc]. unfold sessionInv.
  rewrite Hr, ER. split; [discriminate |].
  destruct Hc as [-> | [-> | (result & c & Hres & Hc & ->)]];
    [exact H2 | apply map_Forall_empty |].
  destruct (Analyze e s) as [s' a] eqn:EA. simpl in Hres. subst a.
  apply Analyze_computed in EA as (_ & (allContacts & _ & Hu & Hk) & _).
  apply map_Forall_insert_2; [by exists allContacts |].
  destruct Hc as [-> | ->]; [apply map_Forall_empty | exact H2].
Qed.

Lemma sessionInv_logout s : sessionInv s -> sessionInv (logoutSession s).
Proof. intros _. split; [reflexivity | apply map_Forall_empty]. Qed.

(** Every session object of a reachable world satisfies the invariant. *)
Lemma reachable_sessionInv os w r s :
  reachable os w -> heap w !! r = Some s -> sessionInv s.
Proof.
  intros Hw Hs.
  eapply Forall_lookup_1; [| exact Hs].
  apply (reachable_heapAll sessionInv sessionInv_new sessionInv_connect
           sessionInv_waitForQR sessionInv_Analyze sessionInv_logout os w Hw).
Qed.

(** C10. Every result of a successful [Analyze] has [TotalUnsavedChats]
    equal to [UnknownNumberChats]. When the analysis is computed, both are
    the number of contacts just fetched whose full name is empty or
    "Unknown"; when it is served from the cache of a session of a reachable
    world, both are that count for the fetch of the analysis that cached
    it. *)
Theorem Analyze_unsaved_equals_unknown :
  (∀ e s s' result,
     Analyze e s = (s', Analysis_computed result) ->
     ∃ allContacts,
       ae_GetAllContacts e = Some allContacts
       ∧ TotalUnsavedChats result = unsavedCount allContacts
       ∧ UnknownNumberChats result = unsavedCount allContacts)
  ∧ (∀ os w r e result,
       reachable os w ->
       (AnalyzeAt r e w).2 = inr result ->
       TotalUnsavedChats result = UnknownNumberChats result
       ∧ countsUnsaved result).
Proof.
  split.
  - intros e s s' result H. by apply Analyze_computed in H as (_ & H & _).
  - intros os w r e result Hw H.
    assert (countsUnsaved result) as Hc.
    { unfold AnalyzeAt in H.
      destruct (heap w !! r) as [s |] eqn:Es; [| discriminate].
      pose proof (reachable_sessionInv os w r s Hw Es) as [_ Hinv].
      destruct (Analyze e s) as [s' a] eqn:EA.
      destruct a as [err | cached | computed]; simpl in H; [discriminate | |].
      - injection H as <-.
        unfold Analyze in EA.
        destruct (Client s) as [cl |]; [| discriminate].
        destruct (Ready s); simpl in EA; [| discriminate].
        destruct (AnalysisCache s !! "current_session") as [c |] eqn:EC.
        + destruct (isValidCache e s c).
          * injection EA as <- <-. by apply (Hinv _ _ EC).
          * repeat case_match; discriminate.
        + repeat case_match; discriminate.
      - injection H as <-.
        apply Analyze_computed in EA as (_ & (allContacts & _ & Hu & Hk) & _).
        exists allContacts. simpl. done. }
    split; [| exact Hc].
    destruct Hc as (allContacts & -> & ->). reflexivity.
Qed.

Lemma paired_world_reachable : reachable gate_os paired_world.
Proof. eexists _, _. reflexivity. Qed.

Lemma Analyze_unsaved_equals_unknown_witness :
  ∃ result,
    (AnalyzeAt 0%nat analyze_env paired_world).2 = inr result
    ∧ TotalUnsavedChats result = UnknownNumberChats result
    ∧ TotalUnsavedChats result = 1.
Proof.
  eexists. split; [vm_compute; reflexivity |].
  split.
  - apply (proj2 Analyze_unsaved_equals_unknown gate_os paired_world 0%nat
             analyze_env _ paired_world_reachable).
    vm_compute. reflexivity.
  - reflexivity.
Defined.

(** ** What one step does to a session object *)

Lemma extends_refl w : extends w w.
Proof. by intros r s. Qed.

Lemma heap_eq_extends w w' : heap w' = heap w -> extends w w'.
Proof. intros H r s Hs. by rewrite H. Qed.


Lemma extends_touches w w' : extends w w' -> touches w w'.
Proof. intros H r s Hs. exists s. split; [auto | constructor]. Qed.

Lemma extends_then_touches w1 w2 w3 :
  extends w1 w2 -> touches w2 w3 -> touches w1 w3.
Proof. intros H1 H2 r s H. auto. Qed.

Lemma insert_touches (w : World) r s s' :
  heap w !! r = Some s -> touch s s' ->
  ∀ w', heap w' = <[r := s']> (heap w) -> touches w w'.
Proof.
  intros Hs Ht w' Hw' r0 s0 H0. rewrite Hw'.
  destruct (decide (r = r0)) as [-> | Hne].
  - rewrite list_lookup_insert_eq by (by eapply lookup_lt_Some).
    exists s'. split; [reflexivity |]. congruence.
  - rewrite list_lookup_insert_ne by done. exists s0. split; [done | constructor].
Qed.

Lemma createNewSession_extends os ok now u w :
  extends w (createNewSession os ok now u w).1.
Proof.
  unfold createNewSession. intros r s H.
  destruct (userSessions w !! u); [exact H |].
  destruct (initializeDatabase _ _ _) as [err | [s1 created]]; simpl;
    by apply lookup_app_l_Some.
Qed.

Lemma GetOrCreateSession_extends os ok now u w :
  extends w (GetOrCreateSession os ok now u w).1.
Proof.
  unfold GetOrCreateSession.
  destruct (userSessions w !! u); [apply extends_refl |].
  apply createNewSession_extends.
Qed.





Lemma connectAt_touches r e w : touches w (connectAt r e w).1.
Proof.
  unfold connectAt.
  destruct (heap w !! r) as [s |] eqn:E;
    [| apply extends_touches, extends_refl].
  eapply (insert_touches w r s); [exact E | apply touch_connect |].
  destruct (co_NewClient _); reflexivity.
Qed.

Lemma Connect_touches os ok e u w : touches w (Connect os ok e u w).1.
Proof.
  unfold Connect.
  pose proof (GetOrCreateSession_extends os ok (ce_now e) u w) as H.
  destruct (GetOrCreateSession os ok (ce_now e) u w) as [w1 [err | r]];
    [by apply extends_touches |].
  eapply extends_then_touches; [exact H | apply connectAt_touches].
Qed.

Lemma AnalyzeAt_touches r e w : touches w (AnalyzeAt r e w).1.
Proof.
  unfold AnalyzeAt.
  destruct (heap w !! r) as [s |] eqn:E;
    [| apply extends_touches, extends_refl].
  eapply (insert_touches w r s); [exact E | apply (touch_Analyze s e) |].
  destruct (Analyze e s) as [s' a]. destruct a; reflexivity.
Qed.

Lemma Logout_touches os u w : touches w (Logout os u w).
Proof.
  unfold Logout.
  destruct (userSessions w !! u) as [r |];
    [| by apply extends_touches, heap_eq_extends].
  destruct (heap w !! r) as [s |] eqn:E;
    [| apply extends_touches, extends_refl].
  eapply (insert_touches w r s); [exact E | apply touch_logout |].
  simpl. case_decide; destruct (Client s); reflexivity.
Qed.




Lemma runGoroutine_touches os i e w : touches w (runGoroutine os i e w).
Proof.
  unfold runGoroutine.
  destruct (goroutines w !! i) as [[u st ts | r | u] |];
    [by apply extends_touches, heap_eq_extends | |
     | apply extends_touches, extends_refl].
  - destruct (heap w !! r) as [s |] eqn:E;
      [| apply extends_touches, extends_refl].
    eapply (insert_touches w r s); [exact E | apply (touch_waitForQR s (te_wait e)) |].
    destruct (waitForQR_turn (te_wait e) s) as [[s' persist] control].
    destruct persist as [[[u st] ts] |], control; reflexivity.
  - eapply extends_then_touches; [| apply Connect_touches].
    intros r s H. exact H.
Qed.





Lemma scanning_world_reachable : reachable gate_os scanning_world.
Proof. eexists _, _. reflexivity. Qed.


(** ** Queries that create *)

Lemma initializeDatabase_inr os ok s s1 created :
  initializeDatabase os ok s = inr (s1, created) ->
  ∃ c, s1 = with_SessionDB (Some c) s.
Proof.
  unfold initializeDatabase. intros H.
  repeat case_decide; destruct ok; try discriminate;
    injection H as <- <-; eauto.
Qed.

Lemma saveOrUpdate_row u st ts tbl :
  statusAllowed st = true ->
  ∃ row, saveOrUpdateSessionInDatabase u st ts tbl !! u = Some row
         ∧ WS_Status row = st ∧ WS_LastActivity row = ts.
Proof.
  intros H. unfold saveOrUpdateSessionInDatabase. rewrite H.
  destruct (tbl !! u); rewrite lookup_insert_eq; eauto.
Qed.

Lemma createNewSession_fresh os ok now u w s1 created :
  userSessions w !! u = None ->
  initializeDatabase os ok (newSession u now) = inr (s1, created) ->
  (createNewSession os ok now u w).2 = inr (length (heap w))
  ∧ registered u now s1 created w (createNewSession os ok now u w).1
  ∧ goroutines (createNewSession os ok now u w).1 = goroutines w.
Proof.
  intros Hu Hi. unfold createNewSession. rewrite Hu, Hi. simpl.
  destruct (initializeDatabase_inr _ _ _ _ _ Hi) as [c ->].
  split; [reflexivity |]. split; [| reflexivity].
  repeat split. simpl. by apply saveOrUpdate_row.
Qed.

Lemma GetOrCreateSession_fresh os ok now u w s1 created :
  userSessions w !! u = None ->
  initializeDatabase os ok (newSession u now) = inr (s1, created) ->
  (GetOrCreateSession os ok now u w).2 = inr (length (heap w))
  ∧ registered u now s1 created w (GetOrCreateSession os ok now u w).1
  ∧ goroutines (GetOrCreateSession os ok now u w).1 = goroutines w.
Proof.
  intros Hu Hi. unfold GetOrCreateSession. rewrite Hu.
  by apply createNewSession_fresh.
Qed.

(** C9, as amended. For a userID with no entry in the registry, when the
    credential store of the new session initialises, each of [GetStatus],
    [GetQRCode], [IsReady] and [GetClient] constructs a session object with
    status disconnected and its credential store, registers it in the
    registry and persists a status row; they answer disconnected, the empty
    QR code, false and nil, and [GetQRCode] also starts a goroutine that
    will call [Connect]. *)
Theorem queries_create_session os ok now u w s1 created :
  userSessions w !! u = None ->
  initializeDatabase os ok (newSession u now) = inr (s1, created) ->
  Status s1 = "disconnected" ∧ SessionDB s1 ≠ None ∧ UserID s1 = u
  ∧ registered u now s1 created w (GetStatus os ok now u w).1
  ∧ (GetStatus os ok now u w).2 = inr "disconnected"
  ∧ registered u now s1 created w (GetQRCode os ok now u w).1
  ∧ (GetQRCode os ok now u w).2 = inr ""
  ∧ goroutines (GetQRCode os ok now u w).1 = (goroutines w ++ [Go_Connect u])%list
  ∧ registered u now s1 created w (IsReady os ok now u w).1
  ∧ (IsReady os ok now u w).2 = false
  ∧ registered u now s1 created w (GetClient os ok now u w).1
  ∧ (GetClient os ok now u w).2 = None.
Proof.
  intros Hu Hi.
  destruct (GetOrCreateSession_fresh os ok now u w s1 created Hu Hi)
    as (Hres & Hreg & Hgo).
  destruct (initializeDatabase_inr _ _ _ _ _ Hi) as [c Hs1].
  assert (Hlook : heap (GetOrCreateSession os ok now u w).1 !! length (heap w)
                  = Some s1).
  { destruct Hreg as (-> & _). by rewrite lookup_app_r, Nat.sub_diag. }
  unfold GetStatus, GetQRCode, IsReady, GetClient.
  destruct (GetOrCreateSession os ok now u w) as [w1 res]. simpl in *.
  subst res. cbn [fst snd]. rewrite Hlook. subst s1. simpl.
  repeat split; try done; try apply Hreg.
  by rewrite Hgo.
Qed.

Lemma queries_create_session_witness :
  registered 7 1000 sqlite_session_7 (storeFiles 7) fresh_world
    (GetStatus gate_os true 1000 7 fresh_world).1
  ∧ (GetStatus gate_os true 1000 7 fresh_world).2 = inr "disconnected"
  ∧ registered 7 1000 sqlite_session_7 (storeFiles 7) fresh_world
      (GetQRCode gate_os true 1000 7 fresh_world).1
  ∧ goroutines (GetQRCode gate_os true 1000 7 fresh_world).1 = [Go_Connect 7].
Proof.
  pose proof (queries_create_session gate_os true 1000 7 fresh_world
                sqlite_session_7 (storeFiles 7) eq_refl eq_refl)
    as (_ & _ & _ & H1 & H2 & H3 & _ & H4 & _).
  exact (conj H1 (conj H2 (conj H3 H4))).
Defined.

(** C9 as stated fails there: user 7 has no entry, and each of the four
    queries returns without a session being registered or a status row
    being persisted. *)
Lemma queries_register_nothing_without_store :
  userSessions fresh_world !! 7%N = None
  ∧ (∃ err, (GetStatus postgres_without_dsn true 1000 7 fresh_world).2 = inl err)
  ∧ userSessions (GetStatus postgres_without_dsn true 1000 7 fresh_world).1 = ∅
  ∧ whatsapp_sessions (GetStatus postgres_without_dsn true 1000 7 fresh_world).1
    = ∅
  ∧ (∃ err, (GetQRCode postgres_without_dsn true 1000 7 fresh_world).2 = inl err)
  ∧ userSessions (GetQRCode postgres_without_dsn true 1000 7 fresh_world).1 = ∅
  ∧ (IsReady postgres_without_dsn true 1000 7 fresh_world).2 = false
  ∧ userSessions (IsReady postgres_without_dsn true 1000 7 fresh_world).1 = ∅
  ∧ (GetClient postgres_without_dsn true 1000 7 fresh_world).2 = None
  ∧ userSessions (GetClient postgres_without_dsn true 1000 7 fresh_world).1 = ∅
  ∧ whatsapp_sessions (GetClient postgres_without_dsn true 1000 7 fresh_world).1
    = ∅.
Proof. repeat split; try reflexivity; eexists; reflexivity. Qed.

(** ** Logout *)

(** The world after [Logout] of a registered user, field by field. *)
Lemma Logout_registered os u w r s :
  userSessions w !! u = Some r ->
  heap w !! r = Some s ->
  heap (Logout os u w) = <[r := logoutSession s]> (heap w)
  ∧ userSessions (Logout os u w) = delete u (userSessions w)
  ∧ whatsapp_sessions (Logout os u w) = delete u (whatsapp_sessions w)
  ∧ clientCalls (Logout os u w) = (clientCalls w ++ logoutCalls s)%list
  ∧ files (Logout os u w)
    = (if decide (WA_STORE_DRIVER os = "" ∨ WA_STORE_DRIVER os = "sqlite")
       then files w ∖ storeFiles (UserID s) else files w)
  ∧ goroutines (Logout os u w) = goroutines w
  ∧ transactions (Logout os u w) = transactions w.
Proof.
  intros Hu Hs. unfold Logout, logoutCalls. rewrite Hu, Hs.
  case_decide; destruct (Client s); simpl; rewrite ?app_nil_r; done.
Qed.

(** The world after [Logout] of a user without a session. *)
Lemma Logout_unregistered os u w :
  userSessions w !! u = None ->
  heap (Logout os u w) = heap w
  ∧ userSessions (Logout os u w) = userSessions w
  ∧ clientCalls (Logout os u w) = clientCalls w
  ∧ files (Logout os u w) = files w
  ∧ goroutines (Logout os u w) = goroutines w
  ∧ (∀ u', u' ≠ u ->
       whatsapp_sessions (Logout os u w) !! u' = whatsapp_sessions w !! u')
  ∧ (∀ row, whatsapp_sessions w !! u = Some row ->
       ∃ row', whatsapp_sessions (Logout os u w) !! u = Some row'
               ∧ WS_Status row' = "disconnected")
  ∧ (whatsapp_sessions w !! u = None ->
     whatsapp_sessions (Logout os u w) !! u = None).
Proof.
  intros Hu. unfold Logout. rewrite Hu. simpl.
  repeat split.
  - intros u' Hne. by rewrite lookup_alter_ne.
  - intros row Hrow. rewrite lookup_alter_eq, Hrow. simpl. eauto.
  - intros Hrow. by rewrite lookup_alter_eq, Hrow.
Qed.

(** [Logout] purges a registered session: it logs out and disconnects the
    client, deletes the registry entry and the status row, empties the
    object and its cache, and, when WA_STORE_DRIVER is empty or "sqlite",
    removes the three store files of the session's user; the next access
    constructs a new, disconnected session object. *)
Theorem Logout_purges os u w r s :
  userSessions w !! u = Some r ->
  heap w !! r = Some s ->
  let w' := Logout os u w in
  clientCalls w' = (clientCalls w ++ logoutCalls s)%list
  ∧ userSessions w' !! u = None
  ∧ whatsapp_sessions w' !! u = None
  ∧ heap w' !! r = Some (logoutSession s)
  ∧ AnalysisCache (logoutSession s) = ∅
  ∧ GetCachedAnalysis u w' = None
  ∧ (WA_STORE_DRIVER os = "" ∨ WA_STORE_DRIVER os = "sqlite" ->
     ∀ f, f ∈ storeFiles (UserID s) -> f ∉ files w')
  ∧ (∀ ok now s1 created,
       initializeDatabase os ok (newSession u now) = inr (s1, created) ->
       (GetOrCreateSession os ok now u w').2 = inr (length (heap w))
       ∧ heap (GetOrCreateSession os ok now u w').1 !! length (heap w) = Some s1
       ∧ length (heap w) ≠ r
       ∧ Status s1 = "disconnected" ∧ Ready s1 = false ∧ QRCode s1 = ""
       ∧ Client s1 = None ∧ AnalysisCache s1 = ∅).
Proof.
  intros Hu Hs w'.
  destruct (Logout_registered os u w r s Hu Hs)
    as (Hheap & Hreg & Hrows & Hcalls & Hfiles & _).
  fold w' in Hheap, Hreg, Hrows, Hcalls, Hfiles.
  assert (Hlt : (r < length (heap w))%nat) by (by eapply lookup_lt_Some).
  assert (Hgone : userSessions w' !! u = None)
    by (rewrite Hreg; apply lookup_delete_eq).
  split; [exact Hcalls |]. split; [exact Hgone |].
  split; [rewrite Hrows; apply lookup_delete_eq |].
  split; [rewrite Hheap; by apply list_lookup_insert_eq |].
  split; [reflexivity |].
  split; [unfold GetCachedAnalysis; by rewrite Hgone |].
  split.
  - intros Hd f Hf. rewrite Hfiles, decide_True by exact Hd.
    intros Hin. apply elem_of_difference in Hin. tauto.
  - intros ok now s1 created Hi.
    destruct (GetOrCreateSession_fresh os ok now u w' s1 created Hgone Hi)
      as (Hres & (Hheap' & _) & _).
    assert (Hlen : length (heap w') = length (heap w))
      by (by rewrite Hheap, length_insert).
    rewrite Hres, Hheap', Hlen.
    split; [reflexivity |].
    split; [by rewrite lookup_app_r, Hlen, Nat.sub_diag by lia |].
    split; [lia |].
    destruct (initializeDatabase_inr _ _ _ _ _ Hi) as [c ->]. done.
Qed.

(** User 7 connected with no stored device, under the default store. *)
Lemma scanning_world_session :
  userSessions scanning_world !! 7%N = Some 0%nat
  ∧ heap scanning_world !! 0%nat = Some (session_at scanning_world 0%nat).
Proof. split; reflexivity. Qed.

Lemma Logout_purges_witness :
  userSessions (Logout gate_os 7 scanning_world) !! 7%N = None
  ∧ whatsapp_sessions (Logout gate_os 7 scanning_world) !! 7%N = None
  ∧ clientCalls (Logout gate_os 7 scanning_world)
    = (clientCalls scanning_world
       ++ [(0%nat, Call_Logout); (0%nat, Call_Disconnect)])%list
  ∧ storeFile 7 ∉ files (Logout gate_os 7 scanning_world).
Proof.
  pose proof (Logout_purges gate_os 7 scanning_world 0%nat
                (session_at scanning_world 0%nat)
                (proj1 scanning_world_session) (proj2 scanning_world_session))
    as (Hcalls & Hreg & Hrow & _ & _ & _ & Hfiles & _).
  split; [exact Hreg |]. split; [exact Hrow |]. split; [exact Hcalls |].
  apply Hfiles; [left; reflexivity |].
  unfold storeFiles. apply elem_of_union_l, elem_of_union_l, elem_of_singleton.
  reflexivity.
Defined.

(** C4 at its failing input. With WA_STORE_DRIVER=sqlite3 the session of
    user 7 is created on the sqlite fallback, which puts its three store
    files on disk; [Logout] deletes the registry entry and the status row
    but leaves all three files where they are. *)
Theorem Logout_leaves_files_of_fallback_store :
  userSessions fallback_world !! 7%N = Some 0%nat
  ∧ SessionDB (session_at fallback_world 0%nat)
    = Some (SqliteContainer (storeFile 7))
  ∧ files fallback_world = storeFiles 7
  ∧ userSessions (Logout fallback_os 7 fallback_world) !! 7%N = None
  ∧ whatsapp_sessions (Logout fallback_os 7 fallback_world) !! 7%N = None
  ∧ files (Logout fallback_os 7 fallback_world) = storeFiles 7
  ∧ storeFile 7 ∈ files (Logout fallback_os 7 fallback_world).
Proof.
  repeat split; try reflexivity.
Qed.

(** ** The registry points at sessions of the right user *)

Lemma touch_UserID s s' : touch s s' -> UserID s' = UserID s.
Proof.
  intros Ht. destruct Ht; try reflexivity.
  - unfold connect. repeat (case_decide || case_match); reflexivity.
  - unfold waitForQR_turn. repeat (case_decide || case_match); reflexivity.
  - unfold Analyze. repeat (case_decide || case_match); reflexivity.
Qed.

Lemma evolves_refl w : evolves w w.
Proof. split; eauto. Qed.

Lemma evolves_trans w1 w2 w3 : evolves w1 w2 -> evolves w2 w3 -> evolves w1 w3.
Proof.
  intros [K1 R1] [K2 R2]. split.
  - intros r s H. destruct (K1 r s H) as (s' & H' & E').
    destruct (K2 r s' H') as (s'' & H'' & E''). exists s''. split; congruence.
  - intros u r H. destruct (R2 u r H) as [H2 | H2]; [| by right].
    destruct (R1 u r H2) as [H1 | (s & Hs & Es)]; [by left |].
    destruct (K2 r s Hs) as (s' & Hs' & Es'). right. exists s'.
    split; congruence.
Qed.

(** A step that touches the heap and leaves the registry as it is, or
    deletes from it. *)
Lemma touches_evolves w w' :
  touches w w' ->
  (∀ u r, userSessions w' !! u = Some r -> userSessions w !! u = Some r) ->
  evolves w w'.
Proof.
  intros Ht Hr. split; [| by left; apply Hr].
  intros r s H. destruct (Ht r s H) as (s' & H' & T). exists s'.
  split; [done | by apply touch_UserID].
Qed.

Lemma createNewSession_evolves os ok now u w :
  evolves w (createNewSession os ok now u w).1.
Proof.
  split.
  - intros r s H. exists s. split; [| reflexivity].
    by apply createNewSession_extends.
  - intros u' r. unfold createNewSession.
    destruct (userSessions w !! u) eqn:Eu; [by left |].
    destruct (initializeDatabase os ok (newSession u now))
      as [err | [s1 created]] eqn:Ei; simpl; [by left |].
    destruct (initializeDatabase_inr _ _ _ _ _ Ei) as [c ->].
    destruct (decide (u = u')) as [-> | Hne].
    + rewrite lookup_insert_eq. intros [= <-]. right.
      eexists. split; [by rewrite lookup_app_r, Nat.sub_diag |]. reflexivity.
    + rewrite lookup_insert_ne by done. by left.
Qed.

Lemma GetOrCreateSession_evolves os ok now u w :
  evolves w (GetOrCreateSession os ok now u w).1.
Proof.
  unfold GetOrCreateSession.
  destruct (userSessions w !! u); [apply evolves_refl |].
  apply createNewSession_evolves.
Qed.

Lemma connectAt_evolves r e w : evolves w (connectAt r e w).1.
Proof.
  apply touches_evolves; [apply connectAt_touches |].
  unfold connectAt. destruct (heap w !! r); [| done].
  destruct (co_NewClient _); done.
Qed.

Lemma Connect_evolves os ok e u w : evolves w (Connect os ok e u w).1.
Proof.
  unfold Connect.
  pose proof (GetOrCreateSession_evolves os ok (ce_now e) u w) as H.
  destruct (GetOrCreateSession os ok (ce_now e) u w) as [w1 [err | r]];
    [exact H |].
  eapply evolves_trans; [exact H | apply connectAt_evolves].
Qed.

Lemma AnalyzeAt_evolves r e w : evolves w (AnalyzeAt r e w).1.
Proof.
  apply touches_evolves; [apply AnalyzeAt_touches |].
  unfold AnalyzeAt. destruct (heap w !! r); [| done].
  destruct (Analyze e _) as [s' a]. destruct a; done.
Qed.

Lemma GetQRCode_evolves os ok now u w : evolves w (GetQRCode os ok now u w).1.
Proof.
  unfold GetQRCode.
  pose proof (GetOrCreateSession_evolves os ok now u w) as H.
  destruct (GetOrCreateSession os ok now u w) as [w1 [err | r]]; [exact H |].
  destruct (heap w1 !! r); [| exact H]. simpl. case_match; exact H.
Qed.

Lemma GetStatus_evolves os ok now u w : evolves w (GetStatus os ok now u w).1.
Proof.
  unfold GetStatus.
  pose proof (GetOrCreateSession_evolves os ok now u w) as H.
  destruct (GetOrCreateSession os ok now u w) as [w1 [err | r]]; [exact H |].
  destruct (heap w1 !! r); exact H.
Qed.

Lemma IsReady_evolves os ok now u w : evolves w (IsReady os ok now u w).1.
Proof.
  unfold IsReady.
  pose proof (GetOrCreateSession_evolves os ok now u w) as H.
  destruct (GetOrCreateSession os ok now u w) as [w1 [err | r]]; [exact H |].
  destruct (heap w1 !! r); exact H.
Qed.

Lemma GetClient_evolves os ok now u w : evolves w (GetClient os ok now u w).1.
Proof.
  unfold GetClient.
  pose proof (GetOrCreateSession_evolves os ok now u w) as H.
  destruct (GetOrCreateSession os ok now u w) as [w1 [err | r]]; [exact H |].
  destruct (heap w1 !! r); exact H.
Qed.

Lemma Logout_evolves os u w : evolves w (Logout os u w).
Proof.
  apply touches_evolves; [apply Logout_touches |].
  intros u' r. destruct (userSessions w !! u) as [r0 |] eqn:Eu.
  - destruct (heap w !! r0) as [s |] eqn:Es.
    + destruct (Logout_registered os u w r0 s Eu Es) as (_ & -> & _).
      intros H. apply lookup_delete_Some in H. tauto.
    + unfold Logout. by rewrite Eu, Es.
  - destruct (Logout_unregistered os u w Eu) as (_ & -> & _). done.
Qed.

Lemma serveAnalysis_evolves os e u w : evolves w (serveAnalysis os e u w).1.
Proof.
  unfold serveAnalysis.
  destruct (GetCachedAnalysis u w); [apply evolves_refl |].
  pose proof (IsReady_evolves os (he_sqlstore_New_ok e) (ae_now (he_analyze e))
                u w) as H1.
  destruct (IsReady _ _ _ _ _) as [w1 ready].
  destruct ready; simpl; [| exact H1].
  destruct (he_IsConnected e); simpl; [| exact H1].
  pose proof (GetOrCreateSession_evolves os (he_sqlstore_New_ok e)
                (ae_now (he_analyze e)) u w1) as H2.
  destruct (GetOrCreateSession _ _ _ _ _) as [w2 [err | r]];
    [eapply evolves_trans; eauto |].
  pose proof (AnalyzeAt_evolves r (he_analyze e) w2) as H3.
  assert (evolves w (AnalyzeAt r (he_analyze e) w2).1) as H4
    by (eapply evolves_trans; [| exact H3]; eapply evolves_trans; eauto).
  destruct (AnalyzeAt _ _ _) as [w3 [err | res]]; exact H4.
Qed.

Lemma HandleAnalyze_evolves os e u w : evolves w (HandleAnalyze os e u w).1.
Proof.
  unfold HandleAnalyze.
  pose proof (GetClient_evolves os (he_sqlstore_New_ok e) (ae_now (he_analyze e))
                u w) as H1.
  destruct (GetClient _ _ _ _ _) as [w1 cl].
  destruct cl; [| exact H1].
  destruct (ae_StoreID (he_analyze e)); [| exact H1].
  case_decide; [exact H1 |].
  destruct (services.CheckIfUserPaidForPhone _ _ _); simpl.
  - eapply evolves_trans; [exact H1 | apply serveAnalysis_evolves].
  - case_match; exact H1.
Qed.

Lemma HandleForceAnalysis_evolves os ok e u w :
  evolves w (HandleForceAnalysis os ok e u w).1.
Proof.
  unfold HandleForceAnalysis.
  pose proof (IsReady_evolves os ok (ae_now e) u w) as H1.
  destruct (IsReady _ _ _ _ _) as [w1 ready].
  destruct ready; simpl; [| exact H1].
  pose proof (GetClient_evolves os ok (ae_now e) u w1) as H2.
  destruct (GetClient _ _ _ _ _) as [w2 cl].
  assert (evolves w w2) as H12 by (eapply evolves_trans; eauto).
  destruct cl; [| exact H12].
  pose proof (GetOrCreateSession_evolves os ok (ae_now e) u w2) as H3.
  destruct (GetOrCreateSession _ _ _ _ _) as [w3 [err | r]];
    [eapply evolves_trans; eauto |].
  pose proof (AnalyzeAt_evolves r e w3) as H4.
  assert (evolves w (AnalyzeAt r e w3).1) as H5
    by (eapply evolves_trans; [| exact H4]; eapply evolves_trans; eauto).
  destruct (AnalyzeAt _ _ _) as [w4 [err | res]]; exact H5.
Qed.

Lemma runGoroutine_evolves os i e w : evolves w (runGoroutine os i e w).
Proof.
  destruct (goroutines w !! i) as [[u st ts | r | u] |] eqn:Eg.
  - apply touches_evolves; [apply runGoroutine_touches |].
    unfold runGoroutine. rewrite Eg. done.
  - apply touches_evolves; [apply runGoroutine_touches |].
    unfold runGoroutine. rewrite Eg.
    destruct (heap w !! r); [| done].
    destruct (waitForQR_turn _ _) as [[s' persist] control].
    destruct persist as [[[u0 st0] ts0] |], control; done.
  - unfold runGoroutine. rewrite Eg.
    eapply evolves_trans; [| apply Connect_evolves].
    apply touches_evolves; [by apply extends_touches, heap_eq_extends | done].
  - unfold runGoroutine. rewrite Eg. apply evolves_refl.
Qed.

Lemma exec_evolves os op w : evolves w (exec os op w).
Proof.
  destruct op; simpl;
    auto using GetOrCreateSession_evolves, Connect_evolves, GetQRCode_evolves,
      GetStatus_evolves, IsReady_evolves, GetClient_evolves, Logout_evolves,
      HandleAnalyze_evolves, HandleForceAnalysis_evolves, connectAt_evolves,
      AnalyzeAt_evolves, runGoroutine_evolves.
Qed.

Lemma run_evolves os ops w : evolves w (run os ops w).
Proof.
  revert w. induction ops as [| op ops IH]; intros w; [apply evolves_refl |].
  simpl. eapply evolves_trans; [apply exec_evolves | apply IH].
Qed.

(** In a reachable world every entry of the registry points at a session
    object of the user it is filed under. *)
Lemma reachable_registry os w u r :
  reachable os w -> userSessions w !! u = Some r ->
  ∃ s, heap w !! r = Some s ∧ UserID s = u.
Proof.
  intros (txs & ops & ->) H.
  destruct (run_evolves os ops (NewMultiUserWhatsAppManager txs)) as [_ R].
  destruct (R u r H) as [H0 | H0]; [| exact H0].
  simpl in H0. by rewrite lookup_empty in H0.
Qed.

(** ** The pairing watcher of a session that was logged out *)

(** A turn of the watcher at index [i], field by field. *)
Lemma runGoroutine_watcher os i e w r s :
  goroutines w !! i = Some (Go_waitForQR r) ->
  heap w !! r = Some s ->
  let t := waitForQR_turn (te_wait e) s in
  let w' := runGoroutine os i e w in
  heap w' = <[r := t.1.1]> (heap w)
  ∧ userSessions w' = userSessions w
  ∧ files w' = files w
  ∧ clientCalls w' = clientCalls w
  ∧ whatsapp_sessions w'
    = match t.1.2 with
      | Some (userID, status, ts) =>
          saveOrUpdateSessionInDatabase userID status ts (whatsapp_sessions w)
      | None => whatsapp_sessions w
      end
  ∧ goroutines w'
    = match t.2 with
      | Continue => goroutines w
      | Return => removeAt i (goroutines w)
      end.
Proof.
  intros Hg Hs t w'. subst t w'. unfold runGoroutine. rewrite Hg, Hs.
  destruct (waitForQR_turn (te_wait e) s) as [[s' persist] control].
  destruct persist as [[[u st] ts] |], control; done.
Qed.

Lemma logoutSession_timeout s :
  with_QRCode "" (with_Status "disconnected" (logoutSession s)) = logoutSession s.
Proof. reflexivity. Qed.

(** C3, as amended. [Logout] neither stops the pairing watcher of the
    session nor leaves it a token or signal to check: the watcher is still
    pending afterwards, and its next turn writes into the session object it
    holds and into the status row of its user. What holds is the frame: that
    turn leaves the registry (where the user stays absent), the disk, the
    clients, every other session object and every other user's status row
    alone. When its wait times out, the object keeps the status
    disconnected, the empty QR code, the ready flag false and the empty
    cache that [Logout] wrote, but the deleted status row comes back with
    status disconnected. When a success event arrives, the object becomes
    connected and ready and the row comes back as connected; when a code
    arrives, the object gets a QR code again. *)
Theorem abandoned_watcher_after_logout os u w r i e :
  reachable os w ->
  userSessions w !! u = Some r ->
  goroutines w !! i = Some (Go_waitForQR r) ->
  let w1 := Logout os u w in
  let w2 := runGoroutine os i e w1 in
  goroutines w1 !! i = Some (Go_waitForQR r)
  ∧ whatsapp_sessions w1 !! u = None
  ∧ (∃ s1, heap w1 !! r = Some s1 ∧ Status s1 = "disconnected"
           ∧ QRCode s1 = "" ∧ Ready s1 = false ∧ AnalysisCache s1 = ∅)
  (* the frame of the abandoned watcher's turn *)
  ∧ userSessions w2 = userSessions w1 ∧ userSessions w2 !! u = None
  ∧ files w2 = files w1 ∧ clientCalls w2 = clientCalls w1
  ∧ (∀ r', r' ≠ r -> heap w2 !! r' = heap w1 !! r')
  ∧ (∀ u', u' ≠ u -> whatsapp_sessions w2 !! u' = whatsapp_sessions w1 !! u')
  (* its timeout *)
  ∧ (select (te_wait e) = Case_timeout ->
     heap w2 !! r = heap w1 !! r
     ∧ ∃ row, whatsapp_sessions w2 !! u = Some row
              ∧ WS_Status row = "disconnected")
  (* a late success event *)
  ∧ (∀ item, select (te_wait e) = Case_item item -> Event item = "success" ->
     ∃ s2 row, heap w2 !! r = Some s2 ∧ Status s2 = "connected"
               ∧ Ready s2 = true
               ∧ whatsapp_sessions w2 !! u = Some row
               ∧ WS_Status row = "connected")
  (* a late code *)
  ∧ (∀ item qrBase64,
       select (te_wait e) = Case_item item -> Event item = "code" ->
       we_qrBase64 (te_wait e) = Some qrBase64 ->
       ∃ s2, heap w2 !! r = Some s2
             ∧ QRCode s2 = "data:image/png;base64," ++ qrBase64
             ∧ whatsapp_sessions w2 = whatsapp_sessions w1).
Proof.
  intros Hw Hu Hg w1 w2.
  destruct (reachable_registry os w u r Hw Hu) as (s & Hs & Hid).
  destruct (Logout_registered os u w r s Hu Hs)
    as (Hheap & Hreg & Hrows & _ & _ & Hgo & _).
  fold w1 in Hheap, Hreg, Hrows, Hgo.
  assert (Hlt : (r < length (heap w))%nat) by (by eapply lookup_lt_Some).
  assert (Hs1 : heap w1 !! r = Some (logoutSession s))
    by (rewrite Hheap; by apply list_lookup_insert_eq).
  assert (Hg1 : goroutines w1 !! i = Some (Go_waitForQR r)) by (by rewrite Hgo).
  destruct (runGoroutine_watcher os i e w1 r (logoutSession s) Hg1 Hs1)
    as (Hheap2 & Hreg2 & Hfiles2 & Hcalls2 & Hrows2 & _).
  fold w2 in Hheap2, Hreg2, Hfiles2, Hcalls2, Hrows2.
  assert (Hlt1 : (r < length (heap w1))%nat) by (by eapply lookup_lt_Some).
  assert (Hrow1 : whatsapp_sessions w1 !! u = None)
    by (rewrite Hrows; apply lookup_delete_eq).
  split; [exact Hg1 |]. split; [exact Hrow1 |].
  split; [exists (logoutSession s); done |].
  split; [exact Hreg2 |].
  split; [rewrite Hreg2, Hreg; apply lookup_delete_eq |].
  split; [exact Hfiles2 |]. split; [exact Hcalls2 |].
  split; [intros r' Hne; rewrite Hheap2; by apply list_lookup_insert_ne |].
  assert (Hsave : ∀ st ts u',
            u' ≠ u ->
            saveOrUpdateSessionInDatabase u st ts (whatsapp_sessions w1) !! u'
            = whatsapp_sessions w1 !! u').
  { intros st ts u' Hne. unfold saveOrUpdateSessionInDatabase.
    destruct (statusAllowed st); [| done].
    destruct (whatsapp_sessions w1 !! u); by rewrite lookup_insert_ne. }
  revert Hheap2 Hrows2. unfold waitForQR_turn.
  destruct (select (te_wait e)) as [item |] eqn:Esel.
  - destruct (decide (Event item = "code")) as [Ecode | Ecode].
    + destruct (we_qrBase64 (te_wait e)) as [b64 |] eqn:Eb64; simpl;
        intros Hheap2 Hrows2.
      * split; [intros u' _; by rewrite Hrows2 |].
        split; [discriminate |].
        split; [intros item' [= <-] Hev; congruence |].
        intros item' b64' [= <-] _ [= <-].
        eexists. split; [rewrite Hheap2; by apply list_lookup_insert_eq |].
        done.
      * split; [intros u' _; by rewrite Hrows2 |].
        split; [discriminate |].
        split; [intros item' [= <-] Hev; congruence |].
        intros item' b64' _ _ [=].
    + destruct (decide (Event item = "success")) as [Esucc | Esucc]; simpl;
        intros Hheap2 Hrows2.
      * rewrite Hid in Hrows2.
        split; [intros u' Hne; rewrite Hrows2; by apply Hsave |].
        split; [discriminate |].
        split; [| intros item' b64' [= <-] Hev; congruence].
        intros item' _ _.
        destruct (saveOrUpdate_row u "connected" (we_now (te_wait e))
                    (whatsapp_sessions w1) eq_refl) as (row & Hrow & Hst & _).
        eexists _, row.
        split; [rewrite Hheap2; by apply list_lookup_insert_eq |].
        rewrite Hrows2. done.
      * split; [intros u' _; by rewrite Hrows2 |].
        split; [discriminate |].
        split; [intros item' [= <-] Hev; congruence |].
        intros item' b64' [= <-] Hev; congruence.
  - simpl. intros Hheap2 Hrows2. rewrite Hid in Hrows2.
    split; [intros u' Hne; rewrite Hrows2; by apply Hsave |].
    split; [| split; discriminate].
    intros _. split.
    + rewrite Hheap2, Hs1. by apply list_lookup_insert_eq.
    + destruct (saveOrUpdate_row u "disconnected" (we_now (te_wait e))
                  (whatsapp_sessions w1) eq_refl) as (row & Hrow & Hst & _).
      exists row. rewrite Hrows2. done.
Qed.

(** C3 as stated fails: user 7 is scanning and is logged out while the
    watcher waits. The watcher is still pending; the status row that logout
    deleted is written again when the watcher's wait times out, and a success
    event arriving after the logout turns the logged-out session connected
    and ready. *)
Lemma abandoned_watcher_rewrites_state :
  goroutines scanning_world !! 2%nat = Some (Go_waitForQR 0)
  ∧ goroutines logged_out_world !! 2%nat = Some (Go_waitForQR 0)
  ∧ whatsapp_sessions logged_out_world !! 7%N = None
  ∧ (∃ row,
       whatsapp_sessions (runGoroutine gate_os 2 wait_times_out logged_out_world)
         !! 7%N = Some row
       ∧ WS_Status row = "disconnected")
  ∧ Status (session_at logged_out_world 0%nat) = "disconnected"
  ∧ Ready (session_at logged_out_world 0%nat) = false
  ∧ Status (session_at (exec gate_os pairing_succeeds logged_out_world) 0%nat)
    = "connected"
  ∧ Ready (session_at (exec gate_os pairing_succeeds logged_out_world) 0%nat)
    = true.
Proof. repeat split; try reflexivity. eexists. split; reflexivity. Qed.

Lemma abandoned_watcher_after_logout_witness :
  userSessions (runGoroutine gate_os 2 wait_times_out logged_out_world) !! 7%N
  = None
  ∧ heap (runGoroutine gate_os 2 wait_times_out logged_out_world) !! 0%nat
    = heap logged_out_world !! 0%nat
  ∧ ∃ row,
      whatsapp_sessions (runGoroutine gate_os 2 wait_times_out logged_out_world)
        !! 7%N = Some row
      ∧ WS_Status row = "disconnected".
Proof.
  pose proof (abandoned_watcher_after_logout gate_os 7 scanning_world 0%nat
                2%nat wait_times_out scanning_world_reachable eq_refl eq_refl)
    as (_ & _ & _ & _ & Hreg & _ & _ & _ & _ & Htimeout & _).
  split; [exact Hreg |]. exact (Htimeout eq_refl).
Defined.

(** ** One construction per user *)

Lemma interleave_step_onceInv os u w0 t st :
  storeOpens os u t -> onceInv u w0 st -> onceInv u w0 (interleave_step os u t st).
Proof.
  intros (s1 & created & Hopen) HI. destruct st as [w pcs].
  unfold interleave_step. simpl.
  destruct (pcs !! turn_caller t) as [pc |] eqn:Epc; [| exact HI].
  destruct HI as [(Hnone & Hheap & Hpcs) | (Hsome & Hobj & Hpcs)]; simpl in *.
  - destruct pc as [| | res].
    + simpl. rewrite Hnone. simpl. left. repeat split; try done.
      apply Forall_insert; auto.
    + simpl.
      destruct (createNewSession_fresh os (turn_sqlstore_New_ok t) (turn_now t)
                  u w s1 created Hnone Hopen) as (Hres & Hreg & _).
      destruct (createNewSession os (turn_sqlstore_New_ok t) (turn_now t) u w)
        as [w' res]. simpl in *. subst res.
      destruct Hreg as (Hheap' & Hreg' & _).
      destruct (initializeDatabase_inr _ _ _ _ _ Hopen) as [c Hs1].
      right. simpl. rewrite Hheap in Hheap'. rewrite Hheap in Hreg'.
      split; [rewrite Hreg'; apply lookup_insert_eq |].
      split; [exists s1; subst s1; done |].
      apply Forall_insert.
      * eapply Forall_impl; [exact Hpcs |]. intros pc [-> | ->] res; discriminate.
      * intros res [= <-]. by rewrite Hheap.
    + exfalso. eapply Forall_lookup_1 in Hpcs; [| exact Epc].
      destruct Hpcs; discriminate.
  - right. destruct pc as [| | res]; simpl.
    + rewrite Hsome. simpl. repeat split; try done.
      apply Forall_insert; [done |]. by intros res [= <-].
    + unfold createNewSession. rewrite Hsome. simpl. repeat split; try done.
      apply Forall_insert; [done |]. by intros res [= <-].
    + repeat split; try done. apply Forall_insert; [done |].
      eapply Forall_lookup_1 in Hpcs; [| exact Epc]. exact Hpcs.
Qed.

Lemma interleave_onceInv os u w0 schedule st :
  Forall (storeOpens os u) schedule ->
  onceInv u w0 st -> onceInv u w0 (interleave os u schedule st).
Proof.
  revert st. induction schedule as [| t schedule IH]; intros st Hs HI;
    [exact HI |].
  simpl. apply Forall_cons in Hs as [Ht Hs].
  apply IH; [exact Hs |]. by apply interleave_step_onceInv.
Qed.

Lemma callerStep_rank os ok now u pc w :
  (Nat.min 2 (S (rank pc)) <= rank (callerStep os ok now u pc w).2)%nat.
Proof.
  destruct pc; simpl.
  - destruct (userSessions w !! u); simpl; lia.
  - destruct (createNewSession os ok now u w); simpl; lia.
  - lia.
Qed.

Lemma interleave_progress os u schedule st i pc :
  st.2 !! i = Some pc ->
  ∃ pc', (interleave os u schedule st).2 !! i = Some pc'
         ∧ (Nat.min 2 (rank pc + turnsOf i schedule) <= rank pc')%nat.
Proof.
  revert st pc. induction schedule as [| t schedule IH]; intros st pc Hpc.
  - exists pc. split; [exact Hpc |]. unfold turnsOf. rewrite filter_nil.
    cbn [length]. lia.
  - cbn [interleave foldl]. fold (interleave os u schedule).
    unfold turnsOf. rewrite filter_cons.
    destruct (decide (turn_caller t = i)) as [Et | Et].
    + assert (Hstep : (interleave_step os u t st).2 !! i
                      = Some (callerStep os (turn_sqlstore_New_ok t)
                                (turn_now t) u pc st.1).2).
      { unfold interleave_step. rewrite Et, Hpc. simpl.
        apply list_lookup_insert_eq. by eapply lookup_lt_Some. }
      destruct (IH _ _ Hstep) as (pc' & Hpc' & Hrank).
      exists pc'. split; [exact Hpc' |].
      pose proof (callerStep_rank os (turn_sqlstore_New_ok t) (turn_now t) u
                    pc st.1) as Hr.
      unfold turnsOf in Hrank. cbn [length]. lia.
    + assert (Hstep : (interleave_step os u t st).2 !! i = Some pc).
      { unfold interleave_step.
        destruct (st.2 !! turn_caller t); [| exact Hpc]. simpl.
        by rewrite list_lookup_insert_ne. }
      destruct (IH _ _ Hstep) as (pc' & Hpc' & Hrank).
      exists pc'. split; [exact Hpc' |]. exact Hrank.
Qed.

(** The call [GetOrCreateSession] is the two steps of one caller, run
    without interruption. *)
Lemma GetOrCreateSession_two_steps os ok now u w :
  let st1 := callerStep os ok now u At_RLock w in
  callerStep os ok now u st1.2 st1.1
  = ((GetOrCreateSession os ok now u w).1,
     Returned (GetOrCreateSession os ok now u w).2).
Proof.
  unfold GetOrCreateSession. simpl.
  destruct (userSessions w !! u); simpl; [reflexivity |].
  by destruct (createNewSession os ok now u w).
Qed.

(** C2, as amended. The registry holds at most one session per user.
    [GetOrCreateSession] for a user already in the registry returns the
    registered object and constructs nothing. For a user not yet seen and
    any number of concurrent callers in any interleaving of their critical
    sections, when the credential store initialises: at most one session
    object is constructed; as soon as any caller has returned, exactly one
    has been constructed, it carries the user's id and an initialised
    credential store, it is the one in the registry, and every caller that
    has returned holds its address; and every caller that got its two turns
    has returned. *)
Theorem GetOrCreateSession_constructs_once :
  (∀ os ok now u w r,
     userSessions w !! u = Some r ->
     GetOrCreateSession os ok now u w = (w, inr r))
  ∧ (∀ os u w n schedule,
       userSessions w !! u = None ->
       Forall (storeOpens os u) schedule ->
       let st := interleave os u schedule (w, replicate n At_RLock) in
       let r := length (heap w) in
       (* at most one object is constructed *)
       (heap st.1 = heap w
        ∨ ∃ s1, heap st.1 = (heap w ++ [s1])%list ∧ UserID s1 = u
                ∧ SessionDB s1 ≠ None ∧ userSessions st.1 !! u = Some r)
       (* whoever has returned holds the one object *)
       ∧ (∀ i res,
            st.2 !! i = Some (Returned res) ->
            res = inr r ∧ userSessions st.1 !! u = Some r
            ∧ length (heap st.1) = S (length (heap w)))
       (* whoever got two turns has returned *)
       ∧ (∀ i, (i < n)%nat -> (2 <= turnsOf i schedule)%nat ->
               st.2 !! i = Some (Returned (inr r)))).
Proof.
  split.
  - intros os ok now u w r H. unfold GetOrCreateSession. by rewrite H.
  - intros os u w n schedule Hnone Hopen st r.
    assert (HI0 : onceInv u w (w, replicate n At_RLock)).
    { left. repeat split; try done. apply Forall_replicate. by left. }
    pose proof (interleave_onceInv os u w schedule _ Hopen HI0) as HI.
    fold st in HI.
    assert (Hret : ∀ i res,
              st.2 !! i = Some (Returned res) ->
              res = inr r ∧ userSessions st.1 !! u = Some r
              ∧ length (heap st.1) = S (length (heap w))).
    { intros i res Hi.
      destruct HI as [(_ & _ & Hpcs) | (Hsome & (s1 & Hheap & _) & Hpcs)].
      - eapply Forall_lookup_1 in Hpcs; [| exact Hi].
        destruct Hpcs; discriminate.
      - eapply Forall_lookup_1 in Hpcs; [| exact Hi].
        split; [by apply Hpcs |]. split; [exact Hsome |].
        rewrite Hheap, length_app. simpl. lia. }
    split; [| split; [exact Hret |]].
    + destruct HI as [(_ & Hheap & _) | (Hsome & (s1 & Hheap & Hu & Hdb) & _)];
        [by left |].
      right. exists s1. done.
    + intros i Hi Hturns.
      assert (Hstart : (w, replicate n At_RLock).2 !! i = Some At_RLock)
        by (by apply lookup_replicate_2).
      destruct (interleave_progress os u schedule _ i At_RLock Hstart)
        as (pc' & Hpc' & Hrank).
      fold st in Hpc'. cbn [rank] in Hrank.
      destruct pc' as [| | res]; cbn [rank] in Hrank; [lia | lia |].
      destruct (Hret i res Hpc') as (-> & _). exact Hpc'.
Qed.

Lemma three_callers_store_opens :
  Forall (storeOpens gate_os 7%N) three_callers_schedule.
Proof. repeat constructor; eexists _, _; reflexivity. Qed.

Lemma GetOrCreateSession_constructs_once_witness :
  three_callers.2 !! 0%nat = Some (Returned (inr 0%nat))
  ∧ three_callers.2 !! 1%nat = Some (Returned (inr 0%nat))
  ∧ three_callers.2 !! 2%nat = Some (Returned (inr 0%nat))
  ∧ userSessions three_callers.1 !! 7%N = Some 0%nat
  ∧ length (heap three_callers.1) = 1%nat.
Proof.
  pose proof (proj2 GetOrCreateSession_constructs_once gate_os 7%N fresh_world
                3%nat three_callers_schedule eq_refl three_callers_store_opens)
    as (_ & Hret & Hdone).
  assert (H0 : three_callers.2 !! 0%nat = Some (Returned (inr 0%nat)))
    by (apply Hdone; [lia | vm_compute; lia]).
  assert (H1 : three_callers.2 !! 1%nat = Some (Returned (inr 0%nat)))
    by (apply Hdone; [lia | vm_compute; lia]).
  assert (H2 : three_callers.2 !! 2%nat = Some (Returned (inr 0%nat)))
    by (apply Hdone; [lia | vm_compute; lia]).
  destruct (Hret 0%nat _ H0) as (_ & Hreg & Hlen).
  exact (conj H0 (conj H1 (conj H2 (conj Hreg Hlen)))).
Defined.

(** C2 as stated fails there: user 7 is unseen, both callers construct a
    session object, neither object is stored, and neither caller receives a
    reference. *)
Lemma callers_construct_twice_and_store_nothing :
  userSessions fresh_world !! 7%N = None
  ∧ length (heap fresh_world) = 0%nat
  ∧ length (heap failed_callers.1) = 2%nat
  ∧ userSessions failed_callers.1 = ∅
  ∧ ∃ err0 err1,
      failed_callers.2 = [Returned (inl err0); Returned (inl err1)].
Proof. repeat split; try reflexivity. eexists _, _. reflexivity. Qed.

(** ** Further properties of the manager *)

(** [Logout] of a user without a session changes nothing in memory or on
    disk, makes no call on any client, and only sets the status of that
    user's persisted row, if there is one, to disconnected. *)
Theorem Logout_without_session_only_marks_row os u w :
  userSessions w !! u = None ->
  heap (Logout os u w) = heap w
  ∧ userSessions (Logout os u w) = userSessions w
  ∧ clientCalls (Logout os u w) = clientCalls w
  ∧ files (Logout os u w) = files w
  ∧ goroutines (Logout os u w) = goroutines w
  ∧ (∀ u', u' ≠ u ->
       whatsapp_sessions (Logout os u w) !! u' = whatsapp_sessions w !! u')
  ∧ (∀ row, whatsapp_sessions w !! u = Some row ->
       ∃ row', whatsapp_sessions (Logout os u w) !! u = Some row'
               ∧ WS_Status row' = "disconnected")
  ∧ (whatsapp_sessions w !! u = None ->
     whatsapp_sessions (Logout os u w) !! u = None).
Proof. apply Logout_unregistered. Qed.

Lemma Logout_without_session_only_marks_row_witness :
  heap (Logout gate_os 9 stale_row_world) = heap stale_row_world
  ∧ userSessions (Logout gate_os 9 stale_row_world) = userSessions stale_row_world
  ∧ ∃ row', whatsapp_sessions (Logout gate_os 9 stale_row_world) !! 9%N
            = Some row'
            ∧ WS_Status row' = "disconnected".
Proof.
  pose proof (Logout_without_session_only_marks_row gate_os 9 stale_row_world
                eq_refl)
    as (Hheap & Hreg & _ & _ & _ & _ & Hrow & _).
  split; [exact Hheap |]. split; [exact Hreg |].
  exact (Hrow _ eq_refl).
Defined.




(** When [connect] returns an error (the device store cannot be read, or
    the client of the QR flow cannot connect), the session is left with the
    status connecting, no client and no watcher; from there every later
    [connect] is stopped by the guard on that status and does nothing, so
    only [Logout] takes the session out of connecting. *)
Theorem connect_error_leaves_connecting self client e s :
  co_err (connect self client e s) ≠ None ->
  let o := connect self client e s in
  Status (co_session o) = "connecting"
  ∧ Ready (co_session o) = Ready s
  ∧ Client (co_session o) = Client s
  ∧ (Go_waitForQR self ∉ co_go o)
  ∧ ∀ self' client' e',
      connect self' client' e' (co_session o)
      = mkConnectOutcome (co_session o) None [] [] false.
Proof.
  intros Herr o.
  assert (Hst : Status (co_session o) = "connecting"
                ∧ Ready (co_session o) = Ready s
                ∧ Client (co_session o) = Client s
                ∧ (Go_waitForQR self ∉ co_go o)).
  { subst o. revert Herr. unfold connect.
    destruct (decide (Status s = "connected")); [done |].
    destruct (decide (Status s = "scanning" ∨ Status s = "connecting")); [done |].
    destruct (Since (ce_now e) (LastConnectAttempt s) <? 5 * Second); [done |].
    assert (Hno : ∀ t, (Go_waitForQR self ∉ [Go_saveOrUpdate (UserID s) "connecting" t])).
    { intros t Hin. apply list_elem_of_singleton in Hin. discriminate. }
    destruct (ce_GetFirstDevice e) as [[id |] |]; simpl.
    - destruct (ce_restore_Connect_ok e); simpl; [done |].
      destruct (ce_qr_Connect_ok e); simpl; [done |]. intros _. repeat split. apply Hno.
    - destruct (ce_qr_Connect_ok e); simpl; [done |]. intros _. repeat split. apply Hno.
    - intros _. repeat split. apply Hno. }
  destruct Hst as (Hs & Hr & Hc & Hw).
  repeat split; try done.
  intros self' client' e'. unfold connect. rewrite Hs.
  destruct (decide ("connecting" = "connected")); [done |].
  destruct (decide ("connecting" = "scanning" ∨ "connecting" = "connecting"));
    [reflexivity |].
  exfalso; auto.
Qed.

Lemma connect_error_leaves_connecting_witness :
  Status (co_session (connect 0%nat 0%nat
                        (connect_env_at (900 * Second) None true true)
                        idle_session)) = "connecting"
  ∧ connect 0%nat 1%nat (connect_env_at (2000 * Second) (Some None) true true)
      (co_session (connect 0%nat 0%nat
                     (connect_env_at (900 * Second) None true true)
                     idle_session))
    = mkConnectOutcome
        (co_session (connect 0%nat 0%nat
                       (connect_env_at (900 * Second) None true true)
                       idle_session)) None [] [] false.
Proof.
  pose proof (connect_error_leaves_connecting 0%nat 0%nat
                (connect_env_at (900 * Second) None true true) idle_session)
    as H.
  destruct H as (Hs & _ & _ & _ & Hnoop); [vm_compute; discriminate |].
  split; [exact Hs | apply Hnoop].
Defined.

(* ===================================================================== *)
(** * Further properties: handlers, payments, codes, history, monitors *)
(* ===================================================================== *)

(** ** A storm of Connect calls *)

Lemma connect_busy self client e s :
  busy s -> connect self client e s = mkConnectOutcome s None [] [] false.
Proof.
  intros H. unfold connect.
  destruct (decide (Status s = "connected")); [reflexivity |].
  destruct (decide (Status s = "scanning" ∨ Status s = "connecting"));
    [reflexivity |].
  exfalso. destruct H as [? | [? | ?]]; tauto.
Qed.

Lemma connectAt_busy r e w s :
  heap w !! r = Some s -> busy s -> connectAt r e w = (w, None).
Proof.
  intros Hs Hb. unfold connectAt. rewrite Hs, (connect_busy _ _ _ _ Hb). simpl.
  rewrite with_heap_id by done.
  destruct w; unfold with_goroutines, with_clientCalls; simpl.
  by rewrite !app_nil_r.
Qed.

Lemma watchers_app l1 l2 : watchers (l1 ++ l2) = (watchers l1 + watchers l2)%nat.
Proof. induction l1 as [| t l1 IH]; simpl; [done | rewrite IH; lia]. Qed.

(** What one [connect] adds: nothing, or at most one client and one
    watcher, and then it leaves the session busy. *)
Lemma connect_once self client e s :
  let o := connect self client e s in
  (co_NewClient o = false ∧ watchers (co_go o) = 0%nat)
  ∨ (busy (co_session o) ∧ (watchers (co_go o) <= 1)%nat).
Proof.
  unfold connect.
  destruct (decide (Status s = "connected")); [left; done |].
  destruct (decide (Status s = "scanning" ∨ Status s = "connecting"));
    [left; done |].
  destruct (Since (ce_now e) (LastConnectAttempt s) <? 5 * Second); [left; done |].
  destruct (ce_GetFirstDevice e) as [[id |] |]; simpl; [| | left; done].
  - destruct (ce_restore_Connect_ok e); simpl.
    + right. split; [left; reflexivity | simpl; lia].
    + destruct (ce_qr_Connect_ok e); simpl; right;
        (split; [unfold busy; simpl; auto | simpl; lia]).
  - destruct (ce_qr_Connect_ok e); simpl; right;
      (split; [unfold busy; simpl; auto | simpl; lia]).
Qed.

Lemma connectAt_once r e w :
  let w1 := (connectAt r e w).1 in
  userSessions w1 = userSessions w
  ∧ ((nextClient w1 = nextClient w
      ∧ watchers (goroutines w1) = watchers (goroutines w))
     ∨ ((∃ s1, heap w1 !! r = Some s1 ∧ busy s1)
        ∧ (nextClient w1 <= S (nextClient w))%nat
        ∧ (watchers (goroutines w1) <= S (watchers (goroutines w)))%nat)).
Proof.
  unfold connectAt.
  destruct (heap w !! r) as [s |] eqn:Hs; simpl; [| split; [done | left; done]].
  pose proof (connect_once r (nextClient w) e s) as H. simpl in H.
  assert (Hlt : (r < length (heap w))%nat) by (by eapply lookup_lt_Some).
  destruct (connect r (nextClient w) e s) as [s1 err go calls nc]; simpl in *.
  destruct H as [[-> Hw] | [Hb Hw]].
  - simpl. split; [done |]. left. split; [done |]. rewrite watchers_app. lia.
  - split; [by destruct nc |]. right. split.
    + exists s1. split; [| done].
      destruct nc; simpl; by apply list_lookup_insert_eq.
    + destruct nc; simpl; rewrite watchers_app; lia.
Qed.

Lemma createNewSession_counts os ok now u w :
  nextClient (createNewSession os ok now u w).1 = nextClient w
  ∧ goroutines (createNewSession os ok now u w).1 = goroutines w.
Proof.
  unfold createNewSession.
  destruct (userSessions w !! u); [done |].
  destruct (initializeDatabase _ _ _) as [err | [s created]]; done.
Qed.

Lemma GetOrCreateSession_counts os ok now u w :
  nextClient (GetOrCreateSession os ok now u w).1 = nextClient w
  ∧ goroutines (GetOrCreateSession os ok now u w).1 = goroutines w.
Proof.
  unfold GetOrCreateSession.
  destruct (userSessions w !! u); [done |]. apply createNewSession_counts.
Qed.

Lemma GetOrCreateSession_registers os ok now u w w1 r :
  GetOrCreateSession os ok now u w = (w1, inr r) -> userSessions w1 !! u = Some r.
Proof.
  unfold GetOrCreateSession, createNewSession.
  destruct (userSessions w !! u) as [r0 |] eqn:E.
  - intros [= <- <-]. done.
  - destruct (initializeDatabase _ _ _) as [err | [s created]]; [discriminate |].
    intros [= <- <-]. simpl. apply lookup_insert_eq.
Qed.

Lemma Connect_once os ok e u w :
  let w1 := (Connect os ok e u w).1 in
  (nextClient w1 = nextClient w
   ∧ watchers (goroutines w1) = watchers (goroutines w))
  ∨ ((∃ r s1, userSessions w1 !! u = Some r ∧ heap w1 !! r = Some s1 ∧ busy s1)
     ∧ (nextClient w1 <= S (nextClient w))%nat
     ∧ (watchers (goroutines w1) <= S (watchers (goroutines w)))%nat).
Proof.
  unfold Connect.
  pose proof (GetOrCreateSession_counts os ok (ce_now e) u w) as [Hn Hg].
  destruct (GetOrCreateSession os ok (ce_now e) u w) as [w0 [err | r]] eqn:EG;
    simpl in *.
  - left. by rewrite Hn, Hg.
  - apply GetOrCreateSession_registers in EG.
    destruct (connectAt_once r e w0) as [Hreg [[H1 H2] | [(s1 & Hs1 & Hb) [H1 H2]]]].
    + left. rewrite H1, H2, Hn, Hg. done.
    + right. split.
      * exists r, s1. rewrite Hreg. done.
      * rewrite <- Hn, <- Hg. done.
Qed.

Lemma Connect_busy os ok e u w r s :
  userSessions w !! u = Some r -> heap w !! r = Some s -> busy s ->
  Connect os ok e u w = (w, None).
Proof.
  intros Hu Hs Hb. unfold Connect, GetOrCreateSession. rewrite Hu.
  by eapply connectAt_busy.
Qed.

Lemma manyConnects_busy os u calls w r s :
  userSessions w !! u = Some r -> heap w !! r = Some s -> busy s ->
  manyConnects os u calls w = w.
Proof.
  intros Hu Hs Hb. induction calls as [| c calls IH]; [reflexivity |].
  unfold manyConnects in *. simpl.
  by rewrite (Connect_busy os c.1 c.2 u w r s Hu Hs Hb).
Qed.

(** Whatever the number of [Connect] calls for a user and whatever the
    environment answers to each, with no other step in between: at most one
    client is created and at most one pairing watcher is started. *)
Theorem connect_storm_creates_one_client os u calls w :
  let w' := manyConnects os u calls w in
  (nextClient w' <= S (nextClient w))%nat
  ∧ (watchers (goroutines w') <= S (watchers (goroutines w)))%nat.
Proof.
  revert w. induction calls as [| c calls IH]; intros w; [simpl; lia |].
  change (manyConnects os u (c :: calls) w)
    with (manyConnects os u calls (Connect os c.1 c.2 u w).1).
  cbv zeta.
  destruct (Connect_once os c.1 c.2 u w)
    as [[H1 H2] | [(r & s1 & Hu & Hs & Hb) [H1 H2]]].
  - specialize (IH (Connect os c.1 c.2 u w).1). simpl in IH.
    rewrite H1, H2 in IH. exact IH.
  - rewrite (manyConnects_busy os u calls _ r s1 Hu Hs Hb). simpl. lia.
Qed.

(** ** Answers of the manager for a registered user *)

Lemma GetOrCreateSession_hit os ok now u w r :
  userSessions w !! u = Some r -> GetOrCreateSession os ok now u w = (w, inr r).
Proof. intros H. unfold GetOrCreateSession. by rewrite H. Qed.

Lemma IsReady_hit os ok now u w r s :
  userSessions w !! u = Some r -> heap w !! r = Some s ->
  IsReady os ok now u w = (w, Ready s).
Proof. intros Hu Hs. unfold IsReady. by rewrite (GetOrCreateSession_hit _ _ _ _ _ _ Hu), Hs. Qed.

Lemma GetClient_hit os ok now u w r s :
  userSessions w !! u = Some r -> heap w !! r = Some s ->
  GetClient os ok now u w = (w, Client s).
Proof. intros Hu Hs. unfold GetClient. by rewrite (GetOrCreateSession_hit _ _ _ _ _ _ Hu), Hs. Qed.

Lemma GetStatus_hit os ok now u w r s :
  userSessions w !! u = Some r -> heap w !! r = Some s ->
  GetStatus os ok now u w = (w, inr (Status s)).
Proof. intros Hu Hs. unfold GetStatus. by rewrite (GetOrCreateSession_hit _ _ _ _ _ _ Hu), Hs. Qed.

(** A ready session with a client whose contacts can be fetched gets an
    analysis. *)
Lemma AnalyzeAt_ready r e w s c contacts :
  heap w !! r = Some s -> Client s = Some c -> Ready s = true ->
  ae_GetAllContacts e = Some contacts -> len contacts ≠ 0 ->
  ∃ result, (AnalyzeAt r e w).2 = inr result.
Proof.
  intros Hs Hc Hr Hcont Hlen. unfold AnalyzeAt. rewrite Hs.
  unfold Analyze. rewrite Hc, Hr, Hcont. simpl.
  assert (Hz : (len contacts =? 0) = false) by (by apply Z.eqb_neq).
  destruct (AnalysisCache s !! "current_session") as [cached |].
  - destruct (isValidCache e s cached); [eexists; reflexivity |].
    rewrite Hz. eexists; reflexivity.
  - rewrite Hz. eexists; reflexivity.
Qed.

(** The forced analysis does not ask for a payment: a request that
    [HandleAnalyze] refuses with 402 is served by [HandleForceAnalysis] as
    soon as the session is ready and the contacts can be fetched. *)
Theorem force_analysis_bypasses_gate os e u w error_type phone r s contacts :
  (HandleAnalyze os e u w).2 = PaymentRequired error_type phone ->
  userSessions w !! u = Some r -> heap w !! r = Some s -> Ready s = true ->
  ae_GetAllContacts (he_analyze e) = Some contacts -> len contacts ≠ 0 ->
  ∃ result,
    (HandleForceAnalysis os (he_sqlstore_New_ok e) (he_analyze e) u w).2
    = OK_analysis result.
Proof.
  intros Hdenied Hu Hs Hr Hcont Hlen.
  assert (Hc : ∃ c, Client s = Some c).
  { revert Hdenied. unfold HandleAnalyze.
    rewrite (GetClient_hit _ _ _ _ _ _ _ Hu Hs).
    destruct (Client s) as [c |]; [eauto | discriminate]. }
  destruct Hc as [c Hc].
  unfold HandleForceAnalysis.
  rewrite (IsReady_hit _ _ _ _ _ _ _ Hu Hs), Hr. simpl.
  rewrite (GetClient_hit _ _ _ _ _ _ _ Hu Hs), Hc.
  rewrite (GetOrCreateSession_hit _ _ _ _ _ _ Hu).
  destruct (AnalyzeAt_ready r (he_analyze e) w s c contacts Hs Hc Hr Hcont Hlen)
    as [result Hres].
  destruct (AnalyzeAt r (he_analyze e) w) as [w1 [err | res]]; simpl in Hres;
    [discriminate |].
  eauto.
Qed.

Lemma force_analysis_bypasses_gate_witness :
  (HandleAnalyze gate_os unpaid_env 7 gate_world).2
  = PaymentRequired "wrong_phone_number" number_B
  ∧ ∃ result,
      (HandleForceAnalysis gate_os true (he_analyze unpaid_env) 7 gate_world).2
      = OK_analysis result.
Proof.
  assert (H : (HandleAnalyze gate_os unpaid_env 7 gate_world).2
              = PaymentRequired "wrong_phone_number" number_B)
    by (vm_compute; reflexivity).
  split; [exact H |].
  apply (force_analysis_bypasses_gate gate_os unpaid_env 7 gate_world
           "wrong_phone_number" number_B 0%nat gate_session three_contacts H);
    [vm_compute; reflexivity | reflexivity | reflexivity | reflexivity |].
  vm_compute. discriminate.
Defined.

(** ** The token of a request *)

Lemma HasPrefix_app prefix t : HasPrefix (prefix ++ t) prefix = true.
Proof.
  induction prefix as [| c prefix IH]; simpl; [reflexivity |].
  by rewrite decide_True.
Qed.

Lemma HasPrefix_split s prefix :
  HasPrefix s prefix = true -> s = prefix ++ sliceFrom (String.length prefix) s.
Proof.
  revert s. induction prefix as [| c prefix IH]; intros s H; simpl in *;
    [reflexivity |].
  destruct s as [| d s]; [discriminate |].
  destruct (decide (c = d)) as [-> |]; [| discriminate].
  change (String d s = String d (prefix ++ sliceFrom (String.length prefix) s)).
  f_equal. by apply IH.
Qed.

Lemma sliceFrom_app prefix t : sliceFrom (String.length prefix) (prefix ++ t) = t.
Proof. induction prefix as [| c prefix IH]; simpl; [by destruct t | exact IH]. Qed.

Lemma TrimPrefix_app prefix t : TrimPrefix (prefix ++ t) prefix = t.
Proof. unfold TrimPrefix. by rewrite HasPrefix_app, sliceFrom_app. Qed.

Lemma app_length_string (a b : string) :
  String.length (a ++ b) = (String.length a + String.length b)%nat.
Proof. induction a as [| c a IH]; simpl; [reflexivity | by rewrite IH]. Qed.

(** [extractUserIDFromToken] accepts exactly the headers that spell
    [Bearer], one space and a token that [ValidateToken] accepts, and it
    returns the user id of that token; the prefix is case sensitive and the
    token is everything after it, whatever it contains. *)
Theorem extractUserIDFromToken_accepts_bearer e r u :
  extractUserIDFromToken e r = inr u
  <-> ∃ token, Authorization r = "Bearer " ++ token
               ∧ re_ValidateToken e token = inr u.
Proof.
  unfold extractUserIDFromToken. split.
  - destruct (decide (Authorization r = "")); [discriminate |].
    unfold TrimPrefix.
    destruct (HasPrefix (Authorization r) "Bearer ") eqn:Hp.
    + apply HasPrefix_split in Hp.
      destruct (decide (_ = Authorization r)); [discriminate |].
      destruct (re_ValidateToken e _) as [err | u'] eqn:Hv; [discriminate |].
      intros [= <-]. eexists. split; [exact Hp | exact Hv].
    + destruct (decide (Authorization r = Authorization r)); [discriminate | done].
  - intros (token & Hh & Hv). rewrite Hh.
    destruct (decide ("Bearer " ++ token = "")); [discriminate |].
    rewrite TrimPrefix_app.
    destruct (decide (token = "Bearer " ++ token)) as [E |].
    + apply (f_equal String.length) in E. rewrite app_length_string in E.
      simpl in E. lia.
    + by rewrite Hv.
Qed.

(** ** Logout over HTTP *)

(** [HandleLogout] purges nothing for a user whose session has no client:
    it answers 200 "No active session found" without calling [Logout]. A
    registered session without a client is left exactly as it is, registry
    entry and status row included; for a user without a session, the check
    itself creates and registers one. *)
Theorem HandleLogout_without_client_purges_nothing os e req u w :
  let ok := he_sqlstore_New_ok (re_handler e) in
  let now := ae_now (he_analyze (re_handler e)) in
  Method req = "POST" ->
  extractUserIDFromToken e req = inr u ->
  (GetClient os ok now u w).2 = None ->
  HandleLogout os e req w
  = ((GetClient os ok now u w).1, mkHttpResponse 200 Body_NoActiveSession)
  ∧ (∀ r, userSessions w !! u = Some r -> (HandleLogout os e req w).1 = w)
  ∧ (∀ s1 created,
       userSessions w !! u = None ->
       initializeDatabase os ok (newSession u now) = inr (s1, created) ->
       registered u now s1 created w (HandleLogout os e req w).1).
Proof.
  intros ok now Hm Hu Hc.
  assert (HL : HandleLogout os e req w
               = ((GetClient os ok now u w).1,
                  mkHttpResponse 200 Body_NoActiveSession)).
  { unfold HandleLogout. rewrite Hm, Hu. fold ok now.
    destruct (decide ("POST" ≠ "POST")); [done |].
    destruct (GetClient os ok now u w) as [w1 cl]. simpl in Hc. by subst cl. }
  split; [exact HL |]. rewrite HL. simpl. split.
  - intros r Hr. unfold GetClient.
    rewrite (GetOrCreateSession_hit _ _ _ _ _ _ Hr). by destruct (heap w !! r).
  - intros s1 created Hnone Hi. unfold GetClient.
    destruct (GetOrCreateSession_fresh os ok now u w s1 created Hnone Hi)
      as (Hres & Hreg & _).
    destruct (GetOrCreateSession os ok now u w) as [w1 res]. simpl in *.
    subst res. by destruct (heap w1 !! length (heap w)).
Qed.

Lemma HandleLogout_without_client_purges_nothing_witness :
  HandleLogout gate_os (request_env unpaid_env) post_as_7 fresh_world
  = ((GetClient gate_os true 2000 7 fresh_world).1,
     mkHttpResponse 200 Body_NoActiveSession).
Proof.
  apply (HandleLogout_without_client_purges_nothing gate_os
           (request_env unpaid_env) post_as_7 7 fresh_world);
    vm_compute; reflexivity.
Defined.

(** ** A session stuck in connecting *)

Lemma GetQRCode_busy os ok now u w r s :
  userSessions w !! u = Some r -> heap w !! r = Some s -> busy s ->
  GetQRCode os ok now u w = (w, inr (QRCode s)).
Proof.
  intros Hu Hs Hb. unfold GetQRCode.
  rewrite (GetOrCreateSession_hit _ _ _ _ _ _ Hu), Hs.
  destruct Hb as [E | [E | E]]; rewrite E; simpl;
    by rewrite ?andb_false_r.
Qed.

(** A session whose first [connect] failed has the status connecting and no
    client. No request of its user changes anything from there: the QR,
    status and debug handlers only read, a manual reconnect is stopped by
    the guard of [connect] and still answers 200, the logout handler finds
    no client and does not log out, and both analysis handlers refuse. *)
Theorem connecting_without_client_is_stuck os e req u w r s :
  extractUserIDFromToken e req = inr u ->
  userSessions w !! u = Some r -> heap w !! r = Some s ->
  Status s = "connecting" -> Client s = None -> Ready s = false ->
  (HandleQR os e req w).1 = w
  ∧ (HandleStatus os e req w).1 = w
  ∧ (HandleDebug os e req w).1 = w
  ∧ (HandleRefreshQR e req w).1 = w
  ∧ (HandleManualReconnect os e req w).1 = w
  ∧ (HandleLogout os e req w).1 = w
  ∧ (HandleAnalyze os (re_handler e) u w).1 = w
  ∧ (HandleForceAnalysis os (he_sqlstore_New_ok (re_handler e))
       (he_analyze (re_handler e)) u w).1 = w
  ∧ (Method req = "POST" ->
     (HandleManualReconnect os e req w).2
     = mkHttpResponse 200 (Body_Success "WhatsApp reconnection initiated")
     ∧ (HandleLogout os e req w).2 = mkHttpResponse 200 Body_NoActiveSession).
Proof.
  intros Hu Hr Hs Hst Hc Hrd.
  assert (Hb : busy s) by (right; right; exact Hst).
  pose proof (fun ok now => IsReady_hit os ok now u w r s Hr Hs) as HR.
  pose proof (fun ok now => GetClient_hit os ok now u w r s Hr Hs) as HC.
  pose proof (fun ok now => GetStatus_hit os ok now u w r s Hr Hs) as HS.
  pose proof (fun ok now => GetQRCode_busy os ok now u w r s Hr Hs Hb) as HQ.
  pose proof (fun ok ce => Connect_busy os ok ce u w r s Hr Hs Hb) as HK.
  rewrite Hrd in HR. rewrite Hc in HC.
  repeat match goal with |- _ ∧ _ => split end.
  - unfold HandleQR. rewrite Hu, HQ, HR. by repeat case_decide.
  - unfold HandleStatus. rewrite Hu, HR, HS. by case_decide.
  - unfold HandleDebug. rewrite Hu, HC, HR, HS. by case_decide.
  - unfold HandleRefreshQR. rewrite Hu. by case_decide.
  - unfold HandleManualReconnect. rewrite Hu, HK. by case_decide.
  - unfold HandleLogout. rewrite Hu, HC. by case_decide.
  - unfold HandleAnalyze. by rewrite HC.
  - unfold HandleForceAnalysis. by rewrite HR.
  - intros Hpost. split.
    + unfold HandleManualReconnect. rewrite Hpost, Hu, HK. by case_decide.
    + unfold HandleLogout. rewrite Hpost, Hu, HC. by case_decide.
Qed.

Lemma connecting_without_client_is_stuck_witness :
  (HandleManualReconnect gate_os (request_env unpaid_env) post_as_7 stuck_world).1
  = stuck_world
  ∧ (HandleManualReconnect gate_os (request_env unpaid_env) post_as_7 stuck_world).2
    = mkHttpResponse 200 (Body_Success "WhatsApp reconnection initiated")
  ∧ (HandleLogout gate_os (request_env unpaid_env) post_as_7 stuck_world).2
    = mkHttpResponse 200 Body_NoActiveSession.
Proof.
  destruct (connecting_without_client_is_stuck gate_os (request_env unpaid_env)
              post_as_7 7 stuck_world 0%nat (session_at stuck_world 0))
    as (_ & _ & _ & _ & H5 & _ & _ & _ & H9); try (vm_compute; reflexivity).
  destruct (H9 eq_refl) as [Ha Hb]. exact (conj H5 (conj Ha Hb)).
Defined.

(** ** The status endpoint and the gate *)

(** For a ready session the status endpoint reports a phone mismatch
    exactly when the analysis endpoint refuses the same request with 402, and
    with the same error type and number. *)
Theorem status_mismatch_agrees_with_gate os e req u w r s :
  Method req = "GET" ->
  extractUserIDFromToken e req = inr u ->
  userSessions w !! u = Some r -> heap w !! r = Some s -> Ready s = true ->
  ∃ mismatch,
    HandleStatus os e req w
    = (w, mkHttpResponse 200
            (Body_Status true (Status s) (IsAnalysisReady u w) mismatch))
    ∧ ∀ error_type phone,
        mismatch = Some (error_type, phone)
        <-> (HandleAnalyze os (re_handler e) u w).2
            = PaymentRequired error_type phone.
Proof.
  intros Hm Hu Hr Hs Hrd.
  exists (phoneMismatch e u (Client s) w). split.
  - unfold HandleStatus.
    rewrite Hm, Hu, (IsReady_hit _ _ _ _ _ _ _ Hr Hs),
      (GetStatus_hit _ _ _ _ _ _ _ Hr Hs), Hrd,
      (GetClient_hit _ _ _ _ _ _ _ Hr Hs).
    by case_decide.
  - intros error_type phone. unfold HandleAnalyze, phoneMismatch.
    rewrite (GetClient_hit _ _ _ _ _ _ _ Hr Hs).
    destruct (Client s) as [c |]; [| split; discriminate].
    destruct (ae_StoreID (he_analyze (re_handler e))) as [storeID |];
      [| split; discriminate].
    destruct (decide (User storeID = "")); [split; discriminate |].
    destruct (services.CheckIfUserPaidForPhone _ _ _); simpl.
    + split; [discriminate |].
      intros H. exfalso. revert H.
      pose proof (serveAnalysis_passedGate os (re_handler e) u w) as Hp.
      destruct (serveAnalysis os (re_handler e) u w) as [w1 resp]. simpl in *.
      intros ->. exact Hp.
    + destruct (services.CheckIfUserHasAnyPaidTransaction _ _); simpl;
        split; intros [= <- <-]; reflexivity.
Qed.

Lemma status_mismatch_agrees_with_gate_witness :
  ∃ mismatch,
    HandleStatus gate_os (request_env unpaid_env) get_as_7 gate_world
    = (gate_world,
       mkHttpResponse 200
         (Body_Status true "connected" (IsAnalysisReady 7 gate_world) mismatch))
    ∧ ∀ error_type phone,
        mismatch = Some (error_type, phone)
        <-> (HandleAnalyze gate_os unpaid_env 7 gate_world).2
            = PaymentRequired error_type phone.
Proof.
  apply (status_mismatch_agrees_with_gate gate_os (request_env unpaid_env)
           get_as_7 7 gate_world 0%nat gate_session);
    vm_compute; reflexivity.
Defined.

(** ** The estimates of the analysis *)

Lemma sumRunes_nonneg str : 0 <= sumRunes str.
Proof. induction str as [| c str IH]; simpl; lia. Qed.

Lemma len_nonneg {K A} `{Countable K} (m : gmap K A) : 0 <= len m.
Proof. unfold len. lia. Qed.

(** The estimate of the account age is 365 days without a store ID, lies
    between 108 and 874 days on the hash fallback (the estimate from the
    hash plus a fifth of it, nothing random), and otherwise between 30 and
    1365 days: the final clamp to [30, 1825] never changes a value. *)
Theorem estimateAccountAge_range e :
  30 <= estimateAccountAge e <= 1365
  ∧ (ae_StoreID e = None -> estimateAccountAge e = 365)
  ∧ (∀ storeID,
       ae_StoreID e = Some storeID ->
       ae_GetAllContacts_age e = None
       ∨ ae_GetAllContacts_age e = Some ∅ ->
       let a := 90 + sumRunes (JID_String storeID) mod 640 in
       estimateAccountAge e = a + a / 5
       ∧ 108 <= estimateAccountAge e <= 874).
Proof.
  unfold estimateAccountAge.
  destruct (ae_StoreID e) as [storeID |]; [| repeat split; (lia || done)].
  pose proof (sumRunes_nonneg (JID_String storeID)) as Hh.
  assert (Hrem : Z.rem (sumRunes (JID_String storeID)) 640
                 = sumRunes (JID_String storeID) mod 640)
    by (apply Z.rem_mod_nonneg; lia).
  assert (Hm : 0 <= sumRunes (JID_String storeID) mod 640 < 640)
    by (apply Z.mod_pos_bound; lia).
  set (a := 90 + sumRunes (JID_String storeID) mod 640) in *.
  assert (Ha : 90 <= a <= 729) by (subst a; lia).
  assert (Hq : Z.quot a 5 = a / 5) by (apply Z.quot_div_nonneg; lia).
  assert (Ha5 : 18 <= a / 5 <= 145).
  { split; [apply Z.div_le_lower_bound; lia |].
    apply Z.lt_succ_r, Z.div_lt_upper_bound; lia. }
  assert (Hfallback :
    (if 30 >=? 80 then a
     else if 30 >=? 50 then a + Z.quot a 10 * 2 - Z.quot a 10
     else a + Z.quot a 5 * 2 - Z.quot a 5) = a + a / 5)
    by (simpl; rewrite Hq; lia).
  split; [| split; [discriminate |]].
  - case_decide as Hc.
    + (* contacts *)
      set (contacts := default ∅ (ae_GetAllContacts_age e)) in *.
      change (85 >=? 80) with true. cbv iota.
      repeat match goal with
             | |- context [if ?b then _ else _] =>
                 lazymatch b with
                 | context [if _ then _ else _] => fail
                 | context [contacts] => destruct b
                 end
             end; simpl; lia.
    + rewrite Hrem. fold a. rewrite Hfallback.
      repeat match goal with
             | |- context [if ?b then _ else _] => destruct b eqn:?
             end; lia.
  - intros storeID' [= <-] Hnone.
    rewrite decide_False.
    2:{ intros [Hne Hlen]. destruct Hnone as [E | E]; [done |].
        rewrite E in Hlen. simpl in Hlen. unfold len in Hlen.
        rewrite map_size_empty in Hlen. lia. }
    rewrite Hrem. fold a. rewrite Hfallback.
    assert (Hlow : (a + a / 5 <? 30) = false) by (apply Z.ltb_ge; lia).
    assert (Hhigh : (a + a / 5 >? 1825) = false)
      by (rewrite Z.gtb_ltb; apply Z.ltb_ge; lia).
    rewrite Hlow, Hhigh. split; [reflexivity | lia].
Qed.

(** A computed analysis of an account none of whose contacts has a name
    counts no contact and no chat. It is written to the cache, but the cache
    never serves it: the lookup of [GetCachedAnalysis] misses and every later
    [Analyze] of the session computes again or fails. *)
Theorem nameless_account_is_never_served_from_cache e s s' result :
  Analyze e s = (s', Analysis_computed result) ->
  TotalContacts result = 0 ->
  TotalChats result = 0
  ∧ AnalysisCache s' !! "current_session" = Some result
  ∧ cachedAnalysis s' = None
  ∧ ∀ e' cached, (Analyze e' s').2 ≠ Analysis_cached cached.
Proof.
  intros HA Hz.
  assert (Hchats : TotalChats result = 0).
  { revert HA. unfold Analyze.
    destruct (Client s); [| discriminate].
    destruct (Ready s); simpl; [| discriminate].
    destruct (AnalysisCache s !! "current_session") as [c |];
      [destruct (isValidCache e s c); [discriminate |] |];
      (destruct (ae_GetAllContacts e) as [allContacts |]; [| discriminate]);
      (destruct (len allContacts =? 0); [discriminate |]);
      intros [= <- <-]; simpl in Hz |- *; unfold estimateTotalChats;
      rewrite Hz; vm_compute; reflexivity. }
  destruct (Analyze_computed e s s' result HA) as (_ & _ & Hcache & Hready).
  split; [exact Hchats |]. split; [exact Hcache |]. split.
  - unfold cachedAnalysis. rewrite Hcache, Hz, Hchats. reflexivity.
  - intros e' cached. unfold Analyze.
    destruct (Client s'); [| discriminate].
    rewrite Hready, Hcache. simpl.
    unfold isValidCache. rewrite decide_True by done.
    destruct (ae_GetAllContacts e'); [| discriminate].
    destruct (len _ =? 0); discriminate.
Qed.

Lemma nameless_account_is_never_served_from_cache_witness :
  let a := Analyze nameless_env gate_session in
  a.2 = Analysis_computed (computed a)
  ∧ TotalChats (computed a) = 0
  ∧ cachedAnalysis a.1 = None
  ∧ ∀ e' cached, (Analyze e' a.1).2 ≠ Analysis_cached cached.
Proof.
  intros a.
  assert (H : Analyze nameless_env gate_session = (a.1, Analysis_computed (computed a)))
    by (vm_compute; reflexivity).
  destruct (nameless_account_is_never_served_from_cache nameless_env gate_session
              a.1 (computed a) H) as (H1 & _ & H3 & H4);
    [vm_compute; reflexivity |].
  split; [vm_compute; reflexivity |]. exact (conj H1 (conj H3 H4)).
Defined.

Lemma allUpTo_spec check k n :
  allUpTo check k = true -> 0 <= n <= Z.of_nat k -> check n = true.
Proof.
  induction k as [| k IH]; simpl; intros H Hn.
  - by replace n with 0 by lia.
  - apply andb_true_iff in H as [H1 H2].
    destruct (decide (n = Z.of_nat (S k))) as [-> | Hne]; [exact H1 |].
    apply IH; [exact H2 | lia].
Qed.

Lemma floorsAgree_evaluated :
  allUpTo floorsAgree (Z.to_nat evaluatedContacts) = true.
Proof. vm_compute. reflexivity. Qed.

Lemma floors n :
  0 <= n <= evaluatedContacts ->
  int_of_float64 (float64_of_int n * 0.3)%float = 3 * n / 10
  ∧ int_of_float64 (float64_of_int n * 0.8)%float = 8 * n / 10
  ∧ int_of_float64 (float64_of_int n * 0.1)%float = n / 10.
Proof.
  intros Hn.
  pose proof (allUpTo_spec floorsAgree _ n floorsAgree_evaluated) as H.
  rewrite Z2Nat.id in H by done. specialize (H Hn).
  unfold floorsAgree in H.
  apply andb_true_iff in H as [H H3]. apply andb_true_iff in H as [H1 H2].
  by rewrite Z.eqb_eq in H1, H2, H3.
Qed.

(** The estimate of the sensitive content is a tenth of the contacts. *)
Lemma estimateSensitiveContent_tenth (contacts : gmap JID ContactInfo) :
  len contacts <= 10000 ->
  estimateSensitiveContent contacts = len contacts / 10.
Proof.
  intros H.
  assert (Hn : 0 <= len contacts <= evaluatedContacts)
    by (unfold len, evaluatedContacts in *; lia).
  destruct (floors _ Hn) as (_ & _ & H3).
  unfold estimateSensitiveContent. by rewrite H3.
Qed.

(** Up to ten thousand saved contacts the float arithmetic of the three
    estimators loses nothing: total chats are the contacts plus the integer
    part of three tenths of them, chats with contacts the integer part of
    eight tenths, sensitive content the integer part of one tenth. *)
Theorem estimates_are_exact_integer_parts (contacts : gmap JID ContactInfo) :
  len contacts <= 10000 ->
  estimateTotalChats contacts = len contacts + 3 * len contacts / 10
  ∧ estimateChatsWithContacts contacts = 8 * len contacts / 10
  ∧ estimateSensitiveContent contacts = len contacts / 10.
Proof.
  intros H.
  assert (Hn : 0 <= len contacts <= evaluatedContacts)
    by (unfold len, evaluatedContacts in *; lia).
  destruct (floors _ Hn) as (H1 & H2 & H3).
  unfold estimateTotalChats, estimateChatsWithContacts, estimateSensitiveContent.
  by rewrite H1, H2, H3.
Qed.

Lemma estimates_are_exact_integer_parts_witness :
  estimateTotalChats three_contacts
  = len three_contacts + 3 * len three_contacts / 10
  ∧ estimateChatsWithContacts three_contacts = 8 * len three_contacts / 10
  ∧ estimateSensitiveContent three_contacts = len three_contacts / 10.
Proof.
  apply (estimates_are_exact_integer_parts three_contacts).
  vm_compute. discriminate.
Defined.

(** The fields of a computed analysis that are estimated from the saved
    contacts. *)
Lemma Analyze_computed_estimates e s s' result :
  Analyze e s = (s', Analysis_computed result) ->
  ∃ saved : gmap JID ContactInfo,
    TotalContacts result = len saved
    ∧ TotalChats result = estimateTotalChats saved
    ∧ TotalChatWithContact result = estimateChatsWithContacts saved
    ∧ SensitiveContentCount result = estimateSensitiveContent saved
    ∧ Strength result
      = (CalculateStrength (TotalChats result) (TotalContacts result)
           (AccountAgeDays result) (TotalGroups result)
           (TotalChatWithContact result) (SensitiveContentCount result)
           (TotalUnsavedChats result) (UnknownNumberChats result)).1.
Proof.
  unfold Analyze.
  destruct (Client s); [| discriminate].
  destruct (Ready s); simpl; [| discriminate].
  destruct (AnalysisCache s !! "current_session") as [c |];
    [destruct (isValidCache e s c); [discriminate |] |];
    (destruct (ae_GetAllContacts e) as [allContacts |]; [| discriminate]);
    (destruct (len allContacts =? 0); [discriminate |]);
    intros [= <- <-]; eexists; simpl; repeat split; reflexivity.
Qed.

(** No computed analysis of up to ten thousand saved contacts is rated
    Baik on every parameter: the sensitive-content estimate is a tenth of the
    saved contacts, so the bucket of the contacts and the bucket of the
    sensitive content never give more than 4 points together, the eight
    scores never total more than 22 of 24. *)
Theorem computed_analysis_scores_at_most_22 e s s' result :
  Analyze e s = (s', Analysis_computed result) ->
  TotalContacts result <= 10000 ->
  let evals := evaluations (TotalChats result) (TotalContacts result)
                 (AccountAgeDays result) (TotalGroups result)
                 (TotalChatWithContact result) (SensitiveContentCount result)
                 (TotalUnsavedChats result) (UnknownNumberChats result) in
  Score (evaluateTotalContacts (TotalContacts result))
  + Score (evaluateSensitiveContent (SensitiveContentCount result)) <= 4
  ∧ totalScore evals <= 22.
Proof.
  intros HA Hn evals.
  destruct (Analyze_computed_estimates e s s' result HA)
    as (saved & Hc & _ & _ & Hsens & _).
  assert (Hlen : len saved <= 10000) by (by rewrite <- Hc).
  pose proof (estimateSensitiveContent_tenth saved Hlen) as Hs.
  assert (H4 : Score (evaluateTotalContacts (TotalContacts result))
               + Score (evaluateSensitiveContent (SensitiveContentCount result))
               <= 4).
  { rewrite Hsens, Hs, Hc.
    assert (0 <= len saved) by (unfold len; lia).
    unfold evaluateTotalContacts, evaluateSensitiveContent.
    repeat match goal with
           | |- context [?a >=? ?b] => destruct (Z.geb_spec a b)
           | |- context [?a <=? ?b] => destruct (Z.leb_spec a b)
           end; simpl; try lia.
    all: exfalso; Z.to_euclidean_division_equations; lia. }
  split; [exact H4 |].
  subst evals. rewrite totalScore_points.
  pose proof (evaluateTotalContacts_bucket (TotalContacts result)) as (_ & Hp1 & _).
  pose proof (evaluateSensitiveContent_bucket (SensitiveContentCount result))
    as (_ & Hp2 & _).
  rewrite Hp1, Hp2 in H4.
  unfold bucketsOf, sumZ; simpl.
  repeat match goal with
         | |- context [points ?b] =>
             let H := fresh in
             pose proof (points_range b) as H; generalize dependent (points b);
             intros
         end.
  lia.
Qed.

Lemma computed_analysis_scores_at_most_22_witness :
  let a := Analyze analyze_env gate_session in
  let result := computed a in
  a.2 = Analysis_computed result
  ∧ totalScore
      (evaluations (TotalChats result) (TotalContacts result)
         (AccountAgeDays result) (TotalGroups result)
         (TotalChatWithContact result) (SensitiveContentCount result)
         (TotalUnsavedChats result) (UnknownNumberChats result)) <= 22.
Proof.
  intros a result.
  assert (H : Analyze analyze_env gate_session = (a.1, Analysis_computed result))
    by (vm_compute; reflexivity).
  split; [vm_compute; reflexivity |].
  apply (computed_analysis_scores_at_most_22 analyze_env gate_session a.1 result H).
  vm_compute. discriminate.
Defined.

(** ** The summary of the score *)

Lemma countStatus_cons st e l :
  countStatus st (e :: l)
  = (if decide (models.Status e = st) then 1 else 0) + countStatus st l.
Proof.
  unfold countStatus. rewrite filter_cons.
  destruct (decide (models.Status e = st)); simpl length; lia.
Qed.

Lemma totalScore_cons e l : totalScore (e :: l) = Score e + totalScore l.
Proof.
  assert (H : ∀ l a, foldl (fun acc eval => acc + Score eval) a l
                     = a + foldl (fun acc eval => acc + Score eval) 0 l).
  { clear. induction l as [| x l IH]; intros a; cbn [foldl]; [lia |].
    rewrite (IH (a + Score x)), (IH (0 + Score x)). lia. }
  unfold totalScore. cbn [foldl]. rewrite H. lia.
Qed.

Lemma bucketed_indicators e b v :
  bucketed e b v
  -> ∃ ib ic ik,
       (if decide (models.Status e = "Baik") then 1 else 0) = ib
       ∧ (if decide (models.Status e = "Cukup") then 1 else 0) = ic
       ∧ (if decide (models.Status e = "Buruk") then 1 else 0) = ik
       ∧ 0 <= ib ∧ 0 <= ic ∧ 0 <= ik ∧ ib + ic + ik = 1
       ∧ Score e = 3 * ib + 2 * ic + ik.
Proof.
  intros (Hs & Hp & _). rewrite Hs, Hp.
  destruct b; cbn; repeat case_decide; try done;
    eexists _, _, _; repeat split; lia.
Qed.

Lemma printed_average t :
  8 <= t <= 24
  -> sprintf_1f (float64_of_int t / 8)%float
     = sprintf_d (printedTenths t / 10) ++ "." ++ sprintf_d (printedTenths t mod 10)
     ∧ (25 <=? printedTenths t) = (20 <=? t)
     ∧ (printedTenths t <? 15) = (t <? 12).
Proof.
  intros H.
  assert (Hc : t = 8 ∨ t = 9 ∨ t = 10 ∨ t = 11 ∨ t = 12 ∨ t = 13 ∨ t = 14
               ∨ t = 15 ∨ t = 16 ∨ t = 17 ∨ t = 18 ∨ t = 19 ∨ t = 20
               ∨ t = 21 ∨ t = 22 ∨ t = 23 ∨ t = 24) by lia.
  repeat (destruct Hc as [-> | Hc]; [vm_compute; repeat split; reflexivity |]).
  subst t; vm_compute; repeat split; reflexivity.
Qed.

(** The summary accounts for the score: the three counts of the
    distribution add up to 8 and weigh 3, 2 and 1 in the total; the average
    is printed as the total over 8 rounded to tenths, and the printed
    number is at least 2.5 exactly for Baik and below 1.5 exactly for Buruk;
    Baik needs four parameters that are Baik, Buruk needs five that are
    Buruk. *)
Theorem summary_accounts_for_the_score
    (totalChats totalContacts accountAgeDays totalGroups totalChatWithContact
     sensitiveContentCount totalUnsavedChats unknownNumberChats : Z) :
  let evals := evaluations totalChats totalContacts accountAgeDays totalGroups
                 totalChatWithContact sensitiveContentCount totalUnsavedChats
                 unknownNumberChats in
  let strength :=
    (CalculateStrength totalChats totalContacts accountAgeDays totalGroups
       totalChatWithContact sensitiveContentCount totalUnsavedChats
       unknownNumberChats).1 in
  let baik := countStatus "Baik" evals in
  let cukup := countStatus "Cukup" evals in
  let buruk := countStatus "Buruk" evals in
  let tenths := printedTenths (totalScore evals) in
  baik + cukup + buruk = 8
  ∧ totalScore evals = 3 * baik + 2 * cukup + buruk
  ∧ sprintf_1f (averageScore evals)
    = sprintf_d (tenths / 10) ++ "." ++ sprintf_d (tenths mod 10)
  ∧ (strength = "Baik" <-> 25 <= tenths)
  ∧ (strength = "Buruk" <-> tenths < 15)
  ∧ (strength = "Baik" -> 4 <= baik)
  ∧ (strength = "Buruk" -> 5 <= buruk).
Proof.
  intros evals strength baik cukup buruk tenths.
  pose proof (totalScore_points totalChats totalContacts accountAgeDays
                totalGroups totalChatWithContact sensitiveContentCount
                totalUnsavedChats unknownNumberChats) as Htot.
  pose proof (sum_points_range totalChats totalContacts accountAgeDays
                totalGroups totalChatWithContact sensitiveContentCount
                totalUnsavedChats unknownNumberChats) as Hrange.
  rewrite <- Htot in Hrange. fold evals in Hrange.
  destruct (average_of_total _ Hrange) as (_ & _ & _ & H25 & H15 & _).
  destruct (printed_average _ Hrange) as (Hp & Hp25 & Hp15).
  fold tenths in Hp, Hp25, Hp15.
  assert (Hs : strength = strengthOf (averageScore evals)) by reflexivity.
  unfold strengthOf, averageScore in Hs. rewrite H25, H15 in Hs.
  assert (Hcount : baik + cukup + buruk = 8
                   ∧ totalScore evals = 3 * baik + 2 * cukup + buruk).
  { subst baik cukup buruk. unfold evals, evaluations.
    rewrite !countStatus_cons, !totalScore_cons.
    change (countStatus _ []) with 0. change (totalScore []) with 0.
    destruct (bucketed_indicators _ _ _ (evaluateTotalChats_bucket totalChats))
      as (a1 & b1 & c1 & -> & -> & -> & ? & ? & ? & ? & ->).
    destruct (bucketed_indicators _ _ _ (evaluateTotalContacts_bucket totalContacts))
      as (a2 & b2 & c2 & -> & -> & -> & ? & ? & ? & ? & ->).
    destruct (bucketed_indicators _ _ _ (evaluateAccountAge_bucket accountAgeDays))
      as (a3 & b3 & c3 & -> & -> & -> & ? & ? & ? & ? & ->).
    destruct (bucketed_indicators _ _ _ (evaluateTotalGroups_bucket totalGroups))
      as (a4 & b4 & c4 & -> & -> & -> & ? & ? & ? & ? & ->).
    destruct (bucketed_indicators _ _ _
                (evaluateChatWithContacts_bucket totalChatWithContact))
      as (a5 & b5 & c5 & -> & -> & -> & ? & ? & ? & ? & ->).
    destruct (bucketed_indicators _ _ _
                (evaluateSensitiveContent_bucket sensitiveContentCount))
      as (a6 & b6 & c6 & -> & -> & -> & ? & ? & ? & ? & ->).
    destruct (bucketed_indicators _ _ _
                (evaluateUnsavedChats_bucket totalUnsavedChats))
      as (a7 & b7 & c7 & -> & -> & -> & ? & ? & ? & ? & ->).
    destruct (bucketed_indicators _ _ _
                (evaluateUnknownChats_bucket unknownNumberChats))
      as (a8 & b8 & c8 & -> & -> & -> & ? & ? & ? & ? & ->).
    lia. }
  destruct Hcount as [Hsum Hscore].
  assert (0 <= baik ∧ 0 <= cukup ∧ 0 <= buruk) as (? & ? & ?)
    by (unfold baik, cukup, buruk, countStatus; lia).
  split; [exact Hsum |]. split; [exact Hscore |].
  split; [exact Hp |].
  destruct (Z.leb_spec 20 (totalScore evals)), (Z.leb_spec 12 (totalScore evals)),
    (Z.leb_spec 25 tenths), (Z.ltb_spec tenths 15),
    (Z.ltb_spec (totalScore evals) 12);
    try discriminate; try lia;
    rewrite Hs; repeat split; intros; try done; try lia.
Qed.

(** ** The table of transactions *)

Lemma paidFor_gateView tbl u p :
  paidFor (gateView tbl) u p
  <-> ∃ t, t ∈ tbl ∧ T_UserID (row t) = u ∧ PhoneNumber (row t) = p
           ∧ T_Status (row t) = "paid".
Proof.
  unfold paidFor, gateView. split.
  - intros (r & Hr & ?). apply list_elem_of_fmap in Hr as (t & -> & Ht). eauto.
  - intros (t & Ht & ?). exists (row t). split; [| done].
    apply list_elem_of_fmap. eauto.
Qed.

Lemma Get_elem ext tbl current :
  GetTransactionByExternalID ext tbl = inr current
  -> current ∈ tbl ∧ ExternalID (row current) = ext.
Proof.
  unfold GetTransactionByExternalID. intros H.
  destruct (filter _ tbl) as [| t l] eqn:E; [discriminate |].
  injection H as <-.
  assert (Ht : t ∈ filter (fun t => ExternalID (row t) = ext) tbl)
    by (rewrite E; left).
  apply list_elem_of_filter in Ht. tauto.
Qed.

Lemma Get_none ext tbl err :
  GetTransactionByExternalID ext tbl = inl err
  -> ext ∉ (ExternalID ∘ row <$> tbl).
Proof.
  unfold GetTransactionByExternalID. intros H Hin.
  apply list_elem_of_fmap in Hin as (t & E & Ht).
  destruct (filter _ tbl) as [| t' l] eqn:F; [| discriminate].
  assert (Hf : t ∈ filter (fun t => ExternalID (row t) = ext) tbl)
    by (apply list_elem_of_filter; split; [symmetry; exact E | exact Ht]).
  rewrite F in Hf. inversion Hf.
Qed.

Lemma unique_row tbl t t' :
  uniqueExternalIDs tbl -> t ∈ tbl -> t' ∈ tbl
  -> ExternalID (row t) = ExternalID (row t') -> t = t'.
Proof.
  unfold uniqueExternalIDs. intros Hnd Ht Ht' E.
  apply list_elem_of_lookup in Ht as (i & Hi), Ht' as (j & Hj).
  assert (i = j).
  { eapply NoDup_lookup; [exact Hnd | |].
    - rewrite list_lookup_fmap, Hi. reflexivity.
    - rewrite list_lookup_fmap, Hj. simpl. f_equal. symmetry. exact E. }
  subst j. congruence.
Qed.

Lemma substring_app (a b : string) : String.substring 0 (String.length a) (a ++ b) = a.
Proof.
  induction a as [| c a IH]; simpl; [by destruct b |]. by rewrite IH.
Qed.

Lemma substring_HasPrefix (s prefix : string) :
  String.substring 0 (String.length prefix) s = prefix -> HasPrefix s prefix = true.
Proof.
  revert s. induction prefix as [| c prefix IH]; intros s H; [reflexivity |].
  destruct s as [| d s]; simpl in *; [discriminate |].
  injection H as -> H. rewrite decide_True by done. auto.
Qed.

Lemma sliceFromZ_app (a b : string) :
  sliceFromZ (Z.of_nat (String.length a)) (a ++ b) = Some b.
Proof.
  unfold sliceFromZ. rewrite app_length_string, Nat2Z.id, sliceFrom_app.
  rewrite (proj2 (Z.leb_le _ _)) by lia.
  rewrite (proj2 (Z.leb_le _ _)) by lia. reflexivity.
Qed.

Section status_updates.

(** What [strings.ToLower] makes of a string that is not ASCII. *)
Variable unicode_ToLower : string -> string.

Abbreviation ToLower := (ToLower unicode_ToLower).
Abbreviation normalizeStatus := (normalizeStatus unicode_ToLower).
Abbreviation UpdateTransactionStatus := (UpdateTransactionStatus unicode_ToLower).
Abbreviation Reconcile :=
  (ReconcileTransactionStatusByExternalID unicode_ToLower).
Abbreviation GetPaymentStatus := (GetPaymentStatus unicode_ToLower).

Lemma elem_of_Update now ext st ch tbl t' :
  t' ∈ UpdateTransactionStatus now ext st ch tbl
  <-> ∃ t, t ∈ tbl
        ∧ ((ExternalID (row t) ≠ ext ∧ t' = t)
           ∨ (ExternalID (row t) = ext
              ∧ T_UserID (row t') = T_UserID (row t)
              ∧ PhoneNumber (row t') = PhoneNumber (row t)
              ∧ ExternalID (row t') = ext
              ∧ T_Status (row t') = normalizeStatus st
              ∧ t' = mkTransactionRow
                  (mkTransaction (T_ID (row t)) (T_UserID (row t))
                     (ExternalID (row t)) (InvoiceID (row t)) (Currency (row t))
                     (normalizeStatus st) (PaymentMethod (row t)) ch
                     (Description (row t)) (PhoneNumber (row t)))
                  (Amount t) (CreatedAt t) (uc_updated_at now)
                  (if decide (normalizeStatus st = "paid")
                   then Some (uc_paid_at now) else PaidAt t))).
Proof.
  unfold payments.UpdateTransactionStatus. rewrite list_elem_of_fmap. split.
  - intros (t & -> & Ht). exists t. split; [done |].
    destruct (decide _) as [E | E]; [right | left]; simpl; auto 10.
  - intros (t & Ht & [[E ->] | (E & _ & _ & _ & _ & ->)]); exists t;
      (split; [| done]).
    + rewrite (decide_False (P := ExternalID (row t) = ext)) by done.
      reflexivity.
    + rewrite (decide_True (P := ExternalID (row t) = ext)) by done.
      reflexivity.
Qed.

(** The gate after an update of the status. *)
Lemma Update_gate now ext st ch tbl u p :
  services.CheckIfUserPaidForPhone
    (gateView (UpdateTransactionStatus now ext st ch tbl)) u p = true
  <-> (normalizeStatus st = "paid" ∧ owns tbl ext u p)
      ∨ paidElsewhere tbl ext u p.
Proof.
  rewrite CheckIfUserPaidForPhone_spec, paidFor_gateView. split.
  - intros (t' & Ht' & Hu & Hp & Hs).
    apply elem_of_Update in Ht' as (t & Ht & [[E ->] | (E & Eu & Ep & _ & Es & _)]).
    + right. exists t. done.
    + left. split; [congruence |]. exists t. repeat split; congruence.
  - intros [[Hs (t & Ht & E & Hu & Hp)] | (t & Ht & E & Hu & Hp & Hs)].
    + exists (mkTransactionRow
                (mkTransaction (T_ID (row t)) (T_UserID (row t))
                   (ExternalID (row t)) (InvoiceID (row t)) (Currency (row t))
                   (normalizeStatus st) (PaymentMethod (row t)) ch
                   (Description (row t)) (PhoneNumber (row t)))
                (Amount t) (CreatedAt t) (uc_updated_at now)
                (if decide (normalizeStatus st = "paid")
                 then Some (uc_paid_at now) else PaidAt t)).
      split; [| done].
      apply elem_of_Update. exists t. split; [done |]. right. done.
    + exists t. split; [| done]. apply elem_of_Update. exists t. auto.
Qed.

(** The gate follows the last status that was written for a
    transaction. An update for an external id that no row carries changes
    nothing. After an update a user has paid for a phone exactly when the new
    status is one of the paid ones and the transaction is theirs for that
    phone, or another of their transactions for the phone is paid: a paid
    status does not survive a later status that is not. *)
Theorem gate_follows_the_last_update now ext st ch tbl :
  (ext ∉ (ExternalID ∘ row <$> tbl)
   -> UpdateTransactionStatus now ext st ch tbl = tbl)
  ∧ ∀ u p,
      services.CheckIfUserPaidForPhone
        (gateView (UpdateTransactionStatus now ext st ch tbl)) u p = true
      <-> (normalizeStatus st = "paid" ∧ owns tbl ext u p)
          ∨ paidElsewhere tbl ext u p.
Proof.
  split; [| intros; apply Update_gate].
  intros Hn. unfold payments.UpdateTransactionStatus.
  erewrite list_fmap_ext; [apply list_fmap_id |].
  intros i t Ht. destruct (decide _) as [E | E]; [| done].
  exfalso. apply Hn. apply list_elem_of_fmap. exists t. split; [done |].
  eapply list_elem_of_lookup_2, Ht.
Qed.

Lemma ToLower_paid : ToLower "paid" = "paid".
Proof. reflexivity. Qed.

(** A reconciliation never closes the gate, and it moves the gate of
    nobody but the owner of the transaction. *)
Theorem reconciliation_never_revokes e ext tbl :
  uniqueExternalIDs tbl
  -> ∀ u p,
       (services.CheckIfUserPaidForPhone (gateView tbl) u p = true
        -> services.CheckIfUserPaidForPhone
             (gateView (Reconcile e ext tbl).1) u p = true)
       ∧ (¬ owns tbl ext u p
          -> services.CheckIfUserPaidForPhone
               (gateView (Reconcile e ext tbl).1) u p
             = services.CheckIfUserPaidForPhone (gateView tbl) u p).
Proof.
  intros Hnd u p. unfold payments.ReconcileTransactionStatusByExternalID.
  destruct (GetTransactionByExternalID ext tbl) as [err | current] eqn:G;
    [done |].
  destruct (decide _) as [Hp | Hp]; [done |].
  destruct (rc_GetInvoice e _) as [err | invoice]; [done |].
  cbn [fst]. apply Get_elem in G as [Hc Ec]. split.
  - rewrite Update_gate, CheckIfUserPaidForPhone_spec, paidFor_gateView.
    intros (t & Ht & Hu & Hph & Hs). right. exists t. repeat split; try done.
    intros E. assert (t = current) by (eapply unique_row; eauto; congruence).
    subst t. apply Hp. intros Hl. rewrite Hs in Hl. discriminate Hl.
  - intros Hno. apply eq_true_iff_eq.
    rewrite Update_gate, CheckIfUserPaidForPhone_spec, paidFor_gateView. split.
    + intros [[_ Ho] | (t & Ht & E & Hu & Hph & Hs)]; [done | eauto].
    + intros (t & Ht & Hu & Hph & Hs). right. exists t. repeat split; try done.
      intros E. apply Hno. exists t. done.
Qed.

Lemma Get_Update now ext st ch tbl t :
  GetTransactionByExternalID ext tbl = inr t
  -> ∃ t', GetTransactionByExternalID ext (UpdateTransactionStatus now ext st ch tbl)
           = inr t'
           ∧ T_UserID (row t') = T_UserID (row t).
Proof.
  unfold GetTransactionByExternalID, payments.UpdateTransactionStatus.
  induction tbl as [| x tbl IH]; [discriminate |].
  rewrite fmap_cons, !filter_cons.
  destruct (decide (ExternalID (row x) = ext)) as [E | E].
  - rewrite decide_True by done. intros [= <-]. eexists. split; reflexivity.
  - rewrite decide_False by done. exact IH.
Qed.

Lemma Reconcile_owner e ext tbl t :
  GetTransactionByExternalID ext tbl = inr t
  -> ∃ t', (Reconcile e ext tbl).2 = inr t'
           ∧ T_UserID (row t') = T_UserID (row t).
Proof.
  intros G. unfold payments.ReconcileTransactionStatusByExternalID. rewrite G.
  destruct (decide _); [eauto |].
  destruct (rc_GetInvoice e _); [eauto |].
  cbn [snd]. apply Get_Update, G.
Qed.

(** The status poll reconciles a transaction before it looks at its
    owner: a user who is answered 401 for somebody else's transaction has
    still had it brought up to date with Xendit. *)
Theorem status_poll_reconciles_before_owner_check
    (ValidateToken : string -> string + N) e r tbl ext t inv :
  sr_Method r = "GET"
  -> sr_Path r = "/api/payments/" ++ ext ++ "/status"
  -> ext ≠ ""
  -> getUserIDFromToken ValidateToken (sr_Authorization r) ≠ 0
  -> GetTransactionByExternalID ext tbl = inr t
  -> T_UserID (row t) ≠ getUserIDFromToken ValidateToken (sr_Authorization r)
  -> ToLower (T_Status (row t)) = "pending"
  -> rc_GetInvoice e (InvoiceID (row t)) = inr inv
  -> GetPaymentStatus ValidateToken e r tbl
     = Some (UpdateTransactionStatus (rc_now e) ext (inv_Status inv)
               (PaymentChannel (row t)) tbl,
             StatusError 401 "Unauthorized").
Proof.
  intros Hm Hp Hne Hu G Ho Hs Hi.
  unfold payments.GetPaymentStatus.
  rewrite decide_False by (intros H; done).
  rewrite Hp.
  change (Z.of_nat (String.length "/api/payments/"))
    with (Z.of_nat (String.length "/api/payments/")).
  rewrite (sliceFromZ_app "/api/payments/" (ext ++ "/status")). cbn [mbind option_bind].
  assert (Hl : Z.of_nat (String.length (ext ++ "/status")) - 7
               = Z.of_nat (String.length ext)).
  { rewrite app_length_string. simpl. lia. }
  rewrite Hl.
  assert (0 < Z.of_nat (String.length (ext ++ "/status"))) as Hpos
    by (rewrite app_length_string; simpl; lia).
  rewrite (proj2 (Z.ltb_lt _ _) Hpos).
  rewrite sliceFromZ_app. cbn [mbind option_bind].
  rewrite decide_True by reflexivity.
  unfold sliceToZ. rewrite app_length_string, Nat2Z.id, substring_app.
  rewrite (proj2 (Z.leb_le _ _)) by lia.
  rewrite (proj2 (Z.leb_le _ _)) by lia. cbn [andb mbind option_bind].
  rewrite decide_False by done.
  rewrite decide_False by done.
  destruct (Reconcile_owner e ext tbl t G) as (t' & Ht' & Eo).
  assert (Et : (Reconcile e ext tbl).1
               = UpdateTransactionStatus (rc_now e) ext (inv_Status inv)
                   (PaymentChannel (row t)) tbl).
  { unfold payments.ReconcileTransactionStatusByExternalID. rewrite G.
    rewrite decide_False by (intros H; apply H, Hs). rewrite Hi. reflexivity. }
  destruct (Reconcile e ext tbl) as [tbl' res]. cbn [fst snd] in *. subst res tbl'.
  rewrite decide_True by congruence. reflexivity.
Qed.

End status_updates.

Lemma reconciliation_never_revokes_witness :
  services.CheckIfUserPaidForPhone (gateView pay_table) 7 "6281111111111" = true
  ∧ services.CheckIfUserPaidForPhone
      (gateView
         (ReconcileTransactionStatusByExternalID (fun s => s)
            (xendit_says "EXPIRED") "cekwa_7_2" pay_table).1)
      7 "6281111111111" = true.
Proof.
  assert (H : services.CheckIfUserPaidForPhone (gateView pay_table) 7
                "6281111111111" = true) by (vm_compute; reflexivity).
  split; [exact H |].
  assert (Hnd : uniqueExternalIDs pay_table).
  { unfold uniqueExternalIDs. apply NoDup_cons. split.
    - intros Hin. apply list_elem_of_singleton in Hin. discriminate Hin.
    - apply NoDup_singleton. }
  exact (proj1 (reconciliation_never_revokes (fun s => s) (xendit_says "EXPIRED")
                  "cekwa_7_2" pay_table Hnd 7 "6281111111111") H).
Defined.

Lemma status_poll_reconciles_before_owner_check_witness :
  GetPaymentStatus (fun s => s) token_service (xendit_says "PAID") poll_as_9
    pay_table
  = Some (UpdateTransactionStatus (fun s => s) (mkUpdateClock 3000 3001)
            "cekwa_7_2" "PAID" "" pay_table,
          StatusError 401 "Unauthorized")
  ∧ services.CheckIfUserPaidForPhone
      (gateView (UpdateTransactionStatus (fun s => s) (mkUpdateClock 3000 3001)
                   "cekwa_7_2" "PAID" "" pay_table)) 7 number_B = true.
Proof.
  split; [| vm_compute; reflexivity].
  apply (status_poll_reconciles_before_owner_check (fun s => s) token_service
           (xendit_says "PAID") poll_as_9 pay_table "cekwa_7_2" pending_row
           (invoice "PAID")); try (vm_compute; reflexivity);
    vm_compute; discriminate.
Defined.

(** ** Creating a payment *)

Lemma pretty_N_char_noUnderscore x : pretty_N_char x ≠ underscore.
Proof. unfold pretty_N_char. repeat case_match; discriminate. Qed.

Lemma pretty_N_go_noUnderscore x s :
  noUnderscore s -> noUnderscore (pretty_N_go x s).
Proof.
  revert s. induction (N.lt_wf_0 x) as [x _ IH]; intros s Hs.
  assert (x = 0 ∨ 0 < x)%N as [-> | ?] by lia.
  - rewrite pretty_N_go_0. exact Hs.
  - rewrite pretty_N_go_step by done. apply IH.
    + apply N.div_lt; [done | reflexivity].
    + split; [apply pretty_N_char_noUnderscore | exact Hs].
Qed.

Lemma pretty_N_noUnderscore (x : N) : noUnderscore (pretty x).
Proof.
  unfold pretty, pretty_N. case_decide; [simpl; done |].
  apply pretty_N_go_noUnderscore. exact I.
Qed.

Lemma sprintf_d_noUnderscore n : noUnderscore (sprintf_d n).
Proof.
  unfold sprintf_d, pretty, pretty_Z. destruct n as [| p | p].
  - simpl. done.
  - apply pretty_N_noUnderscore.
  - split; [discriminate | apply pretty_N_noUnderscore].
Qed.

Lemma split_at_underscore s1 s1' s2 s2' :
  noUnderscore s1 -> noUnderscore s1'
  -> s1 ++ "_" ++ s2 = s1' ++ "_" ++ s2' -> s1 = s1' ∧ s2 = s2'.
Proof.
  revert s1'. induction s1 as [| c s1 IH]; intros [| c' s1'] H1 H1' E;
    simpl in *.
  - injection E as E. subst. done.
  - injection E as Ec _. destruct H1' as [H _]. subst c'. done.
  - injection E as Ec _. destruct H1 as [H _]. subst c. done.
  - injection E as Ec E. destruct H1, H1'.
    destruct (IH s1') as [-> ->]; subst; done.
Qed.

Lemma externalIDOf_inj u t u' t' :
  externalIDOf u t = externalIDOf u' t' -> u = u' ∧ t = t'.
Proof.
  unfold externalIDOf. intros E.
  change ("cekwa_" ++ ?x) with ("cekwa_" +:+ x) in E.
  apply (inj (String.append "cekwa_")) in E.
  apply split_at_underscore in E as [Eu Et];
    try apply sprintf_d_noUnderscore.
  split; eapply (inj (pretty : Z -> string)); eassumption.
Qed.

Lemma nextID_fresh tbl : nextID tbl ∉ (T_ID ∘ row <$> tbl).
Proof.
  unfold nextID. intros Hin.
  assert (H : ∀ x l, x ∈ l -> x <= foldr Z.max 0 l).
  { intros x l. induction l as [| y l IH]; intros Hx; [inversion Hx |].
    simpl. apply elem_of_cons in Hx as [-> | Hx]; [lia |].
    specialize (IH Hx). lia. }
  apply H in Hin. lia.
Qed.

Lemma CreatePayment_cases e req uid tbl :
  let ext := externalIDOf uid (Unix (cp_now e)) in
  (∃ err, CreatePayment e req uid tbl = (tbl, inl err)
          ∧ ((∃ failure, cp_CreateInvoice e = inl failure
                           ∧ err = "xendit_error: " ++ failure)
             ∨ (∃ inv, cp_CreateInvoice e = inr inv)
               ∧ ext ∈ (ExternalID ∘ row <$> tbl)
               ∧ err = "failed to save transaction: failed to insert transaction: "
                         ++ cp_driverError e))
  ∨ (∃ inv t resp,
       cp_CreateInvoice e = inr inv
       ∧ (ext ∉ (ExternalID ∘ row <$> tbl))
       ∧ CreatePayment e req uid tbl = (tbl ++ [t], inr resp)
       ∧ row t = mkTransaction (nextID tbl) uid ext (inv_ID inv) "IDR" "pending"
                   (req_PaymentMethod req) "" (req_Category req)
                   (req_PhoneNumber req)
       ∧ resp_ID resp = nextID tbl ∧ resp_ExternalID resp = ext
       ∧ resp_Status resp = "pending"
       ∧ resp_InvoiceURL resp = inv_InvoiceURL inv)%list.
Proof.
  intros ext. unfold CreatePayment.
  destruct (cp_CreateInvoice e) as [err | inv] eqn:E.
  - left. eexists. split; [reflexivity |]. left. eauto.
  - unfold saveTransaction. cbn [row ExternalID].
    fold (externalIDOf uid (Unix (cp_now e))). fold ext.
    case_bool_decide as Hin.
    + left. eexists. split; [reflexivity |]. right. eauto.
    + right. eexists _, _, _. repeat split; try reflexivity; done.
Qed.

(** Creating a payment opens no gate; what it adds is one pending row
    under a fresh key, or nothing. *)
Theorem CreatePayment_opens_no_gate e req uid tbl :
  (∀ u p,
     services.CheckIfUserPaidForPhone
       (gateView (CreatePayment e req uid tbl).1) u p
     = services.CheckIfUserPaidForPhone (gateView tbl) u p)
  ∧ match (CreatePayment e req uid tbl).2 with
    | inl err => (CreatePayment e req uid tbl).1 = tbl
    | inr resp =>
        ∃ t, (CreatePayment e req uid tbl).1 = (tbl ++ [t])%list
             ∧ T_Status (row t) = "pending" ∧ T_UserID (row t) = uid
             ∧ PhoneNumber (row t) = req_PhoneNumber req
             ∧ ExternalID (row t) = resp_ExternalID resp
             ∧ resp_ExternalID resp = externalIDOf uid (Unix (cp_now e))
             ∧ T_ID (row t) = resp_ID resp
             ∧ (resp_ID resp ∉ (T_ID ∘ row <$> tbl))
             ∧ (resp_ExternalID resp ∉ (ExternalID ∘ row <$> tbl))
    end.
Proof.
  destruct (CreatePayment_cases e req uid tbl)
    as [(err & -> & _) | (inv & t & resp & _ & Hn & -> & Hr & Hid & Hext & _)];
    cbn [fst snd].
  - done.
  - split.
    + intros u p. apply eq_true_iff_eq.
      rewrite !CheckIfUserPaidForPhone_spec, !paidFor_gateView.
      setoid_rewrite elem_of_app. setoid_rewrite list_elem_of_singleton. split.
      * intros (t' & [Ht' | ->] & Hu & Hp & Hs); [eauto |].
        rewrite Hr in Hs. discriminate Hs.
      * intros (t' & Ht' & ?). eauto.
    + exists t. rewrite Hr, Hid, Hext. cbn.
      repeat split; try done. apply nextID_fresh.
Qed.

(** Two payments collide exactly when the same user asks twice within
    one second of the clock; the second invoice then exists at Xendit
    without a transaction. *)
Theorem payments_collide_within_a_second e1 req1 u1 tbl tbl1 resp1 e2 req2 u2 inv2 :
  CreatePayment e1 req1 u1 tbl = (tbl1, inr resp1)
  -> cp_CreateInvoice e2 = inr inv2
  -> externalIDOf u2 (Unix (cp_now e2)) ∉ (ExternalID ∘ row <$> tbl)
  -> (CreatePayment e2 req2 u2 tbl1
      = (tbl1, inl ("failed to save transaction: failed to insert transaction: "
                      ++ cp_driverError e2))
      <-> u2 = u1 ∧ Unix (cp_now e2) = Unix (cp_now e1))
     ∧ ((∃ resp2 tbl2, CreatePayment e2 req2 u2 tbl1 = (tbl2, inr resp2))
        <-> ¬ (u2 = u1 ∧ Unix (cp_now e2) = Unix (cp_now e1))).
Proof.
  intros H1 H2 Hn.
  destruct (CreatePayment_cases e1 req1 u1 tbl)
    as [(err & E & _) | (inv & t & resp & _ & _ & E & Hr & _)];
    rewrite E in H1; [discriminate |].
  injection H1 as <- <-.
  assert (Hin : externalIDOf u2 (Unix (cp_now e2)) ∈ (ExternalID ∘ row <$> (tbl ++ [t])%list)
                <-> u2 = u1 ∧ Unix (cp_now e2) = Unix (cp_now e1)).
  { rewrite fmap_app, elem_of_app. simpl. rewrite list_elem_of_singleton, Hr.
    simpl. split.
    - intros [? | Ei]; [done |]. apply externalIDOf_inj in Ei. done.
    - intros [-> ->]. right. reflexivity. }
  destruct (CreatePayment_cases e2 req2 u2 (tbl ++ [t]))
    as [(err & E2 & [(failure & Ex & _) | (_ & Hi & ->)])
       | (inv' & t2 & resp2 & _ & Hni & E2 & _)];
    rewrite E2.
  - congruence.
  - split; [split; [intros _; apply Hin, Hi | done] |].
    split; [intros (? & ? & ?); discriminate |].
    intros Hnot. exfalso. apply Hnot, Hin, Hi.
  - split; [split; [discriminate | intros Hs; exfalso; apply Hni, Hin, Hs] |].
    split; [intros _ Hs; apply Hni, Hin, Hs | eauto].
Qed.

Lemma payments_collide_within_a_second_witness :
  first_payment = (first_payment.1, inr first_response)
  ∧ CreatePayment (create_at (first_second + 900000000)) payment_request 7
      first_payment.1
    = (first_payment.1,
       inl ("failed to save transaction: failed to insert transaction: "
              ++ "duplicate key value violates unique constraint")).
Proof.
  assert (H : CreatePayment (create_at (first_second + 5)) payment_request 7
                [paid_row] = (first_payment.1, inr first_response))
    by (vm_compute; reflexivity).
  split; [exact H |].
  apply (payments_collide_within_a_second (create_at (first_second + 5))
           payment_request 7 [paid_row] first_payment.1 first_response
           (create_at (first_second + 900000000)) payment_request 7
           (invoice "PENDING") H eq_refl).
  - intros Hin. apply list_elem_of_singleton in Hin. vm_compute in Hin.
    discriminate Hin.
  - split; vm_compute; reflexivity.
Defined.

(** ** The webhook *)

Lemma GetClient_payTable os ok now u tbl w :
  GetClient os ok now u (payTable tbl w)
  = (payTable tbl (GetClient os ok now u w).1, (GetClient os ok now u w).2).
Proof.
  unfold GetClient, GetOrCreateSession, createNewSession. cbn [payTable userSessions heap].
  destruct (userSessions w !! u) as [r |] eqn:E.
  - cbn [heap payTable]. destruct (heap w !! r); reflexivity.
  - destruct (initializeDatabase _ _ _) as [err | [s created]].
    + reflexivity.
    + cbn. destruct ((heap w ++ [s])%list !! length (heap w)); reflexivity.
Qed.

Lemma HandleAnalyze_gate os e u w :
  (∀ et phone, (HandleAnalyze os e u w).2 = PaymentRequired et phone
     -> ∃ storeID, ae_StoreID (he_analyze e) = Some storeID
          ∧ User storeID = phone ∧ phone ≠ ""
          ∧ (GetClient os (he_sqlstore_New_ok e) (ae_now (he_analyze e)) u w).2
            ≠ None
          ∧ services.CheckIfUserPaidForPhone (transactions w) (Z.of_N u) phone
            = false)
  ∧ (∀ storeID,
       ae_StoreID (he_analyze e) = Some storeID
       -> User storeID ≠ ""
       -> (GetClient os (he_sqlstore_New_ok e) (ae_now (he_analyze e)) u w).2
          ≠ None
       -> services.CheckIfUserPaidForPhone (transactions w) (Z.of_N u)
            (User storeID) = true
       -> passedGate (HandleAnalyze os e u w).2).
Proof.
  pose proof (GetClient_transactions os (he_sqlstore_New_ok e)
                (ae_now (he_analyze e)) u w) as Htx.
  unfold HandleAnalyze.
  destruct (GetClient _ _ _ _ _) as [w1 [client |]]; cbn [fst snd] in *.
  - destruct (ae_StoreID _) as [storeID |].
    + destruct (decide (User storeID = "")) as [E | E].
      * split; [intros ? ? [=] | intros ? [= ->]; done].
      * rewrite Htx.
        destruct (services.CheckIfUserPaidForPhone _ _ _) eqn:C; cbn.
        -- split.
           ++ intros et phone H.
              pose proof (serveAnalysis_passedGate os e u w1) as P.
              rewrite H in P. destruct P.
           ++ intros. apply serveAnalysis_passedGate.
        -- split.
           ++ intros et phone H. exists storeID.
              destruct (services.CheckIfUserHasAnyPaidTransaction _ _);
                injection H as <- <-; done.
           ++ intros ? [= <-] _ _ C'. congruence.
    + split; [intros ? ? [=] | intros ? [=]].
  - split; [intros ? ? [=] | intros ? _ _ H; done].
Qed.

Section webhook.

(** What the libraries answer: [strings.ToLower] and [strings.EqualFold]
    outside ASCII, the HMAC of a body under a key, and the parser of JSON. *)
Variable unicode_ToLower : string -> string.
Variable unicode_EqualFold : string -> string -> bool.
Variable hmac_sha256_hex : string -> string -> string.
Variable json_Unmarshal : string -> option WebhookPayload.

Abbreviation EqualFold := (EqualFold unicode_EqualFold).
Abbreviation normalizeStatus := (normalizeStatus unicode_ToLower).
Abbreviation UpdateTransactionStatus := (UpdateTransactionStatus unicode_ToLower).
Abbreviation HandleXenditWebhook :=
  (HandleXenditWebhook unicode_ToLower unicode_EqualFold hmac_sha256_hex
     json_Unmarshal).

(** A webhook is turned away with 401 exactly when a token is
    configured, the legacy header differs from it, the signature is missing
    or is not the HMAC of the body, and the bypass is not switched on; a
    webhook that is not answered with 200 changes nothing. *)
Theorem webhook_rejected_iff os now r tbl :
  ((HandleXenditWebhook os now r tbl).2.1 = 401
   <-> wr_Method r = "POST"
       ∧ ∃ body, wr_body r = Some body
           ∧ XENDIT_WEBHOOK_TOKEN os ≠ ""
           ∧ X_Callback_Token r ≠ XENDIT_WEBHOOK_TOKEN os
           ∧ (signatureOf r = ""
              ∨ EqualFold (signatureOf r)
                  (hmac_sha256_hex (XENDIT_WEBHOOK_TOKEN os) body) = false)
           ∧ EqualFold (XENDIT_WEBHOOK_DISABLE_VERIFY os) "true" = false)
  ∧ ((HandleXenditWebhook os now r tbl).2.1 ≠ 200
     -> (HandleXenditWebhook os now r tbl).1 = tbl).
Proof.
  unfold payments.HandleXenditWebhook, payments.verifyWebhookSignature.
  destruct (decide (wr_Method r ≠ "POST")) as [Hm | Hm].
  { cbn. split; [| done]. split; [done | intros [? _]; done]. }
  apply dec_stable in Hm.
  destruct (wr_body r) as [body |].
  2:{ cbn. split; [| done]. split; [done | intros (_ & ? & [=] & _)]. }
  assert (Es : (if decide
                     ((if decide (X_Xendit_Signature r = "")
                       then X_Callback_Signature r else X_Xendit_Signature r) = "")
                then X_Xendit_Callback_Signature r
                else if decide (X_Xendit_Signature r = "")
                     then X_Callback_Signature r else X_Xendit_Signature r)
               = signatureOf r).
  { unfold signatureOf. repeat case_decide; congruence. }
  rewrite Es. clear Es.
  destruct (decide (XENDIT_WEBHOOK_TOKEN os = "")) as [Ht | Ht].
  { cbn. destruct (json_Unmarshal body); cbn; (split; [| done]);
      (split; [done | intros (_ & ? & _ & ? & _); done]). }
  destruct (decide (X_Callback_Token r ≠ "" ∧ _)) as [[Hl1 Hl2] | Hl].
  { cbn. destruct (json_Unmarshal body); cbn; (split; [| done]);
      (split; [done | intros (_ & ? & _ & _ & ? & _); done]). }
  assert (Hl' : X_Callback_Token r ≠ XENDIT_WEBHOOK_TOKEN os).
  { intros E. apply Hl. split; [congruence | done]. }
  destruct (decide (signatureOf r = "")) as [Hs | Hs].
  - cbn [negb andb].
    destruct (EqualFold (XENDIT_WEBHOOK_DISABLE_VERIFY os) "true") eqn:Hd; cbn.
    + destruct (json_Unmarshal body); cbn; (split; [| done]);
        (split; [done | intros (_ & ? & _ & _ & _ & _ & ?); done]).
    + split; [| done]. split; [| done]. intros _. split; [done |].
      exists body. auto 10.
  - destruct (EqualFold (signatureOf r) _) eqn:Hf; cbn [negb andb].
    + destruct (json_Unmarshal body); cbn; (split; [| done]);
        (split; [done |]); intros (_ & b & [= <-] & _ & _ & [? | ?] & _);
        congruence.
    + destruct (EqualFold (XENDIT_WEBHOOK_DISABLE_VERIFY os) "true") eqn:Hd; cbn.
      * destruct (json_Unmarshal body); cbn; (split; [| done]);
          (split; [done | intros (_ & ? & _ & _ & _ & _ & ?); done]).
      * split; [| done]. split; [| done]. intros _. split; [done |].
        exists body. auto 10.
Qed.

(** Without a configured token, anybody's POST that names the
    external id of a transaction and a paid status opens the gate of its
    owner. *)
Theorem unsigned_webhook_opens_gate os now r tbl body payload wos e u w et phone :
  XENDIT_WEBHOOK_TOKEN os = ""
  -> wr_Method r = "POST"
  -> wr_body r = Some body
  -> json_Unmarshal body = Some payload
  -> normalizeStatus (wp_Status payload) = "paid"
  -> owns tbl (wp_ExternalID payload) (Z.of_N u) phone
  -> (HandleAnalyze wos e u (payTable tbl w)).2 = PaymentRequired et phone
  -> (HandleXenditWebhook os now r tbl).2 = (200, "Webhook processed successfully")
     ∧ passedGate
         (HandleAnalyze wos e u
            (payTable (HandleXenditWebhook os now r tbl).1 w)).2.
Proof.
  intros Ht Hm Hb Hj Hs Ho Hg.
  unfold payments.HandleXenditWebhook, payments.verifyWebhookSignature.
  rewrite decide_False by (intros H; done).
  rewrite Hb, (decide_True (P := XENDIT_WEBHOOK_TOKEN os = "")) by done.
  cbn [negb andb]. rewrite Hj. cbn [fst snd]. split; [reflexivity |].
  destruct (HandleAnalyze_gate wos e u (payTable tbl w)) as [Hg1 _].
  destruct (Hg1 _ _ Hg) as (storeID & Hid & Hu & Hne & Hc & _).
  destruct (HandleAnalyze_gate wos e u
              (payTable (UpdateTransactionStatus now (wp_ExternalID payload)
                           (wp_Status payload) (wp_PaymentChannel payload) tbl) w))
    as [_ Hg2].
  apply (Hg2 storeID Hid).
  - congruence.
  - rewrite GetClient_payTable in Hc |- *. exact Hc.
  - cbn [payTable transactions]. rewrite Hu. apply Update_gate. left. done.
Qed.

End webhook.

Lemma unsigned_webhook_opens_gate_witness :
  (HandleAnalyze gate_os unpaid_env 7 (payTable pay_table gate_world)).2
  = PaymentRequired "wrong_phone_number" number_B
  ∧ passedGate
      (HandleAnalyze gate_os unpaid_env 7
         (payTable
            (HandleXenditWebhook (fun s => s) (fun _ _ => false) (fun _ _ => "")
               (fun _ => Some paid_payload) no_webhook_token
               (mkUpdateClock 3000 3001) unsigned_webhook pay_table).1
            gate_world)).2.
Proof.
  assert (H : (HandleAnalyze gate_os unpaid_env 7 (payTable pay_table gate_world)).2
              = PaymentRequired "wrong_phone_number" number_B)
    by (vm_compute; reflexivity).
  split; [exact H |].
  apply (unsigned_webhook_opens_gate (fun s => s) (fun _ _ => false)
           (fun _ _ => "") (fun _ => Some paid_payload) no_webhook_token
           (mkUpdateClock 3000 3001) unsigned_webhook pay_table "{}" paid_payload
           gate_os unpaid_env 7 gate_world "wrong_phone_number" number_B
           eq_refl eq_refl eq_refl eq_refl);
    [vm_compute; reflexivity | | exact H].
  exists pending_row. split; [right; left |]. done.
Defined.

(** ** The token of the payment endpoints *)

(** The payment endpoints take a bare token for a header, the
    WhatsApp endpoints insist on the Bearer prefix; with the prefix and a
    token the two readers of the header agree. *)
Theorem payment_endpoints_take_bare_tokens e r :
  (∀ n, Authorization r ≠ ""
        -> HasPrefix (Authorization r) "Bearer " = false
        -> re_ValidateToken e (Authorization r) = inr n
        -> getUserIDFromToken (re_ValidateToken e) (Authorization r) = Z.of_N n
           ∧ extractUserIDFromToken e r = inl "invalid authorization header format")
  ∧ (∀ n, extractUserIDFromToken e r = inr n
          -> Authorization r ≠ "Bearer "
          -> getUserIDFromToken (re_ValidateToken e) (Authorization r) = Z.of_N n).
Proof.
  split.
  - intros n Hne Hp Hv. unfold getUserIDFromToken, extractUserIDFromToken, TrimPrefix.
    rewrite !decide_False by done. rewrite Hp.
    rewrite (decide_True (P := Authorization r = Authorization r)) by done.
    split; [| reflexivity].
    case_bool_decide as Hs.
    + apply (substring_HasPrefix _ "Bearer ") in Hs. congruence.
    + rewrite andb_false_r, Hv. reflexivity.
  - intros n He Hb. unfold getUserIDFromToken, extractUserIDFromToken, TrimPrefix in *.
    destruct (decide (Authorization r = "")) as [| Hne]; [discriminate |].
    destruct (HasPrefix (Authorization r) "Bearer ") eqn:Hp.
    + apply HasPrefix_split in Hp.
      set (tok := sliceFrom (String.length "Bearer ") (Authorization r)) in *.
      destruct (decide (tok = Authorization r)); [discriminate |].
      rewrite Hp.
      assert (tok ≠ "") by (intros E; rewrite E in Hp; done).
      assert (Hlen : (7 <? Z.of_nat (String.length ("Bearer " ++ tok))) = true).
      { apply Z.ltb_lt. rewrite app_length_string. destruct tok; [done |].
        simpl. lia. }
      rewrite Hlen. change 7%nat with (String.length "Bearer ").
      rewrite (substring_app "Bearer " tok).
      rewrite bool_decide_eq_true_2 by done. cbn [andb].
      rewrite sliceFrom_app.
      destruct (re_ValidateToken e tok); [discriminate |]. congruence.
    + rewrite decide_True in He by done. discriminate.
Qed.

(** ** One-time codes *)

Lemma pretty_N_char_digit x : 48 <= byteOf (pretty_N_char x) <= 57.
Proof. unfold pretty_N_char. repeat case_match; vm_compute; split; discriminate. Qed.

Lemma pretty_N_go_digits x s : allDigits s -> allDigits (pretty_N_go x s).
Proof.
  revert s. induction (N.lt_wf_0 x) as [x _ IH]; intros s Hs.
  assert (x = 0 ∨ 0 < x)%N as [-> | ?] by lia.
  - rewrite pretty_N_go_0. exact Hs.
  - rewrite pretty_N_go_step by done. apply IH.
    + apply N.div_lt; [done | reflexivity].
    + split; [apply pretty_N_char_digit | exact Hs].
Qed.

Lemma pretty_N_go_length k x s :
  (x < 10 ^ N.of_nat k)%N
  -> (String.length (pretty_N_go x s) <= String.length s + k)%nat.
Proof.
  revert x s. induction k as [| k IH]; intros x s Hx.
  - assert (x = 0%N) as -> by (simpl in Hx; lia). rewrite pretty_N_go_0. lia.
  - assert (x = 0 ∨ 0 < x)%N as [-> | ?] by lia.
    + rewrite pretty_N_go_0. lia.
    + rewrite pretty_N_go_step by done.
      etrans; [apply IH |]; [| simpl; lia].
      apply N.Div0.div_lt_upper_bound.
      rewrite Nat2N.inj_succ, N.pow_succ_r' in Hx. exact Hx.
Qed.

Lemma sprintf_d_digits n : 0 <= n -> allDigits (sprintf_d n).
Proof.
  intros Hn. unfold sprintf_d, pretty, pretty_Z. destruct n as [| p | p]; [| | lia].
  - vm_compute. repeat split; discriminate.
  - unfold pretty, pretty_positive, pretty, pretty_N.
    case_decide; [done |]. apply pretty_N_go_digits. exact I.
Qed.

Lemma sprintf_d_length k n :
  0 <= n < 10 ^ Z.of_nat k -> (1 <= k)%nat
  -> (String.length (sprintf_d n) <= k)%nat.
Proof.
  intros Hn Hk. unfold sprintf_d, pretty, pretty_Z. destruct n as [| p | p]; [| | lia].
  - simpl. lia.
  - unfold pretty, pretty_positive, pretty, pretty_N.
    case_decide; [done |].
    etrans; [apply (pretty_N_go_length k) |]; [| simpl; lia].
    apply N2Z.inj_lt. rewrite N2Z.inj_pow, nat_N_Z. simpl. lia.
Qed.

Lemma repeatByte_length n c : String.length (repeatByte n c) = n.
Proof. induction n as [| n IH]; simpl; [reflexivity | by rewrite IH]. Qed.

Lemma repeatByte_zero_digits n s :
  allDigits s -> allDigits (repeatByte n (Ascii.ascii_of_nat 48) ++ s).
Proof.
  intros Hs. induction n as [| n IH]; simpl; [exact Hs |].
  split; [vm_compute; split; discriminate | exact IH].
Qed.

Lemma timesTen_pow turns m :
  0 <= m < 2 ^ 64 -> timesTen turns m = (m * 10 ^ Z.of_nat turns) mod 2 ^ 64.
Proof.
  revert m. induction turns as [| n IH]; intros m Hm.
  - simpl. rewrite Z.mul_1_r, Z.mod_small; [reflexivity | exact Hm].
  - cbn [timesTen]. rewrite IH by (unfold wrap64; apply Z.mod_pos_bound; lia).
    unfold wrap64. rewrite Z.mul_mod_idemp_l by lia.
    rewrite Nat2Z.inj_succ, Z.pow_succ_r by lia. f_equal. lia.
Qed.

Lemma nonzeroBelow64_true : nonzeroBelow64 = true.
Proof. vm_compute. reflexivity. Qed.

Lemma ten_pow_mod n :
  (n < 64)%nat -> 10 ^ Z.of_nat n mod 2 ^ 64 ≠ 0.
Proof.
  intros Hn. pose proof nonzeroBelow64_true as H. unfold nonzeroBelow64 in H.
  rewrite forallb_forall in H. specialize (H n).
  rewrite negb_true_iff, Z.eqb_neq in H. apply H.
  apply in_seq. lia.
Qed.

Lemma ten_pow_mod_zero n : (64 <= n)%nat -> 10 ^ Z.of_nat n mod 2 ^ 64 = 0.
Proof.
  intros Hn. replace (Z.of_nat n) with (64 + Z.of_nat (n - 64)) by lia.
  rewrite Z.pow_add_r by lia.
  rewrite <- Z.mul_mod_idemp_l by lia.
  replace (10 ^ 64 mod 2 ^ 64) with 0 by (vm_compute; reflexivity).
  reflexivity.
Qed.

(** A one-time code of a length from 1 to 63 has exactly that many
    decimal digits; up to 19 it is the seed modulo the power of ten, padded
    with zeros on the left; from 64 on, the call panics with a division by
    zero. *)
Theorem generateNumericCode_digits seed length :
  0 <= seed < 2 ^ 64
  -> (1 <= length <= 63
      -> ∃ code, generateNumericCode seed length = Some code
           ∧ Z.of_nat (String.length code) = length ∧ allDigits code)
     ∧ (1 <= length <= 19
        -> generateNumericCode seed length
           = Some (sprintf_0wd length (seed mod 10 ^ length)))
     ∧ (64 <= length -> generateNumericCode seed length = None).
Proof.
  intros Hseed. unfold generateNumericCode.
  rewrite timesTen_pow by lia. rewrite Z.mul_1_l.
  assert (Hsmall : 1 <= length <= 19
                   -> 10 ^ Z.of_nat (Z.to_nat length) mod 2 ^ 64 = 10 ^ length).
  { intros Hl. rewrite Z2Nat.id by lia. apply Z.mod_small. split; [lia |].
    apply Z.le_lt_trans with (10 ^ 19); [| reflexivity].
    apply Z.pow_le_mono_r; lia. }
  repeat split.
  - intros Hl.
    pose proof (ten_pow_mod (Z.to_nat length) ltac:(lia)) as Hnz.
    rewrite decide_False by exact Hnz.
    remember (10 ^ Z.of_nat (Z.to_nat length) mod 2 ^ 64) as m eqn:Em.
    assert (Hm : 0 < m < 2 ^ 64)
      by (pose proof (Z.mod_pos_bound (10 ^ Z.of_nat (Z.to_nat length)) (2 ^ 64)
                        ltac:(lia)); lia).
    pose proof (Z.mod_pos_bound seed m ltac:(lia)) as Hv.
    eexists. split; [reflexivity |].
    unfold sprintf_0wd. rewrite (proj2 (Z.leb_le 0 length)) by lia.
    assert (Hlen : (String.length (sprintf_d (seed mod m)) <= Z.to_nat length)%nat).
    { destruct (Z_le_gt_dec length 19) as [Hs | Hs].
      - apply sprintf_d_length; [| lia].
        rewrite Hsmall in Em by lia. rewrite Z2Nat.id by lia. lia.
      - etrans; [apply (sprintf_d_length 20) |]; [| lia | lia].
        split; [lia |]. apply Z.lt_trans with (2 ^ 64); [lia | reflexivity]. }
    split.
    + rewrite app_length_string, repeatByte_length. lia.
    + apply repeatByte_zero_digits, sprintf_d_digits. lia.
  - intros Hl. rewrite Hsmall by lia.
    rewrite decide_False; [reflexivity |].
    pose proof (Z.pow_pos_nonneg 10 length ltac:(lia) ltac:(lia)). lia.
  - intros Hl. rewrite ten_pow_mod_zero by lia.
    rewrite decide_True by reflexivity. reflexivity.
Qed.

Lemma generateNumericCode_digits_witness :
  generateNumericCode 9876543210123456789 6 = Some "456789"
  ∧ generateNumericCode 9876543210123456789 64 = None.
Proof.
  destruct (generateNumericCode_digits 9876543210123456789 6) as (_ & H & _);
    [lia |].
  destruct (generateNumericCode_digits 9876543210123456789 64) as (_ & _ & H');
    [lia |].
  split; [rewrite H by lia; vm_compute; reflexivity | apply H'; lia].
Defined.

(** ** Deleting from the history *)

Lemma remaining_zero scanID results :
  remaining scanID results = 0 <-> ¬ refersTo results scanID.
Proof.
  unfold remaining, refersTo. split.
  - intros H (a & Ha & E).
    assert (Hf : a ∈ filter (fun a => ScanHistoryID a = Some scanID) results)
      by (apply list_elem_of_filter; done).
    destruct (filter _ results); [inversion Hf | simpl in H; lia].
  - intros H. destruct (filter _ results) as [| a l] eqn:E; [reflexivity |].
    exfalso. apply H. exists a.
    assert (Hf : a ∈ filter (fun a => ScanHistoryID a = Some scanID) results)
      by (rewrite E; left).
    apply list_elem_of_filter in Hf. tauto.
Qed.

Lemma dropScan_results u scanID w :
  analysis_results (dropScanIfUnused u scanID w) = analysis_results w.
Proof. unfold dropScanIfUnused. case_decide; reflexivity. Qed.

Lemma dropScan_history u scanID w sh :
  sh ∈ scan_history (dropScanIfUnused u scanID w)
  <-> sh ∈ scan_history w
      ∧ ¬ (¬ refersTo (analysis_results w) scanID
           ∧ SH_ID sh = scanID ∧ SH_UserID sh = u).
Proof.
  unfold dropScanIfUnused. case_decide as H; rewrite remaining_zero in H.
  - cbn. rewrite list_elem_of_filter. tauto.
  - tauto.
Qed.

Lemma dropScan_rest u scanID w :
  let w' := dropScanIfUnused u scanID w in
  heap w' = heap w ∧ userSessions w' = userSessions w
  ∧ transactions w' = transactions w.
Proof. unfold dropScanIfUnused. case_decide; done. Qed.

Lemma sweeps_nil u w : sweeps u [] w w.
Proof.
  split; [reflexivity |]. split; [| done].
  intros sh. split; [| tauto].
  intros Hs. split; [done |]. intros (? & Hin & _). inversion Hin.
Qed.

Lemma foldr_dropScan u l w : sweeps u l w (foldr (dropScanIfUnused u) w l).
Proof.
  induction l as [| x l (IHa & IHs & IHh & IHu & IHt)]; cbn [foldr];
    [apply sweeps_nil |].
  destruct (dropScan_rest u x (foldr (dropScanIfUnused u) w l)) as (Eh & Eu & Et).
  split; [rewrite dropScan_results; exact IHa |].
  split; [| split; [congruence | split; congruence]].
  intros sh. rewrite dropScan_history, IHa, IHs. split.
  - intros [[H1 H2] H3].
    split; [done |]. intros (s & Hin & Hr). apply elem_of_cons in Hin as [-> | Hin].
    + apply H3. tauto.
    + apply H2. eauto.
  - intros [H1 H2]. split; [split |].
    + done.
    + intros (s & Hin & Hr). apply H2. exists s. split; [by right | done].
    + intros Hr. apply H2. exists x. split; [by left | tauto].
Qed.

Lemma foldl_dropScan u l w :
  sweeps u l w (foldl (fun w s => dropScanIfUnused u s w) w l).
Proof.
  revert w. induction l as [| x l IH]; intros w; cbn [foldl];
    [apply sweeps_nil |].
  destruct (IH (dropScanIfUnused u x w)) as (IHa & IHs & IHh & IHu & IHt).
  destruct (dropScan_rest u x w) as (Eh & Eu & Et).
  rewrite dropScan_results in IHa.
  split; [exact IHa |].
  split; [| split; [congruence | split; congruence]].
  intros sh. rewrite IHs, dropScan_history, dropScan_results. split.
  - intros [[H1 H2] H3].
    split; [done |]. intros (s & Hin & Hr). apply elem_of_cons in Hin as [-> | Hin].
    + apply H2. tauto.
    + apply H3. eauto.
  - intros [H1 H2]. split; [split |].
    + done.
    + intros Hr. apply H2. exists x. split; [by left | tauto].
    + intros (s & Hin & Hr). apply H2. exists s. split; [by right | done].
Qed.

(** Each deletion is: drop the selected results, then sweep scans that
    selected results named; but for a deletion by id whose key is shared,
    every scan a selected result named is swept. *)
Lemma delete_sweeps u d w :
  ∃ kept keys,
    sweeps u keys (with_analysis_results kept w) (deleteAnalyses u d w).1
    ∧ (∀ a, a ∈ kept <-> a ∈ analysis_results w ∧ ¬ selected u d a)
    ∧ (∀ scanID, scanID ∈ keys
         -> ∃ a, a ∈ analysis_results w ∧ selected u d a
                 ∧ ScanHistoryID a = Some scanID)
    ∧ (uniqueResultIDs w
       -> ∀ a scanID, a ∈ analysis_results w -> selected u d a
            -> ScanHistoryID a = Some scanID -> scanID ∈ keys).
Proof.
  destruct d as [i | ids |]; cbn [deleteAnalyses].
  - unfold DeleteAnalysisByID.
    destruct (filter _ (analysis_results w)) as [| a0 l] eqn:E.
    + assert (Hno : ∀ a, a ∈ analysis_results w -> ¬ selected u (ByID i) a).
      { intros a Ha [Hu Hi].
        assert (Hf : a ∈ filter (fun a => AR_ID a = i ∧ AR_UserID a = u)
                           (analysis_results w))
          by (apply list_elem_of_filter; done).
        rewrite E in Hf. inversion Hf. }
      exists (analysis_results w), []. cbn [fst].
      split; [destruct w; apply sweeps_nil |].
      split; [intros a; split; [intros Ha; split; [done | by apply Hno] | tauto] |].
      split; [intros ? Hin; inversion Hin |].
      intros _ a sid Ha Hsel _. destruct (Hno a Ha Hsel).
    + assert (H0 : a0 ∈ analysis_results w ∧ AR_ID a0 = i ∧ AR_UserID a0 = u).
      { assert (Hf : a0 ∈ filter (fun a => AR_ID a = i ∧ AR_UserID a = u)
                           (analysis_results w)) by (rewrite E; left).
        apply list_elem_of_filter in Hf. tauto. }
      destruct H0 as (H0 & H0i & H0u).
      exists (filter (fun a => ¬ (AR_ID a = i ∧ AR_UserID a = u))
                (analysis_results w)),
             (match ScanHistoryID a0 with Some sid => [sid] | None => [] end).
      cbn [fst].
      split; [destruct (ScanHistoryID a0);
              [apply (foldr_dropScan u [_]) | apply sweeps_nil] |].
      split; [intros a; rewrite list_elem_of_filter; unfold selected; tauto |].
      split.
      * intros sid Hin. exists a0. unfold selected.
        destruct (ScanHistoryID a0); [| inversion Hin].
        apply list_elem_of_singleton in Hin as ->. done.
      * intros Hnd a sid Ha [Hu Hi] Hs.
        assert (a = a0) as ->.
        { unfold uniqueResultIDs in Hnd.
          apply list_elem_of_lookup in Ha as (j & Hj), H0 as (k & Hk).
          assert (j = k).
          { eapply NoDup_lookup; [exact Hnd | |].
            - rewrite list_lookup_fmap, Hj. reflexivity.
            - rewrite list_lookup_fmap, Hk. simpl. congruence. }
          subst k. congruence. }
        rewrite Hs. by left.
  - unfold DeleteAnalysesByIDs. destruct (decide (length ids = 0%nat)) as [E | E].
    + apply nil_length_inv in E. subst ids. cbn [fst].
      exists (analysis_results w), [].
      assert (Hno : ∀ a, ¬ selected u (ByIDs []) a)
        by (intros a [_ Hin]; inversion Hin).
      split; [destruct w; apply sweeps_nil |].
      split; [intros a; split; [intros Ha; split; [done | apply Hno] | tauto] |].
      split; [intros ? Hin; inversion Hin |].
      intros _ a sid _ Hsel. destruct (Hno a Hsel).
    + cbn [fst]. eexists _, _. split; [apply foldr_dropScan |].
      split; [intros a; rewrite list_elem_of_filter; unfold selected; tauto |].
      split.
      * intros sid Hk. apply elem_of_elements, elem_of_list_to_set in Hk.
        apply list_elem_of_omap in Hk as (a & Ha & Hs).
        apply list_elem_of_filter in Ha as [[? ?] ?].
        exists a. unfold selected. tauto.
      * intros _ a sid Ha [Hu Hi] Hs.
        apply elem_of_elements, elem_of_list_to_set, list_elem_of_omap.
        exists a. split; [| done]. apply list_elem_of_filter. done.
  - unfold DeleteAllAnalyses. cbn [fst].
    eexists _, _. split; [apply foldl_dropScan |].
    split; [intros a; rewrite list_elem_of_filter; unfold selected; tauto |].
    split.
    + intros sid Hk. apply list_elem_of_omap in Hk as (a & Ha & Hs).
      apply list_elem_of_filter in Ha as [? ?].
      exists a. unfold selected. tauto.
    + intros _ a sid Ha [Hu _] Hs. apply list_elem_of_omap.
      exists a. split; [| done]. apply list_elem_of_filter. done.
Qed.

(** A deletion removes exactly the results it was asked for, all of
    them the user's; it removes no scan of another user and no scan that a
    remaining result names, so that references stay good; it leaves
    sessions, registry and transactions alone; and a deletion by an id that
    selects no result of the user answers "record not found" and changes
    nothing. *)
Theorem deletions_stay_with_the_user u d w :
  let w' := (deleteAnalyses u d w).1 in
  (∀ a, a ∈ analysis_results w' <-> a ∈ analysis_results w ∧ ¬ selected u d a)
  ∧ (∀ sh, sh ∈ scan_history w' -> sh ∈ scan_history w)
  ∧ (∀ sh, sh ∈ scan_history w
       -> SH_UserID sh ≠ u ∨ refersTo (analysis_results w') (SH_ID sh)
       -> sh ∈ scan_history w')
  ∧ (wellReferenced w -> wellReferenced w')
  ∧ heap w' = heap w ∧ userSessions w' = userSessions w
  ∧ transactions w' = transactions w
  ∧ ∀ analysisID,
      d = ByID analysisID
      -> (∀ a, a ∈ analysis_results w -> ¬ selected u d a)
      -> deleteAnalyses u d w = (w, inl "record not found").
Proof.
  destruct (delete_sweeps u d w)
    as (kept & keys & (Ea & Es & Eh & Eu & Et) & Hk & _).
  cbn in Ea, Es, Eh, Eu, Et. cbn zeta.
  assert (Hstay : ∀ sh, sh ∈ scan_history w
            -> SH_UserID sh ≠ u
               ∨ refersTo (analysis_results (deleteAnalyses u d w).1) (SH_ID sh)
            -> sh ∈ scan_history (deleteAnalyses u d w).1).
  { intros sh Hin Hor. apply Es. split; [done |].
    intros (sid & _ & Hn & <- & Hu). rewrite Ea in Hor. tauto. }
  split; [intros a; rewrite Ea; apply Hk |].
  split; [intros sh Hs; apply Es in Hs; tauto |].
  split; [exact Hstay |].
  split.
  { intros Hw a sid Ha Hs. rewrite Ea in Ha.
    destruct (Hw a sid (proj1 (proj1 (Hk a) Ha)) Hs) as (sh & Hsh & Hid).
    exists sh. split; [| done]. apply Hstay; [done |].
    right. rewrite Ea. exists a. split; [done | congruence]. }
  split; [done |]. split; [done |]. split; [done |].
  intros i -> Hno. cbn [deleteAnalyses]. unfold DeleteAnalysisByID.
  destruct (filter _ (analysis_results w)) as [| a0 l] eqn:E; [reflexivity |].
  exfalso.
  assert (Hf : a0 ∈ filter (fun a => AR_ID a = i ∧ AR_UserID a = u)
                       (analysis_results w)) by (rewrite E; left).
  apply list_elem_of_filter in Hf as [[Hi Hu] Hin].
  apply (Hno a0 Hin). split; done.
Qed.

(** With the primary key in place, a deletion sweeps the history: a
    scan of the user that a removed result named and no remaining result
    names is gone; a scan that goes is such a scan. *)
Theorem deletions_sweep_the_history u d w :
  uniqueResultIDs w
  -> let w' := (deleteAnalyses u d w).1 in
     ∀ sh, sh ∈ scan_history w
       -> (sh ∉ scan_history w'
           <-> SH_UserID sh = u
               ∧ ¬ refersTo (analysis_results w') (SH_ID sh)
               ∧ ∃ a, a ∈ analysis_results w ∧ selected u d a
                      ∧ ScanHistoryID a = Some (SH_ID sh)).
Proof.
  intros Hnd.
  destruct (delete_sweeps u d w)
    as (kept & keys & (Ea & Es & Eh & Eu & Et) & Hk & Hkeys & Hall).
  cbn in Ea, Es, Eh, Eu, Et. cbn zeta. intros sh Hin. rewrite Ea. split.
  - intros Hout. rewrite Es in Hout.
    assert (Hu : SH_UserID sh = u).
    { apply dec_stable. intros Hn. apply Hout. split; [done |].
      intros (? & _ & _ & _ & ?). done. }
    assert (Hr : ¬ refersTo kept (SH_ID sh)).
    { intros Hr. apply Hout. split; [done |].
      intros (s & _ & Hn & <- & _). done. }
    split; [done |]. split; [done |].
    destruct (decide (SH_ID sh ∈ keys)) as [Hin' | Hn]; [by apply Hkeys |].
    exfalso. apply Hout. split; [done |]. intros (s & Hs & _ & <- & _). done.
  - intros (Hu & Hr & a & Ha & Hsel & Hs) Hstay. apply Es in Hstay as [_ Hn].
    apply Hn. exists (SH_ID sh). split; [eapply Hall; eauto | done].
Qed.

Lemma deletions_sweep_the_history_witness :
  mkScanHistory 1 7 "6281111111111" 100 "success" "{}" ""
    ∉ scan_history (deleteAnalyses 7 (ByID 1) history_world).1.
Proof.
  apply (deletions_sweep_the_history 7 (ByID 1) history_world).
  - unfold uniqueResultIDs. apply NoDup_cons. split.
    + intros H. apply list_elem_of_singleton in H. discriminate H.
    + apply NoDup_singleton.
  - left.
  - split; [reflexivity |]. split.
    + intros (a & Ha & Hs). vm_compute in Ha.
      apply list_elem_of_singleton in Ha. subst a. discriminate Hs.
    + eexists. split; [left |]. split; [split; reflexivity | reflexivity].
Defined.

(** ** The monitors of the single-user client *)

Lemma monitorQR_turn_inv w r m :
  monitorInv w (m, Running) -> monitorInv w (monitorQR_turn r m).
Proof.
  intros (Hf & Hc & Hr & H5 & _ & Hcl & Hre & Hda). cbn [fst snd] in *.
  specialize (Hr eq_refl).
  unfold monitorQR_turn. destruct r as [evt [b64 |] |].
  - destruct (decide (Event evt = "code")).
    + destruct (Z.of_nat (String.length (Code evt)) <? 20); unfold monitorInv;
        cbn; repeat split; try done; try lia; eauto.
    + destruct (decide (Event evt = "timeout")).
      * destruct (timeoutCount m + 1 >=? maxTimeouts) eqn:E;
          unfold maxTimeouts in E; rewrite Z.geb_leb in E.
        -- apply Z.leb_le in E. unfold monitorInv; cbn.
           repeat split; try done; try lia.
        -- apply Z.leb_gt in E. unfold monitorInv; cbn.
           repeat split; try done; try lia.
           apply Forall_app. split; [done |]. constructor; [| constructor].
           exists (timeoutCount m + 1). split; [lia |].
           assert (Hle : (timeoutCount m + 1) * (timeoutCount m + 1) <= 16) by nia.
           destruct (_ >? _) eqn:G; [| reflexivity].
           unfold Second, Nanosecond in G |- *.
           apply Z.gtb_lt in G. lia.
      * unfold monitorInv; cbn. repeat split; try done; try lia.
  - destruct (decide (Event evt = "code")).
    + unfold monitorInv; cbn. repeat split; try done; try lia.
    + destruct (decide (Event evt = "timeout")).
      * destruct (timeoutCount m + 1 >=? maxTimeouts) eqn:E;
          unfold maxTimeouts in E; rewrite Z.geb_leb in E.
        -- apply Z.leb_le in E. unfold monitorInv; cbn.
           repeat split; try done; try lia.
        -- apply Z.leb_gt in E. unfold monitorInv; cbn.
           repeat split; try done; try lia.
           apply Forall_app. split; [done |]. constructor; [| constructor].
           exists (timeoutCount m + 1). split; [lia |].
           assert (Hle : (timeoutCount m + 1) * (timeoutCount m + 1) <= 16) by nia.
           destruct (_ >? _) eqn:G; [| reflexivity].
           unfold Second, Nanosecond in G |- *.
           apply Z.gtb_lt in G. lia.
      * unfold monitorInv; cbn. repeat split; try done; try lia.
  - unfold monitorInv; cbn. repeat split; try done; try lia.
Qed.

Lemma monitorQR_loop_inv w received m :
  monitorInv w (m, Running) -> monitorInv w (monitorQR_loop received m).
Proof.
  revert m. induction received as [| r received IH]; intros m Hm; [exact Hm |].
  cbn [monitorQR_loop].
  pose proof (monitorQR_turn_inv w r m Hm) as Ht.
  destruct (monitorQR_turn r m) as [m' []]; [apply IH | |]; exact Ht.
Qed.

Lemma monitorQR_turn_timeout evt qrBase64 m :
  Event evt = "timeout"
  -> monitorQR_turn (Recv_item evt qrBase64) m
     = (if timeoutCount m + 1 >=? maxTimeouts then
          (mkMonitor (set_qrCode "" (mon_w m)) (timeoutCount m + 1) (refreshes m),
           Stopped)
        else
          (mkMonitor (set_qrCode "" (mon_w m)) (timeoutCount m + 1)
             (refreshes m
                ++ [if (timeoutCount m + 1) * (timeoutCount m + 1) * Second
                       >? 30 * Second
                    then 30 * Second
                    else (timeoutCount m + 1) * (timeoutCount m + 1) * Second])%list,
           Running)).
Proof.
  intros He. unfold monitorQR_turn. rewrite He.
  rewrite decide_False by discriminate. rewrite decide_True by reflexivity.
  reflexivity.
Qed.

(** Whatever the QR channel delivers, the monitor of the single-user
    client sleeps 1, 4, 9 or 16 seconds before a refresh, so that the cap of
    30 seconds is never applied; it never counts beyond five timeouts, and
    at five it has returned with the QR code cleared; it panics only after
    it has stored a QR code; and it never writes the client, the ready flag
    or the cache. Five timeouts in a row from the start end it, after four
    refreshes. *)
Theorem monitorQR_backoff received w :
  let m := (monitorQR received w).1 in
  let control := (monitorQR received w).2 in
  (Forall squareBackoff (refreshes m)
   ∧ 0 <= timeoutCount m <= 5
   ∧ (control = Running -> timeoutCount m <= 4)
   ∧ (timeoutCount m = 5 -> control = Stopped ∧ wa_qrCode (mon_w m) = "")
   ∧ (control = Panicked
      -> ∃ qrBase64, wa_qrCode (mon_w m) = "data:image/png;base64," ++ qrBase64)
   ∧ wa_client (mon_w m) = wa_client w
   ∧ wa_ready (mon_w m) = wa_ready w
   ∧ wa_analysisData (mon_w m) = wa_analysisData w)
  ∧ ∀ evt qrBase64 rest,
      Event evt = "timeout"
      -> monitorQR (replicate 5 (Recv_item evt qrBase64) ++ rest) w
         = (mkMonitor (set_qrCode "" w) 5
              [1 * Second; 4 * Second; 9 * Second; 16 * Second],
            Stopped).
Proof.
  split.
  - apply (monitorQR_loop_inv w received (mkMonitor w 0 [])).
    unfold monitorInv. cbn. repeat split; try done; try lia.
  - intros evt qrBase64 rest He. unfold monitorQR.
    cbn [replicate app monitorQR_loop].
    repeat (rewrite (monitorQR_turn_timeout _ _ _ He);
            cbn [timeoutCount mon_w refreshes];
            match goal with
            | |- context [?a >=? maxTimeouts] =>
                let b := eval vm_compute in (a >=? maxTimeouts) in
                change (a >=? maxTimeouts) with b
            end;
            cbv iota beta zeta).
    reflexivity.
Qed.

Lemma waitForContacts_loop_ready left answers attempt w c :
  wa_client w = Some c
  -> waitForContacts_loop left answers attempt w = set_ready true w.
Proof.
  intros E. revert attempt.
  induction left as [| left IH]; intros attempt; cbn; [reflexivity |].
  rewrite E. destruct (answers attempt) as [n |]; [| apply IH].
  destruct (n >? 0); [reflexivity | apply IH].
Qed.

(** With a client, [waitForContactsAndSetReady] ends with the ready
    flag set whatever the contact store answers, errors and empty lists
    included, and it leaves the cache as it is; without a client it changes
    nothing. *)
Theorem ready_is_set_whatever_the_contacts answers w :
  waitForContactsAndSetReady answers w
  = (if decide (wa_client w = None) then w else set_ready true w)
  ∧ ∀ storeID,
      wa_cachedAnalysis storeID (waitForContactsAndSetReady answers w)
      = wa_cachedAnalysis storeID w.
Proof.
  assert (H : waitForContactsAndSetReady answers w
              = (if decide (wa_client w = None) then w else set_ready true w)).
  { unfold waitForContactsAndSetReady.
    destruct (wa_client w) as [c |] eqn:E; [| cbn; rewrite E; reflexivity].
    rewrite decide_False by done.
    eapply waitForContacts_loop_ready, E. }
  split; [exact H |]. intros storeID. rewrite H.
  destruct (decide _); reflexivity.
Qed.
